(** * compliance-rag: the chat front end's stream consumer, session cache
      updates and status polling, and the chunking policy of the spec.

    Embedded sources:
      - frontend/src/types/chat.ts          (the data model)
      - frontend/src/hooks/use-chat.ts      (useSendMessage, useStreamingChat)
      - frontend/src/hooks/use-documents.ts (useDocumentProcessingStatus)
      - types/documents.ts, types/api.ts    (DocumentProcessingStatus, QueryKeys)

    JavaScript strings are modelled as [string]; a value that may be
    [undefined] is an [option]; React state is a record that the [set...]
    calls update, while the values a callback reads from its enclosing render
    are kept apart in a [Closure]. *)

From Stdlib Require Import ZArith QArith String Ascii List Lia.
From stdpp Require Import base gmap strings list pretty.

Local Open Scope string_scope.

(** ** JavaScript string helpers *)

Module JS.

(** The line feed, ['\n']. *)
Definition LF : ascii := "010"%char.

(** The double quote. *)
Definition DQ : ascii := "034"%char.

(** A string as a condition: only the empty string is falsy. *)
Definition truthy (s : string) : bool :=
  match s with
  | EmptyString => false
  | String _ _ => true
  end.

(** An optional string as a condition: [undefined] and [''] are falsy. *)
Definition truthy_opt (o : option string) : bool :=
  match o with
  | Some s => truthy s
  | None => false
  end.

(** [a || b] on optional strings. *)
Definition or_else (a b : option string) : option string :=
  if truthy_opt a then a else b.

(** [a || d] with a string default. *)
Definition or_default (a : option string) (d : string) : string :=
  match a with
  | Some s => if truthy s then s else d
  | None => d
  end.

(** [s.startsWith(p)]. *)
Fixpoint startsWith (p s : string) : bool :=
  match p with
  | EmptyString => true
  | String a p' =>
      match s with
      | EmptyString => false
      | String b s' => if Ascii.eqb a b then startsWith p' s' else false
      end
  end.

(** [s.slice(n)] for a non-negative [n]. *)
Fixpoint slice (n : nat) (s : string) : string :=
  match n with
  | O => s
  | S n' =>
      match s with
      | EmptyString => EmptyString
      | String _ s' => slice n' s'
      end
  end.

(** [s.split('\n')]: the pieces between line feeds, never an empty array. *)
Fixpoint split (s : string) : list string :=
  match s with
  | EmptyString => [EmptyString]
  | String c s' =>
      if Ascii.eqb c LF then EmptyString :: split s'
      else
        match split s' with
        | [] => [String c EmptyString]
        | h :: t => String c h :: t
        end
  end.

(** [lines.pop()]: the array without its last element, and that element. *)
Fixpoint pop (l : list string) : list string * option string :=
  match l with
  | [] => ([], None)
  | [x] => ([], Some x)
  | x :: l' => let '(init, lst) := pop l' in (x :: init, lst)
  end.

(** [Number.isSafeInteger(n)] on a number that is an integer: up to
    2^53 - 1 either way. The sums and differences of such numbers that
    are such numbers again are exact in the arithmetic of the code, which
    is that of doubles; the integers of the model stand for the code's
    numbers within that range. *)
Definition isSafeInteger (n : Z) : bool :=
  ((- (2 ^ 53 - 1) <=? n) && (n <=? 2 ^ 53 - 1))%Z.

(** All chunks appended, as [buffer += chunk] does over time. *)
Fixpoint concat (l : list string) : string :=
  match l with
  | [] => EmptyString
  | c :: l' => String.append c (concat l')
  end.

End JS.

(** ** types/chat.ts *)

Inductive Role := user | assistant.

Module DocumentReference.
Record t := {
  document_id : string;
  filename : string;
  page_number : option Z;
  chunk_id : option string;
  relevance_score : Q;
  snippet : option string }.
End DocumentReference.

Module MessageMetadata.
Record t := {
  sources : option (list DocumentReference.t);
  confidence : option Q;
  processing_time : option Q;
  model_used : option string;
  tokens_used : option Z }.
End MessageMetadata.

Module Message.
Record t := {
  id : string;
  content : string;
  role : Role;
  timestamp : string;
  metadata : option MessageMetadata.t }.
End Message.

Module ChatSession.
Record t := {
  id : string;
  title : string;
  messages : list Message.t;
  created_at : string;
  updated_at : string;
  user_id : string }.
End ChatSession.

Module ChatRequest.
Record t := {
  message : string;
  session_id : option string;
  include_sources : option bool;
  max_sources : option Z }.
End ChatRequest.

Module ChatResponse.
Record t := {
  message : Message.t;
  session_id : string;
  sources : option (list DocumentReference.t) }.
End ChatResponse.

Module ChatSessionsResponse.
Record t := {
  sessions : list ChatSession.t;
  total : Z }.
End ChatSessionsResponse.

(** The discriminator is kept as the string the payload carries: the
    interface declares four values, the consumer's [switch] has no default. *)
Module StreamingChatResponse.
Record t := {
  type : string;
  content : option string;
  sources : option (list DocumentReference.t);
  error : option string;
  message_id : option string }.
End StreamingChatResponse.

(** ** types/documents.ts *)

Inductive ProcessingStatus := pending | processing | completed | failed.

Module DocumentProcessingStatus.
Record t := {
  document_id : string;
  status : ProcessingStatus;
  progress : option Q;
  error_message : option string;
  updated_at : string }.
End DocumentProcessingStatus.

(** ** What the hooks see of their environment *)

Module Error.
Record t := { name : string; message : string }.
End Error.

(** [new Error(msg)]. *)
Definition new_Error (msg : string) : Error.t :=
  {| Error.name := "Error"; Error.message := msg |}.

(** What [JSON.parse] throws. *)
Definition SyntaxError : Error.t :=
  {| Error.name := "SyntaxError"; Error.message := "Unexpected token" |}.

(** What a fetch or a read rejects with once its signal is aborted; only the
    name is looked at. *)
Definition AbortError : Error.t :=
  {| Error.name := "AbortError"; Error.message := "The operation was aborted." |}.

(** A statement list either runs to its end or throws. *)
Inductive Completion (A : Type) :=
  | normal (a : A)
  | throw (e : Error.t).
Arguments normal {A} a.
Arguments throw {A} e.

(** One reading of the clock: [Date.now()] and [new Date().toISOString()].
    The readings of one synchronous block are taken at the same instant. *)
Record Date := { now : Z; toISOString : string }.

Module Toast.
Record t := { title : string; description : string; variant : option string }.
End Toast.

(** The query client's cache under the two keys the chat hooks write:
    [QueryKeys.CHAT_SESSION(id)] and [QueryKeys.CHAT_SESSIONS]. *)
Record QueryCache := {
  CHAT_SESSION : gmap string ChatSession.t;
  CHAT_SESSIONS : option ChatSessionsResponse.t }.

(** [queryClient.setQueryData(key, updater)]: the updater gets the cached
    value or [undefined]; when it returns [undefined] nothing is written. *)
Definition setQueryData_CHAT_SESSION (id : string)
    (updater : option ChatSession.t -> option ChatSession.t)
    (c : QueryCache) : QueryCache :=
  match updater (CHAT_SESSION c !! id) with
  | Some data =>
      {| CHAT_SESSION := <[id := data]> (CHAT_SESSION c);
         CHAT_SESSIONS := CHAT_SESSIONS c |}
  | None => c
  end.

Definition setQueryData_CHAT_SESSIONS
    (updater : option ChatSessionsResponse.t -> option ChatSessionsResponse.t)
    (c : QueryCache) : QueryCache :=
  match updater (CHAT_SESSIONS c) with
  | Some data =>
      {| CHAT_SESSION := CHAT_SESSION c; CHAT_SESSIONS := Some data |}
  | None => c
  end.

(** The two updaters that both send paths pass to [setQueryData]. *)

(** [{ ...old, messages: [...old.messages, userMessage, reply], updated_at }] *)
Definition append_turn (userMessage reply : Message.t) (d : Date)
    (old : option ChatSession.t) : option ChatSession.t :=
  match old with
  | None => None
  | Some old =>
      Some {| ChatSession.id := ChatSession.id old;
              ChatSession.title := ChatSession.title old;
              ChatSession.messages :=
                ChatSession.messages old ++ [userMessage; reply];
              ChatSession.created_at := ChatSession.created_at old;
              ChatSession.updated_at := toISOString d;
              ChatSession.user_id := ChatSession.user_id old |}
  end.

(** [session.id === sessionId ? { ...session, updated_at } : session] *)
Definition touch (sessionId : string) (d : Date)
    (session : ChatSession.t) : ChatSession.t :=
  if String.eqb (ChatSession.id session) sessionId then
    {| ChatSession.id := ChatSession.id session;
       ChatSession.title := ChatSession.title session;
       ChatSession.messages := ChatSession.messages session;
       ChatSession.created_at := ChatSession.created_at session;
       ChatSession.updated_at := toISOString d;
       ChatSession.user_id := ChatSession.user_id session |}
  else session.

Definition touch_list (sessionId : string) (d : Date)
    (old : option ChatSessionsResponse.t) : option ChatSessionsResponse.t :=
  match old with
  | None => None
  | Some old =>
      Some {| ChatSessionsResponse.sessions :=
                map (touch sessionId d) (ChatSessionsResponse.sessions old);
              ChatSessionsResponse.total := ChatSessionsResponse.total old |}
  end.

(** The user message both send paths build. *)
Definition userMessage_of (text : string) (d : Date) : Message.t :=
  {| Message.id := "user-" ++ pretty (now d);
     Message.content := text;
     Message.role := user;
     Message.timestamp := toISOString d;
     Message.metadata := None |}.

(** ** use-chat.ts: useSendMessage, the non-streaming send *)

(** [onSuccess(response, request)] *)
Definition useSendMessage_onSuccess (response : ChatResponse.t)
    (request : ChatRequest.t) (d : Date) (c : QueryCache) : QueryCache :=
  let sessionId := ChatResponse.session_id response in
  let c1 :=
    setQueryData_CHAT_SESSION sessionId
      (append_turn (userMessage_of (ChatRequest.message request) d)
                   (ChatResponse.message response) d) c in
  setQueryData_CHAT_SESSIONS (touch_list sessionId d) c1.

(** ** use-chat.ts: useStreamingChat *)

Record AbortController := { aborted : bool }.

(** The hook's React state and its ref. *)
Module Hook.
Record t := {
  isStreaming : bool;
  streamingMessage : string;
  streamingSources : list DocumentReference.t;
  abortControllerRef : option AbortController }.

(** The state of a freshly mounted hook. *)
Definition initial : t :=
  {| isStreaming := false; streamingMessage := ""; streamingSources := [];
     abortControllerRef := None |}.
End Hook.

(** What one [sendStreamingMessage] callback has captured from the render
    that created it. [useCallback] lists all four as dependencies, so every
    render with a new value makes a new callback; a call that is already
    running keeps the values of its own callback. *)
Module Closure.
Record t := {
  isStreaming : bool;
  sessionId : option string;
  streamingMessage : string;
  streamingSources : list DocumentReference.t }.
End Closure.

(** The callback that [useStreamingChat(sessionId)] returns from a render
    in state [h]. *)
Definition render (sessionId : option string) (h : Hook.t) : Closure.t :=
  {| Closure.isStreaming := Hook.isStreaming h;
     Closure.sessionId := sessionId;
     Closure.streamingMessage := Hook.streamingMessage h;
     Closure.streamingSources := Hook.streamingSources h |}.

(** The [options] argument. *)
Module Options.
Record t := {
  sessionId : option string;
  includeSource : option bool;
  maxSources : option Z }.
End Options.

(** Everything a call can change: the hook's state, the query cache, the
    toasts shown, the console, and the requests handed to [fetch]. *)
Record World := {
  hook : Hook.t;
  cache : QueryCache;
  toasts : list Toast.t;
  console : list (list string);
  fetches : list ChatRequest.t }.

Definition set_hook (h : Hook.t) (w : World) : World :=
  {| hook := h; cache := cache w; toasts := toasts w; console := console w;
     fetches := fetches w |}.

Definition set_cache (c : QueryCache) (w : World) : World :=
  {| hook := hook w; cache := c; toasts := toasts w; console := console w;
     fetches := fetches w |}.

Definition toast (t : Toast.t) (w : World) : World :=
  {| hook := hook w; cache := cache w; toasts := toasts w ++ [t];
     console := console w; fetches := fetches w |}.

Definition console_warn (args : list string) (w : World) : World :=
  {| hook := hook w; cache := cache w; toasts := toasts w;
     console := console w ++ [args]; fetches := fetches w |}.

Definition fetch (request : ChatRequest.t) (w : World) : World :=
  {| hook := hook w; cache := cache w; toasts := toasts w;
     console := console w; fetches := fetches w ++ [request] |}.

Definition setIsStreaming (b : bool) (w : World) : World :=
  set_hook {| Hook.isStreaming := b;
              Hook.streamingMessage := Hook.streamingMessage (hook w);
              Hook.streamingSources := Hook.streamingSources (hook w);
              Hook.abortControllerRef := Hook.abortControllerRef (hook w) |} w.

(** [setStreamingMessage(prev => f(prev))] *)
Definition setStreamingMessage (f : string -> string) (w : World) : World :=
  set_hook {| Hook.isStreaming := Hook.isStreaming (hook w);
              Hook.streamingMessage := f (Hook.streamingMessage (hook w));
              Hook.streamingSources := Hook.streamingSources (hook w);
              Hook.abortControllerRef := Hook.abortControllerRef (hook w) |} w.

Definition setStreamingSources (l : list DocumentReference.t) (w : World)
    : World :=
  set_hook {| Hook.isStreaming := Hook.isStreaming (hook w);
              Hook.streamingMessage := Hook.streamingMessage (hook w);
              Hook.streamingSources := l;
              Hook.abortControllerRef := Hook.abortControllerRef (hook w) |} w.

(** [abortControllerRef.current = r] *)
Definition set_abortControllerRef (r : option AbortController) (w : World)
    : World :=
  set_hook {| Hook.isStreaming := Hook.isStreaming (hook w);
              Hook.streamingMessage := Hook.streamingMessage (hook w);
              Hook.streamingSources := Hook.streamingSources (hook w);
              Hook.abortControllerRef := r |} w.

(** The local variables of the read loop together with the world. *)
Record Loop := {
  world : World;
  buffer : string;
  currentMessageId : string }.

Definition on_world (f : World -> World) (s : Loop) : Loop :=
  {| world := f (world s); buffer := buffer s;
     currentMessageId := currentMessageId s |}.

Definition set_currentMessageId (i : string) (s : Loop) : Loop :=
  {| world := world s; buffer := buffer s; currentMessageId := i |}.

Definition set_buffer (b : string) (s : Loop) : Loop :=
  {| world := world s; buffer := b; currentMessageId := currentMessageId s |}.

(** What the code looks at in the response of [fetch]. *)
Module Response.
Record t := { ok : bool; status : Z; has_body : bool }.
End Response.

Section StreamConsumer.

(** [JSON.parse] on a payload, seen through the interface
    [StreamingChatResponse] that the code declares for the result; [None]
    where parsing the payload, or reading [data.type] off the parsed value,
    throws. *)
Variable JSON_parse : string -> option StreamingChatResponse.t.

(** The [switch (data.type)] of the loop body. *)
Definition dispatch (data : StreamingChatResponse.t) (s : Loop)
    : Completion Loop :=
  let type := StreamingChatResponse.type data in
  if String.eqb type "token" then
    normal (on_world (setStreamingMessage (fun prev =>
              prev ++ JS.or_default (StreamingChatResponse.content data) ""))
            s)
  else if String.eqb type "sources" then
    match StreamingChatResponse.sources data with
    | Some l => normal (on_world (setStreamingSources l) s)
    | None => normal s
    end
  else if String.eqb type "done" then
    match StreamingChatResponse.message_id data with
    | Some i => if JS.truthy i then normal (set_currentMessageId i s)
                else normal s
    | None => normal s
    end
  else if String.eqb type "error" then
    throw (new_Error
             (JS.or_default (StreamingChatResponse.error data)
                            "Streaming error"))
  else normal s.

(** The [try] block of the loop body: parse, then dispatch. *)
Definition parse_and_dispatch (line : string) (s : Loop) : Completion Loop :=
  match JSON_parse (JS.slice 6 line) with
  | Some data => dispatch data s
  | None => throw SyntaxError
  end.

(** The body of [for (const line of lines)]; the [catch] takes whatever the
    [try] block throws. *)
Definition handle_line (s : Loop) (line : string) : Loop :=
  if JS.startsWith "data: " line then
    match parse_and_dispatch line s with
    | normal s' => s'
    | throw _ =>
        on_world (console_warn ["Failed to parse streaming data:"; line]) s
    end
  else s.

(** The body of [while (true)] for one value that [reader.read()] gave.
    [value] is the chunk after decoding: the decoder runs in stream mode,
    so the decoded chunks append to the decoded whole. *)
Definition on_value (value : string) (s : Loop) : Loop :=
  let buffer1 := buffer s ++ value in
  let '(lines, last) := JS.pop (JS.split buffer1) in
  let s1 := set_buffer (JS.or_default last "") s in
  fold_left handle_line lines s1.

(** *** The call, cut at its awaits *)

(** What an awaited promise settles to: the response of [fetch], one
    result of [reader.read()], or a rejection. *)
Inductive Awaited :=
  | fetch_fulfilled (r : Response.t)
  | read_value (value : string)
  | read_done
  | rejection (e : Error.t).

(** Where a running call is suspended, with the loop's local variables. *)
Inductive Point :=
  | at_fetch
  | at_read (buffer currentMessageId : string).

(** A running call: its callback's closure, its arguments, its position. *)
Record Call := {
  closure : Closure.t;
  message : string;
  options : Options.t;
  point : Point }.

Definition move (pt : Point) (c : Call) : Call :=
  {| closure := closure c; message := message c; options := options c;
     point := pt |}.

(** How the promise that the call returned settles. *)
Inductive Settled :=
  | resolved
  | rejected (e : Error.t).

Inductive Progress :=
  | awaiting (c : Call)
  | settled (r : Settled).

(** [options.sessionId || sessionId] *)
Definition finalSessionId (c : Call) : option string :=
  JS.or_else (Options.sessionId (options c)) (Closure.sessionId (closure c)).

(** From the entry of [sendStreamingMessage] to [await fetch(...)]. *)
Definition start (cl : Closure.t) (message : string) (options : Options.t)
    (w : World) : World * Progress :=
  if Closure.isStreaming cl then (w, settled resolved)
  else
    let w1 := setIsStreaming true w in
    let w2 := setStreamingMessage (fun _ => "") w1 in
    let w3 := setStreamingSources [] w2 in
    let w4 := set_abortControllerRef (Some {| aborted := false |}) w3 in
    let request :=
      {| ChatRequest.message := message;
         ChatRequest.session_id :=
           JS.or_else (Options.sessionId options) (Closure.sessionId cl);
         ChatRequest.include_sources :=
           Some (default true (Options.includeSource options));
         ChatRequest.max_sources :=
           Some (default 5%Z (Options.maxSources options)) |} in
    (fetch request w4,
     awaiting {| closure := cl; message := message; options := options;
                 point := at_fetch |}).

(** The [catch] block. *)
Definition catch_block (error : Error.t) (w : World) : World :=
  if String.eqb (Error.name error) "AbortError" then w
  else
    toast {| Toast.title := "Streaming failed";
             Toast.description :=
               if JS.truthy (Error.message error) then Error.message error
               else "Failed to stream message.";
             Toast.variant := Some "destructive" |} w.

(** The [finally] block. *)
Definition finally_block (w : World) : World :=
  let w1 := setIsStreaming false w in
  let w2 := setStreamingMessage (fun _ => "") w1 in
  let w3 := setStreamingSources [] w2 in
  set_abortControllerRef None w3.

(** An error thrown inside the outer [try]. *)
Definition thrown (e : Error.t) (w : World) : World * Progress :=
  (finally_block (catch_block e w), settled resolved).

(** After the loop: "Update chat session with final message". The three
    names [streamingMessage], [streamingSources] and [sessionId] are the
    callback's own, that is the closure's. *)
Definition persist (c : Call) (currentMessageId : string) (d : Date)
    (w : World) : World :=
  match finalSessionId c with
  | Some sid =>
      if JS.truthy sid && JS.truthy currentMessageId
         && JS.truthy (Closure.streamingMessage (closure c))
      then
        let userMessage := userMessage_of (message c) d in
        let assistantMessage :=
          {| Message.id := currentMessageId;
             Message.content := Closure.streamingMessage (closure c);
             Message.role := assistant;
             Message.timestamp := toISOString d;
             Message.metadata :=
               Some {| MessageMetadata.sources :=
                         Some (Closure.streamingSources (closure c));
                       MessageMetadata.confidence := None;
                       MessageMetadata.processing_time := None;
                       MessageMetadata.model_used := None;
                       MessageMetadata.tokens_used := None |} |} in
        let c1 :=
          setQueryData_CHAT_SESSION sid
            (append_turn userMessage assistantMessage d) (cache w) in
        set_cache (setQueryData_CHAT_SESSIONS (touch_list sid d) c1) w
      else w
  | None => w
  end.

(** The call goes on from its await with what the promise settled to, up
    to the next await or to its end. *)
Definition resume (c : Call) (a : Awaited) (d : Date) (w : World)
    : World * Progress :=
  match a, point c with
  | rejection e, _ => thrown e w
  | fetch_fulfilled r, at_fetch =>
      if negb (Response.ok r) then
        thrown (new_Error ("HTTP error! status: " ++ pretty (Response.status r)))
               w
      else if negb (Response.has_body r) then
        thrown (new_Error "No response body") w
      else (w, awaiting (move (at_read "" "") c))
  | read_value value, at_read b i =>
      let s := on_value value
                 {| world := w; buffer := b; currentMessageId := i |} in
      (world s, awaiting (move (at_read (buffer s) (currentMessageId s)) c))
  | read_done, at_read b i =>
      (finally_block (persist c i d w), settled resolved)
  | fetch_fulfilled _, at_read _ _ => (w, awaiting c)
  | read_value _, at_fetch => (w, awaiting c)
  | read_done, at_fetch => (w, awaiting c)
  end.

(** The call driven by what its awaits settle to, in order. *)
Fixpoint run (script : list Awaited) (d : Date) (w : World) (p : Progress)
    : World * Progress :=
  match script with
  | [] => (w, p)
  | a :: script' =>
      match p with
      | awaiting c => let '(w', p') := resume c a d w in run script' d w' p'
      | settled _ => (w, p)
      end
  end.

(** [sendStreamingMessage(message, options)] through callback [cl]. *)
Definition sendStreamingMessage (cl : Closure.t) (message : string)
    (options : Options.t) (script : list Awaited) (d : Date) (w : World)
    : World * Progress :=
  let '(w', p) := start cl message options w in run script d w' p.

(** [cancelStreaming()] *)
Definition cancelStreaming (w : World) : World :=
  match Hook.abortControllerRef (hook w) with
  | Some _ => set_abortControllerRef (Some {| aborted := true |}) w
  | None => w
  end.

(** The user cancels while call [c] is suspended: [cancelStreaming] aborts
    the controller of the ref, and the await that holds its signal rejects
    with an [AbortError]. *)
Definition cancel (c : Call) (d : Date) (w : World) : World * Progress :=
  let w' := cancelStreaming w in
  match Hook.abortControllerRef (hook w') with
  | Some ctl =>
      if aborted ctl then resume c (rejection AbortError) d w'
      else (w', awaiting c)
  | None => (w', awaiting c)
  end.

End StreamConsumer.

(** ** use-chat.ts: the session mutations *)

(** [queryClient.removeQueries({ queryKey: QueryKeys.CHAT_SESSION(id) })] *)
Definition removeQueries_CHAT_SESSION (id : string) (c : QueryCache)
    : QueryCache :=
  {| CHAT_SESSION := delete id (CHAT_SESSION c);
     CHAT_SESSIONS := CHAT_SESSIONS c |}.

(** The updater of [useCreateChatSession]: the new session goes first.
    [total] is a number of the code; the integer of the model is that
    number as long as it is a safe integer ([JS.isSafeInteger]). *)
Definition add_session (newSession : ChatSession.t)
    (old : option ChatSessionsResponse.t) : option ChatSessionsResponse.t :=
  match old with
  | None =>
      Some {| ChatSessionsResponse.sessions := [newSession];
              ChatSessionsResponse.total := 1 |}
  | Some old =>
      Some {| ChatSessionsResponse.sessions :=
                newSession :: ChatSessionsResponse.sessions old;
              ChatSessionsResponse.total :=
                ChatSessionsResponse.total old + 1 |}
  end.

(** [useCreateChatSession]: [onSuccess(newSession)] *)
Definition useCreateChatSession_onSuccess (newSession : ChatSession.t)
    (w : World) : World :=
  let w1 :=
    set_cache (setQueryData_CHAT_SESSIONS (add_session newSession) (cache w))
      w in
  toast {| Toast.title := "New chat created";
           Toast.description := "Your new chat session is ready.";
           Toast.variant := None |} w1.

(** What the [onError] handlers read off the thrown value: [error.detail],
    if it has one. *)
Definition onError_toast (title fallback : string) (detail : option string)
    (w : World) : World :=
  toast {| Toast.title := title;
           Toast.description := JS.or_default detail fallback;
           Toast.variant := Some "destructive" |} w.

(** [useCreateChatSession]: [onError(error)] *)
Definition useCreateChatSession_onError : option string -> World -> World :=
  onError_toast "Failed to create chat" "Could not create new chat session.".

(** The updater of [useUpdateChatSession]:
    [session.id === updatedSession.id ? updatedSession : session] *)
Definition replace_session (updatedSession : ChatSession.t)
    (old : option ChatSessionsResponse.t) : option ChatSessionsResponse.t :=
  match old with
  | None => None
  | Some old =>
      Some {| ChatSessionsResponse.sessions :=
                map (fun session =>
                       if String.eqb (ChatSession.id session)
                                     (ChatSession.id updatedSession)
                       then updatedSession else session)
                    (ChatSessionsResponse.sessions old);
              ChatSessionsResponse.total := ChatSessionsResponse.total old |}
  end.

(** [useUpdateChatSession]: [onSuccess(updatedSession)] *)
Definition useUpdateChatSession_onSuccess (updatedSession : ChatSession.t)
    (w : World) : World :=
  let c1 :=
    setQueryData_CHAT_SESSION (ChatSession.id updatedSession)
      (fun _ => Some updatedSession) (cache w) in
  set_cache (setQueryData_CHAT_SESSIONS (replace_session updatedSession) c1) w.

(** The updater of [useDeleteChatSession]:
    [old.sessions.filter(session => session.id !== deletedId)], one less in
    [total], within the safe integers as for [add_session]. *)
Definition remove_session (deletedId : string)
    (old : option ChatSessionsResponse.t) : option ChatSessionsResponse.t :=
  match old with
  | None => None
  | Some old =>
      Some {| ChatSessionsResponse.sessions :=
                List.filter
                  (fun session =>
                     negb (String.eqb (ChatSession.id session) deletedId))
                  (ChatSessionsResponse.sessions old);
              ChatSessionsResponse.total :=
                ChatSessionsResponse.total old - 1 |}
  end.

(** [useDeleteChatSession]: [onSuccess(_, deletedId)] *)
Definition useDeleteChatSession_onSuccess (deletedId : string) (w : World)
    : World :=
  let c1 := removeQueries_CHAT_SESSION deletedId (cache w) in
  let w1 :=
    set_cache (setQueryData_CHAT_SESSIONS (remove_session deletedId) c1) w in
  toast {| Toast.title := "Chat deleted";
           Toast.description := "Chat session has been deleted.";
           Toast.variant := None |} w1.

(** How many sessions of the cached list carry an identifier. *)
Definition occurrences (id : string) (l : ChatSessionsResponse.t) : nat :=
  length (List.filter (fun session => String.eqb (ChatSession.id session) id)
            (ChatSessionsResponse.sessions l)).

(** The count of the list says how many sessions it holds. *)
Definition counted (l : ChatSessionsResponse.t) : Prop :=
  ChatSessionsResponse.total l
  = Z.of_nat (length (ChatSessionsResponse.sessions l)).

(** ** The callers of the streaming hook *)

(** components/chat/message-input.tsx: [MessageInput]. What the handlers
    read of the props; the result of a handler is the argument it passes
    to [onSend], if it calls it. *)
Module MessageInput.

Record Props := {
  value : string;
  isStreaming : bool;
  disabled : bool;
  maxLength : Z }.

Section Handlers.

(** [String.prototype.trim] *)
Variable trim : string -> string.

(** [handleSubmit(e)] *)
Definition handleSubmit (p : Props) : option string :=
  if negb (JS.truthy (trim (value p))) || isStreaming p || disabled p
  then None
  else Some (trim (value p)).

(** [handleKeyDown(e)] for [e.key] and [e.shiftKey] *)
Definition handleKeyDown (p : Props) (key : string) (shiftKey : bool)
    : option string :=
  if String.eqb key "Enter" && negb shiftKey then
    if negb (JS.truthy (trim (value p))) || isStreaming p || disabled p
    then None
    else Some (trim (value p))
  else None.

(** [maxLength - value.length] *)
Definition remainingChars (p : Props) : Z :=
  (maxLength p - Z.of_nat (String.length (value p)))%Z.

Definition isOverLimit (p : Props) : bool := (remainingChars p <? 0)%Z.

(** The [disabled] attribute of the send button. *)
Definition send_button_disabled (p : Props) : bool :=
  disabled p
  || (negb (isStreaming p)
      && (negb (JS.truthy (trim (value p))) || isOverLimit p)).

End Handlers.

End MessageInput.

(** components/chat/chat-interface.tsx: [ChatInterface]. Around the world
    of the hooks, the text of the input and the routes pushed. *)
Module ChatInterface.

Record t := {
  app : World;
  message : string;
  pushed : list string }.

(** How the request that creates a session ends: with the new session, or
    with a thrown value and its [detail], if it has one. *)
Inductive Creation :=
  | created (newSession : ChatSession.t)
  | creation_failed (detail : option string).

(** [console.error(text, error)]: the console keeps the text. *)
Definition console_error (text : string) (w : World) : World :=
  console_warn [text] w.

Section Handlers.

Variable JSON_parse : string -> option StreamingChatResponse.t.
Variable trim : string -> string.

(** From [await sendStreamingMessage(...)] on. The flag tells whether the
    handler has run to its end. *)
Definition send_and_clear (cl : Closure.t) (messageText : string)
    (currentSessionId : option string) (script : list Awaited) (d : Date)
    (p : t) : t * bool :=
  let '(w', progress) :=
    sendStreamingMessage JSON_parse cl messageText
      {| Options.sessionId := currentSessionId;
         Options.includeSource := Some true;
         Options.maxSources := Some 5%Z |} script d (app p) in
  match progress with
  | settled resolved =>
      ({| app := w'; message := EmptyString; pushed := pushed p |}, true)
  | settled (rejected _) =>
      ({| app := w'; message := message p; pushed := pushed p |}, true)
  | awaiting _ =>
      ({| app := w'; message := message p; pushed := pushed p |}, false)
  end.

(** [handleSendMessage(messageText)] of the render for [sessionId]. *)
Definition handleSendMessage (sessionId : option string)
    (messageText : string) (creation : Creation) (script : list Awaited)
    (d : Date) (p : t) : t * bool :=
  let cl := render sessionId (hook (app p)) in
  if negb (JS.truthy (trim messageText)) || Hook.isStreaming (hook (app p))
  then (p, true)
  else if JS.truthy_opt sessionId then
    send_and_clear cl messageText sessionId script d p
  else
    match creation with
    | created newSession =>
        let w1 := useCreateChatSession_onSuccess newSession (app p) in
        send_and_clear cl messageText (Some (ChatSession.id newSession))
          script d
          {| app := w1; message := message p;
             pushed := pushed p ++ ["/chat/" ++ ChatSession.id newSession] |}
    | creation_failed detail =>
        let w1 := useCreateChatSession_onError detail (app p) in
        ({| app := console_error "Failed to create session:" w1;
            message := message p; pushed := pushed p |}, true)
    end.

End Handlers.

End ChatInterface.

(** ** use-documents.ts: useDocumentProcessingStatus *)

Definition ProcessingStatus_eqb (a b : ProcessingStatus) : bool :=
  match a, b with
  | pending, pending | processing, processing
  | completed, completed | failed, failed => true
  | _, _ => false
  end.

(** What the query library hands to [refetchInterval] as its first
    argument. The sources do not say which version of
    [@tanstack/react-query] is installed, and use options of both: version
    4 calls the function as [(data, query)], with the latest data of the
    query ([undefined] before the first answer); version 5 calls it as
    [(query)], with the query object, which holds the data in its [state]
    and has no property [status]. *)
Module Query.
Record t := { state_data : option DocumentProcessingStatus.t }.
End Query.

Inductive Handed :=
  | the_data (data : option DocumentProcessingStatus.t)
  | the_query (query : Query.t).

Inductive Library := react_query_4 | react_query_5.

Definition handed (library : Library)
    (latest : option DocumentProcessingStatus.t) : Handed :=
  match library with
  | react_query_4 => the_data latest
  | react_query_5 => the_query {| Query.state_data := latest |}
  end.

(** [data?.status === s], for what the function was handed as [data]:
    reading [status] off a query object gives [undefined]. *)
Definition status_is (data : Handed) (s : ProcessingStatus) : bool :=
  match data with
  | the_data (Some d) =>
      ProcessingStatus_eqb (DocumentProcessingStatus.status d) s
  | the_data None => false
  | the_query _ => false
  end.

(** The [refetchInterval] option: [false] is [None], a number is the delay
    in milliseconds. *)
Definition refetchInterval (data : Handed) : option Z :=
  if status_is data completed || status_is data failed then None
  else Some 2000%Z.

(** [enabled: !!documentId] *)
Definition enabled (documentId : string) : bool := JS.truthy documentId.

(** The polls of one mounted query, as the query library schedules them:
    the status is fetched at [t]; with its answer in, [refetchInterval] is
    asked, and a number has the status fetched again that many
    milliseconds after this fetch, while [false] ends the refetching.
    Every answer is taken to be in before the next fetch is due.
    [answers] are the server's answers to the successive fetches; the
    result pairs the time of each fetch that is issued with its answer. *)
Fixpoint polls (library : Library) (t : Z)
    (answers : list DocumentProcessingStatus.t)
    : list (Z * DocumentProcessingStatus.t) :=
  match answers with
  | [] => []
  | a :: answers' =>
      (t, a) ::
      match refetchInterval (handed library (Some a)) with
      | Some ms => polls library (t + ms) answers'
      | None => []
      end
  end.

Definition useDocumentProcessingStatus (library : Library)
    (documentId : string) (t : Z)
    (answers : list DocumentProcessingStatus.t)
    : list (Z * DocumentProcessingStatus.t) :=
  if enabled documentId then polls library t answers else [].

(** [pending] and [processing] are the states in which work is under way. *)
Definition in_progress (s : ProcessingStatus) : bool :=
  match s with
  | pending | processing => true
  | completed | failed => false
  end.

(** ** types/document.ts *)

Module DocumentMetadata.
Record t := {
  title : option string;
  author : option string;
  subject : option string;
  creator : option string;
  producer : option string;
  creation_date : option string;
  modification_date : option string;
  pages : option Z;
  word_count : option Z;
  char_count : option Z;
  language : option string;
  document_type : option string }.
End DocumentMetadata.

Module Document.
Record t := {
  id : string;
  filename : string;
  content_type : string;
  file_size : Z;
  upload_date : string;
  processed : bool;
  processing_status : ProcessingStatus;
  error_message : option string;
  metadata : DocumentMetadata.t;
  tags : list string;
  owner_id : string;
  created_at : string;
  updated_at : string }.
End Document.

Module DocumentSearchResponse.
Record t := {
  documents : list Document.t;
  total : Z;
  page : Z;
  page_size : Z;
  total_pages : Z }.
End DocumentSearchResponse.

(** What the code reads of a [File]. *)
Module File.
Record t := { name : string }.
End File.

Module DocumentUploadRequest.
Record t := {
  file : File.t;
  tags : option (list string);
  metadata : option DocumentMetadata.t }.
End DocumentUploadRequest.

Module DocumentUploadResponse.
Record t := {
  document : Document.t;
  message : string }.
End DocumentUploadResponse.

(** ** use-documents.ts: useInfiniteDocuments *)

(** [getNextPageParam(lastPage)]: [undefined] is [None]. *)
Definition getNextPageParam (lastPage : DocumentSearchResponse.t)
    : option Z :=
  if (DocumentSearchResponse.page lastPage
      <? DocumentSearchResponse.total_pages lastPage)%Z
  then Some (DocumentSearchResponse.page lastPage * 20)%Z
  else None.

(** The offsets that the infinite query asks for, as the query library
    drives it: the first page with the default [pageParam = 0]; then, for
    each time the list is scrolled to its end, the page whose parameter
    [getNextPageParam] gives for the last page, unless it gives none.
    [api_get] is the answer of the server for an offset; [loads] counts the
    first load and the scrolls. *)
Fixpoint offsets_asked (api_get : Z -> DocumentSearchResponse.t)
    (loads : nat) (pageParam : Z) : list Z :=
  match loads with
  | O => []
  | S loads' =>
      pageParam ::
      match getNextPageParam (api_get pageParam) with
      | Some next => offsets_asked api_get loads' next
      | None => []
      end
  end.

Definition useInfiniteDocuments (api_get : Z -> DocumentSearchResponse.t)
    (loads : nat) : list Z :=
  offsets_asked api_get loads 0.

(** ** use-documents.ts: useUploadMultipleDocuments *)

(** The [additionalData] of an upload. *)
Module AdditionalData.
Record t := { tags : option string; metadata : option string }.
End AdditionalData.

(** What the upload hooks change: the calls of [api.upload] made, the query
    keys invalidated, the toasts, the console. *)
Module Uploads.
Record t := {
  calls : list (File.t * AdditionalData.t);
  invalidated : list (list string);
  toasts : list Toast.t;
  console : list (list string) }.
End Uploads.

Section UploadMultiple.

(** [JSON.stringify] on tags and on metadata. *)
Variable stringify_tags : list string -> string.
Variable stringify_metadata : DocumentMetadata.t -> string.

(** [api.upload('/api/documents/upload', file, { additionalData })], given
    how many uploads were made before: the response, or a thrown value
    with its [detail], if it has one. *)
Variable api_upload :
  nat -> File.t -> AdditionalData.t ->
  DocumentUploadResponse.t + option string.

(** [{ ...(tags && { tags: JSON.stringify(tags) }),
       ...(metadata && { metadata: JSON.stringify(metadata) }) }] *)
Definition additionalData (u : DocumentUploadRequest.t) : AdditionalData.t :=
  {| AdditionalData.tags :=
       option_map stringify_tags (DocumentUploadRequest.tags u);
     AdditionalData.metadata :=
       option_map stringify_metadata (DocumentUploadRequest.metadata u) |}.

(** The loop of [mutationFn(uploads)] with [results] so far. *)
Fixpoint upload_each (uploads : list DocumentUploadRequest.t)
    (results : list DocumentUploadResponse.t) (st : Uploads.t)
    : Uploads.t * (list DocumentUploadResponse.t + option string) :=
  match uploads with
  | [] => (st, inl results)
  | uploadRequest :: uploads' =>
      let file := DocumentUploadRequest.file uploadRequest in
      let data := additionalData uploadRequest in
      let st1 :=
        {| Uploads.calls := Uploads.calls st ++ [(file, data)];
           Uploads.invalidated := Uploads.invalidated st;
           Uploads.toasts := Uploads.toasts st;
           Uploads.console := Uploads.console st |} in
      match api_upload (length (Uploads.calls st)) file data with
      | inl result => upload_each uploads' (results ++ [result]) st1
      | inr error =>
          ({| Uploads.calls := Uploads.calls st1;
              Uploads.invalidated := Uploads.invalidated st1;
              Uploads.toasts := Uploads.toasts st1;
              Uploads.console :=
                Uploads.console st1
                ++ [["Failed to upload " ++ File.name file ++ ":"]] |},
           inr error)
      end
  end.

(** [onSuccess(responses)] *)
Definition useUploadMultipleDocuments_onSuccess
    (responses : list DocumentUploadResponse.t) (st : Uploads.t)
    : Uploads.t :=
  {| Uploads.calls := Uploads.calls st;
     Uploads.invalidated := Uploads.invalidated st ++ [["documents"]];
     Uploads.toasts :=
       Uploads.toasts st
       ++ [{| Toast.title := "Documents uploaded";
              Toast.description :=
                pretty (length responses)
                ++ " document(s) uploaded successfully and are being processed.";
              Toast.variant := None |}];
     Uploads.console := Uploads.console st |}.

(** [onError(error)] *)
Definition useUploadMultipleDocuments_onError (detail : option string)
    (st : Uploads.t) : Uploads.t :=
  {| Uploads.calls := Uploads.calls st;
     Uploads.invalidated := Uploads.invalidated st;
     Uploads.toasts :=
       Uploads.toasts st
       ++ [{| Toast.title := "Upload failed";
              Toast.description :=
                JS.or_default detail "Failed to upload one or more documents.";
              Toast.variant := Some "destructive" |}];
     Uploads.console := Uploads.console st |}.

(** The call of [api.upload] for a request. *)
Definition call_of (u : DocumentUploadRequest.t) : File.t * AdditionalData.t :=
  (DocumentUploadRequest.file u,
   additionalData u).

(** The upload of a request succeeds as the [n]-th call. *)
Definition succeeds (n : nat) (u : DocumentUploadRequest.t) : Prop :=
  exists result, api_upload n (fst (call_of u)) (snd (call_of u)) = inl result.

(** The requests succeed one after the other, from the [n]-th call on. *)
Fixpoint succeed_from (n : nat) (us : list DocumentUploadRequest.t) : Prop :=
  match us with
  | [] => True
  | u :: us' => succeeds n u /\ succeed_from (S n) us'
  end.

(** The mutation: [mutationFn], then the handler for how it ended. *)
Definition useUploadMultipleDocuments
    (uploads : list DocumentUploadRequest.t) (st : Uploads.t)
    : Uploads.t * (list DocumentUploadResponse.t + option string) :=
  let '(st1, outcome) := upload_each uploads [] st in
  match outcome with
  | inl responses =>
      (useUploadMultipleDocuments_onSuccess responses st1, outcome)
  | inr error => (useUploadMultipleDocuments_onError error st1, outcome)
  end.

End UploadMultiple.

(** ** app/dashboard/page.tsx: DashboardStats over useDocuments *)

Module Stats.
Record t := {
  totalDocuments : Z;
  processedDocuments : Z;
  processingDocuments : Z;
  failedDocuments : Z;
  totalSize : Z }.

Definition zero : t :=
  {| totalDocuments := 0; processedDocuments := 0; processingDocuments := 0;
     failedDocuments := 0; totalSize := 0 |}.
End Stats.

(** The reducer of [stats]. The counters count the elements of an array,
    whose length is below 2^32. [totalSize] adds numbers of the code: the
    integer sum of the model is the code's sum as long as the sizes are
    not negative and the sum is a safe integer ([JS.isSafeInteger]). *)
Definition count_document (acc : Stats.t) (doc : Document.t) : Stats.t :=
  let total := (Stats.totalDocuments acc + 1)%Z in
  let size := (Stats.totalSize acc + Document.file_size doc)%Z in
  match Document.processing_status doc with
  | completed =>
      {| Stats.totalDocuments := total;
         Stats.processedDocuments := Stats.processedDocuments acc + 1;
         Stats.processingDocuments := Stats.processingDocuments acc;
         Stats.failedDocuments := Stats.failedDocuments acc;
         Stats.totalSize := size |}
  | processing | pending =>
      {| Stats.totalDocuments := total;
         Stats.processedDocuments := Stats.processedDocuments acc;
         Stats.processingDocuments := Stats.processingDocuments acc + 1;
         Stats.failedDocuments := Stats.failedDocuments acc;
         Stats.totalSize := size |}
  | failed =>
      {| Stats.totalDocuments := total;
         Stats.processedDocuments := Stats.processedDocuments acc;
         Stats.processingDocuments := Stats.processingDocuments acc;
         Stats.failedDocuments := Stats.failedDocuments acc + 1;
         Stats.totalSize := size |}
  end.

(** [stats] for the data of [useDocuments], [undefined] while loading. *)
Definition stats (documentsData : option DocumentSearchResponse.t) : Stats.t :=
  match documentsData with
  | None => Stats.zero
  | Some data =>
      fold_left count_document (DocumentSearchResponse.documents data)
        Stats.zero
  end.

(** How many documents of a list are in a status. *)
Definition in_status (s : ProcessingStatus) (docs : list Document.t) : Z :=
  Z.of_nat
    (length (List.filter
               (fun doc => ProcessingStatus_eqb (Document.processing_status doc) s)
               docs)).

(** ** The chunker *)

Module Chunker.

(** Modelled from the spec: the chunker of section 4.1, whose code is not
    among the repository's sources. [chunk(text, chunk_size, overlap)]
    "splits on semantic boundaries (paragraph/sentence) greedily up to
    chunk_size characters, then backtracks overlap characters into the
    next chunk"; a text no longer than [chunk_size] is one chunk. Offsets
    count characters, as the scenario of section 8 fixes them. *)
Record Config := { chunk_size : nat; overlap : nat }.

(** Modelled from the spec: the start-up check, [overlap >= chunk_size] is
    a configuration error. *)
Definition valid (cfg : Config) : bool :=
  Nat.ltb (overlap cfg) (chunk_size cfg).

(** Modelled from the spec: a chunk's character span, [start] inclusive
    and [stop] exclusive. *)
Record Span := { start : nat; stop : nat }.

(** Modelled from the spec: the chunk of section 3, with its sequence
    index, its offsets into the source text and its text. *)
Record Chunk := { index : nat; span : Span; text : string }.

Section Boundaries.

(** Modelled from the spec: the semantic boundaries of a text, the offsets
    at which a paragraph or a sentence ends. The spec names them and does
    not say how they are found, so they are a parameter:
    [boundary text p] says whether offset [p] of [text] is one. *)
Variable boundary : string -> nat -> bool.

(** Modelled from the spec: "greedily": the last boundary among the
    offsets [lo + n], ..., [lo + 1]. *)
Fixpoint last_boundary (text : string) (lo n : nat) : option nat :=
  match n with
  | O => None
  | S n' =>
      if boundary text (lo + n) then Some (lo + n)
      else last_boundary text lo n'
  end.

(** Modelled from the spec: the end of the chunk that starts at [from],
    for a text that goes on beyond [from + chunk_size]: the last boundary
    that a chunk of up to [chunk_size] characters reaches; without one,
    the chunk is cut after [chunk_size] characters, as in the scenario of
    section 8. A boundary counts only if it lies more than [overlap]
    characters after [from]: stepping back from an earlier one, the next
    chunk would start no later than this one. *)
Definition cut (cfg : Config) (text : string) (from : nat) : nat :=
  match last_boundary text (from + overlap cfg)
          (chunk_size cfg - overlap cfg) with
  | Some p => p
  | None => from + chunk_size cfg
  end.

(** Modelled from the spec: the spans of the chunks of a text from offset
    [from] on: what is left is the last chunk if it fits into
    [chunk_size]; else a chunk up to [cut], and the next one starts
    [overlap] characters before that. The fuel bounds the number of
    chunks; [spans] gives enough of it. *)
Fixpoint spans_from (fuel : nat) (cfg : Config) (text : string)
    (from : nat) : list Span :=
  match fuel with
  | O => []
  | S fuel' =>
      if Nat.leb (String.length text) (from + chunk_size cfg) then
        [{| start := from; stop := String.length text |}]
      else
        {| start := from; stop := cut cfg text from |}
        :: spans_from fuel' cfg text (cut cfg text from - overlap cfg)
  end.

Definition spans (cfg : Config) (text : string) : list Span :=
  spans_from (S (String.length text)) cfg text 0.

(** Modelled from the spec: [chunk(text, chunk_size, overlap)]. *)
Definition chunk (cfg : Config) (text : string) : list Chunk :=
  imap (fun i sp =>
          {| index := i; span := sp;
             text := substring (start sp) (stop sp - start sp) text |})
       (spans cfg text).

(** The shape of the spans of a text from an offset on: chunks that each
    end more than [overlap] and at most [chunk_size] characters after
    their start, at the last boundary in that reach, or at the full
    length when there is no boundary in reach; each next one starts
    [overlap] before the end of the one before; the last one ends with
    the text. *)
Inductive chain (cfg : Config) (text : string) : nat -> list Span -> Prop :=
  | chain_last (from : nat) :
      String.length text <= from + chunk_size cfg ->
      chain cfg text from [{| start := from; stop := String.length text |}]
  | chain_step (from to : nat) (l : list Span) :
      from + chunk_size cfg < String.length text ->
      from + overlap cfg < to <= from + chunk_size cfg ->
      boundary text to = true
      \/ (to = from + chunk_size cfg
          /\ forall p, from + overlap cfg < p <= from + chunk_size cfg ->
                       boundary text p = false) ->
      (forall p, to < p <= from + chunk_size cfg ->
                 boundary text p = false) ->
      chain cfg text (to - overlap cfg) l ->
      chain cfg text from ({| start := from; stop := to |} :: l).

End Boundaries.

(** A position of the text lies in a span. *)
Definition covers (sp : Span) (p : nat) : Prop := start sp <= p < stop sp.

(** The number of characters two spans share, the second starting no
    earlier than the first. *)
Definition shared (a b : Span) : nat := stop a - start b.

End Chunker.

(** ** A JSON reader for the payloads of the examples

    The properties below hold for every [JSON_parse]; the examples need one
    to run on. This reader takes objects, arrays, strings with the short
    escapes, numbers with an optional fraction, and the three literals. *)

Module Json.

#[local] Unset Elimination Schemes.
Inductive value :=
  | Null
  | Bool (b : bool)
  | Number (q : Q)
  | Str (s : string)
  | Array (l : list value)
  | Object (members : list (string * value)).
#[local] Set Elimination Schemes.

Definition BACKSLASH : ascii := "092"%char.

Definition is_ws (c : ascii) : bool :=
  Ascii.eqb c " " || Ascii.eqb c "009" || Ascii.eqb c "010"
  || Ascii.eqb c "013".

Fixpoint skip_ws (s : string) : string :=
  match s with
  | EmptyString => EmptyString
  | String c s' => if is_ws c then skip_ws s' else s
  end.

Definition unescape (c : ascii) : option ascii :=
  if Ascii.eqb c JS.DQ then Some JS.DQ
  else if Ascii.eqb c BACKSLASH then Some BACKSLASH
  else if Ascii.eqb c "/" then Some "/"%char
  else if Ascii.eqb c "b" then Some "008"%char
  else if Ascii.eqb c "f" then Some "012"%char
  else if Ascii.eqb c "n" then Some "010"%char
  else if Ascii.eqb c "r" then Some "013"%char
  else if Ascii.eqb c "t" then Some "009"%char
  else None.

(** The characters of a string literal after its opening quote. *)
Fixpoint string_body (s : string) : option (string * string) :=
  match s with
  | EmptyString => None
  | String c s' =>
      if Ascii.eqb c JS.DQ then Some (EmptyString, s')
      else if Ascii.eqb c BACKSLASH then
        match s' with
        | EmptyString => None
        | String e s'' =>
            match unescape e, string_body s'' with
            | Some ch, Some (r, rest) => Some (String ch r, rest)
            | _, _ => None
            end
        end
      else if Nat.ltb (nat_of_ascii c) 32 then None
      else
        match string_body s' with
        | Some (r, rest) => Some (String c r, rest)
        | None => None
        end
  end.

Definition digit (c : ascii) : option Z :=
  let n := nat_of_ascii c in
  if Nat.leb 48 n && Nat.leb n 57 then Some (Z.of_nat (n - 48)) else None.

(** The digits at the head of [s]: their value after [acc], how many. *)
Fixpoint digits (acc : Z) (count : nat) (s : string) : Z * nat * string :=
  match s with
  | EmptyString => (acc, count, s)
  | String c s' =>
      match digit c with
      | Some d => digits (acc * 10 + d) (S count) s'
      | None => (acc, count, s)
      end
  end.

(** An unsigned number: digits, then an optional fraction. *)
Definition unsigned (s : string) : option (Q * string) :=
  let '(i, n, rest) := digits 0 0 s in
  match n with
  | O => None
  | S _ =>
      match rest with
      | String "." rest' =>
          let '(f, k, rest'') := digits i 0 rest' in
          match k with
          | O => None
          | S _ => Some (Qmake f (Pos.pow 10 (Pos.of_nat k)), rest'')
          end
      | _ => Some (Qmake i 1, rest)
      end
  end.

Definition number (s : string) : option (Q * string) :=
  match s with
  | String "-" s' =>
      match unsigned s' with
      | Some (q, rest) => Some (Qopp q, rest)
      | None => None
      end
  | _ => unsigned s
  end.

Definition literal (word : string) (v : value) (s : string)
    : option (value * string) :=
  if JS.startsWith word s then Some (v, JS.slice (String.length word) s)
  else None.

(** A value at the head of [s], and the text after it. *)
Fixpoint read (fuel : nat) (s : string) : option (value * string) :=
  match fuel with
  | O => None
  | S fuel' =>
      match skip_ws s with
      | EmptyString => None
      | String c s' =>
          if Ascii.eqb c "{" then
            match skip_ws s' with
            | String "}" rest => Some (Object [], rest)
            | _ =>
                match members fuel' s' with
                | Some (ms, rest) => Some (Object ms, rest)
                | None => None
                end
            end
          else if Ascii.eqb c "[" then
            match skip_ws s' with
            | String "]" rest => Some (Array [], rest)
            | _ =>
                match elements fuel' s' with
                | Some (vs, rest) => Some (Array vs, rest)
                | None => None
                end
            end
          else if Ascii.eqb c JS.DQ then
            match string_body s' with
            | Some (str, rest) => Some (Str str, rest)
            | None => None
            end
          else if Ascii.eqb c "t" then literal "true" (Bool true) (String c s')
          else if Ascii.eqb c "f" then
            literal "false" (Bool false) (String c s')
          else if Ascii.eqb c "n" then literal "null" Null (String c s')
          else
            match number (String c s') with
            | Some (q, rest) => Some (Number q, rest)
            | None => None
            end
      end
  end

(** The values of an array after its bracket, up to the closing one. *)
with elements (fuel : nat) (s : string) : option (list value * string) :=
  match fuel with
  | O => None
  | S fuel' =>
      match read fuel' s with
      | Some (v, rest) =>
          match skip_ws rest with
          | String "]" rest' => Some ([v], rest')
          | String "," rest' =>
              match elements fuel' rest' with
              | Some (vs, rest'') => Some (v :: vs, rest'')
              | None => None
              end
          | _ => None
          end
      | None => None
      end
  end

(** The members of an object after its brace, up to the closing one. *)
with members (fuel : nat) (s : string)
    : option (list (string * value) * string) :=
  match fuel with
  | O => None
  | S fuel' =>
      match skip_ws s with
      | String c s' =>
          if Ascii.eqb c JS.DQ then
            match string_body s' with
            | Some (key, rest) =>
                match skip_ws rest with
                | String ":" rest' =>
                    match read fuel' rest' with
                    | Some (v, rest'') =>
                        match skip_ws rest'' with
                        | String "}" rest3 => Some ([(key, v)], rest3)
                        | String "," rest3 =>
                            match members fuel' rest3 with
                            | Some (ms, rest4) => Some ((key, v) :: ms, rest4)
                            | None => None
                            end
                        | _ => None
                        end
                    | None => None
                    end
                | _ => None
                end
            | None => None
            end
          else None
      | EmptyString => None
      end
  end.

(** The whole text as one value. *)
Definition parse (s : string) : option value :=
  match read (2 * String.length s + 2) s with
  | Some (v, rest) =>
      match skip_ws rest with
      | EmptyString => Some v
      | String _ _ => None
      end
  | None => None
  end.

(** [object[key]]: a key given twice has its last value. *)
Fixpoint get (key : string) (ms : list (string * value)) : option value :=
  match ms with
  | [] => None
  | (k, v) :: ms' =>
      match get key ms' with
      | Some v' => Some v'
      | None => if String.eqb k key then Some v else None
      end
  end.

Definition get_string (key : string) (ms : list (string * value))
    : option string :=
  match get key ms with
  | Some (Str s) => Some s
  | _ => None
  end.

(** A whole number under [key]. *)
Definition get_Z (key : string) (ms : list (string * value)) : option Z :=
  match get key ms with
  | Some (Number q) => if Pos.eqb (Qden q) 1 then Some (Qnum q) else None
  | _ => None
  end.

(** An array element as a [DocumentReference]. *)
Definition as_DocumentReference (v : value) : option DocumentReference.t :=
  match v with
  | Object ms =>
      match get_string "document_id" ms, get_string "filename" ms,
            get "relevance_score" ms with
      | Some d, Some f, Some (Number q) =>
          Some {| DocumentReference.document_id := d;
                  DocumentReference.filename := f;
                  DocumentReference.page_number := get_Z "page_number" ms;
                  DocumentReference.chunk_id := get_string "chunk_id" ms;
                  DocumentReference.relevance_score := q;
                  DocumentReference.snippet := get_string "snippet" ms |}
      | _, _, _ => None
      end
  | _ => None
  end.

Fixpoint as_list {A} (f : value -> option A) (l : list value)
    : option (list A) :=
  match l with
  | [] => Some []
  | v :: l' =>
      match f v, as_list f l' with
      | Some a, Some r => Some (a :: r)
      | _, _ => None
      end
  end.

(** A parsed value seen as a [StreamingChatResponse]. [null] has no
    properties to read, so reading its [type] throws; a value without a
    string [type] gets the empty discriminator, which like a missing one
    matches no case. Property values of other types than the interface
    declares are left out. *)
Definition as_StreamingChatResponse (v : value)
    : option StreamingChatResponse.t :=
  match v with
  | Null => None
  | Object ms =>
      Some {| StreamingChatResponse.type :=
                default EmptyString (get_string "type" ms);
              StreamingChatResponse.content := get_string "content" ms;
              StreamingChatResponse.sources :=
                match get "sources" ms with
                | Some (Array l) => as_list as_DocumentReference l
                | _ => None
                end;
              StreamingChatResponse.error := get_string "error" ms;
              StreamingChatResponse.message_id :=
                get_string "message_id" ms |}
  | _ =>
      Some {| StreamingChatResponse.type := EmptyString;
              StreamingChatResponse.content := None;
              StreamingChatResponse.sources := None;
              StreamingChatResponse.error := None;
              StreamingChatResponse.message_id := None |}
  end.

(** [JSON.parse(payload)] as a [StreamingChatResponse]. *)
Definition JSON_parse (payload : string) : option StreamingChatResponse.t :=
  match parse payload with
  | Some v => as_StreamingChatResponse v
  | None => None
  end.

(** Writing payloads: a quoted string, a member, an object, an array. *)
Definition quoted (s : string) : string :=
  String JS.DQ s ++ String JS.DQ EmptyString.

Definition member (key raw : string) : string := quoted key ++ ":" ++ raw.

Fixpoint commas (l : list string) : string :=
  match l with
  | [] => EmptyString
  | [x] => x
  | x :: l' => x ++ "," ++ commas l'
  end.

Definition object (ms : list string) : string := "{" ++ commas ms ++ "}".

Definition array (vs : list string) : string := "[" ++ commas vs ++ "]".

End Json.

(** ** The inputs of the examples *)

Module Sample.

Import Json.

(** The four kinds of event as payloads. *)
Definition token (text : string) : string :=
  object [member "type" (quoted "token"); member "content" (quoted text)].

Definition sources (refs : list string) : string :=
  object [member "type" (quoted "sources"); member "sources" (array refs)].

Definition done (message_id : string) : string :=
  object [member "type" (quoted "done");
          member "message_id" (quoted message_id)].

Definition error (reason : string) : string :=
  object [member "type" (quoted "error"); member "error" (quoted reason)].

(** An event as a line of the stream, without and with its line feed. *)
Definition line (payload : string) : string := "data: " ++ payload.

Definition data (payload : string) : string :=
  line payload ++ String JS.LF EmptyString.

(** Document A as a source reference, on the wire and decoded. *)
Definition docA_json : string :=
  object [member "document_id" (quoted "A");
          member "filename" (quoted "gdpr.pdf");
          member "relevance_score" "0.91"].

Definition docA : DocumentReference.t :=
  {| DocumentReference.document_id := "A";
     DocumentReference.filename := "gdpr.pdf";
     DocumentReference.page_number := None;
     DocumentReference.chunk_id := None;
     DocumentReference.relevance_score := 91 # 100;
     DocumentReference.snippet := None |}.

(** The stream of the scenario:
    token("The"), token(" GDPR"), sources([doc A]), done(msg_1). *)
Definition scenario : string :=
  data (token "The") ++ data (token " GDPR") ++ data (sources [docA_json])
  ++ data (done "msg_1").

(** A stream with an error event in the middle. *)
Definition with_error : string :=
  data (token "The") ++ data (error "model overloaded")
  ++ data (token " GDPR") ++ data (done "msg_2").

(** A line whose payload is cut off. *)
Definition malformed : string := "data: {" ++ quoted "type" ++ ":".

Definition session_s1 : ChatSession.t :=
  {| ChatSession.id := "s1"; ChatSession.title := "Chat";
     ChatSession.messages := [];
     ChatSession.created_at := "2024-01-01T00:00:00.000Z";
     ChatSession.updated_at := "2024-01-01T00:00:00.000Z";
     ChatSession.user_id := "u1" |}.

(** A cache that holds session [s1], without messages so far. *)
Definition cache0 : QueryCache :=
  {| CHAT_SESSION := {[ "s1" := session_s1 ]};
     CHAT_SESSIONS :=
       Some {| ChatSessionsResponse.sessions := [session_s1];
               ChatSessionsResponse.total := 1 |} |}.

(** The world around a freshly mounted hook. *)
Definition world0 : World :=
  {| hook := Hook.initial; cache := cache0; toasts := []; console := [];
     fetches := [] |}.

Definition options_s1 : Options.t :=
  {| Options.sessionId := Some "s1"; Options.includeSource := Some true;
     Options.maxSources := Some 5%Z |}.

Definition ok_response : Response.t :=
  {| Response.ok := true; Response.status := 200; Response.has_body := true |}.

Definition noon : Date :=
  {| now := 1704110400000; toISOString := "2024-01-01T12:00:00.000Z" |}.

Definition question : string := "What does the GDPR require?".

(** The callback of the freshly mounted hook. *)
Definition callback0 : Closure.t := render (Some "s1") Hook.initial.

(** The loop before its first read. *)
Definition loop0 : Loop :=
  {| world := world0; buffer := EmptyString;
     currentMessageId := EmptyString |}.

(** A call in flight: the response has come and one token was read. *)
Definition script1 : list Awaited :=
  [fetch_fulfilled ok_response; read_value (data (token "The"))].

Definition call1 : Call :=
  {| closure := callback0; message := question; options := options_s1;
     point := at_read EmptyString EmptyString |}.

(** A send of [question] through that callback. *)
Definition send : list Awaited -> Date -> World -> World * Progress :=
  sendStreamingMessage Json.JSON_parse callback0 question options_s1.

Definition world1 : World := fst (send script1 noon world0).

(** The scenario's stream without its last line feed, and the stream cut
    into chunks in the middle of lines. *)
Definition scenario_text : string :=
  substring 0 (String.length scenario - 1) scenario.

Definition scenario_chunks : list string :=
  [substring 0 10 scenario; substring 10 1 scenario; EmptyString;
   substring 11 60 scenario;
   substring 71 (String.length scenario - 71) scenario].

(** The answer of the non-streaming endpoint to [question]. *)
Definition request0 : ChatRequest.t :=
  {| ChatRequest.message := question; ChatRequest.session_id := Some "s1";
     ChatRequest.include_sources := None; ChatRequest.max_sources := None |}.

Definition response0 : ChatResponse.t :=
  {| ChatResponse.message :=
       {| Message.id := "msg_1"; Message.content := "The GDPR";
          Message.role := assistant;
          Message.timestamp := "2024-01-01T12:00:01.000Z";
          Message.metadata := None |};
     ChatResponse.session_id := "s1";
     ChatResponse.sources := Some [docA] |}.

(** The statuses that the server reports for a document, poll by poll. *)
Definition status_of (s : ProcessingStatus) : DocumentProcessingStatus.t :=
  {| DocumentProcessingStatus.document_id := "doc-1";
     DocumentProcessingStatus.status := s;
     DocumentProcessingStatus.progress := None;
     DocumentProcessingStatus.error_message := None;
     DocumentProcessingStatus.updated_at := "2024-01-01T12:00:00.000Z" |}.

Definition answers : list DocumentProcessingStatus.t :=
  map status_of [pending; processing; processing; completed; completed].

(** A document of 2500 characters, and the configuration of the
    scenario. *)
Fixpoint filler (n : nat) : string :=
  match n with
  | O => EmptyString
  | S n' => String "x" (filler n')
  end.

Definition document2500 : string := filler 2500.

Definition config : Chunker.Config :=
  {| Chunker.chunk_size := 1000; Chunker.overlap := 200 |}.

End Sample.

(** ** The vocabulary of the statements *)

(** What the consumer has assembled so far: the answer text, the sources,
    the message identifier. *)
Definition assembled (s : Loop)
    : string * list DocumentReference.t * string :=
  (Hook.streamingMessage (hook (world s)),
   Hook.streamingSources (hook (world s)),
   currentMessageId s).

(** What one pass of the loop does with its buffer: the lines it handles,
    and the rest that it keeps for the next pass. *)
Module Lines.

Definition complete (b : string) : list string := fst (JS.pop (JS.split b)).

Definition kept (b : string) : string :=
  JS.or_default (snd (JS.pop (JS.split b))) EmptyString.

End Lines.

(** The read loop over the values of successive reads. *)
Definition consume (JSON_parse : string -> option StreamingChatResponse.t)
    (values : list string) (s : Loop) : Loop :=
  fold_left (fun s value => on_value JSON_parse value s) values s.

(** Section 4.5 of the spec: the four kinds of event and what each carries;
    the object that carries an event on the wire; what the consumer does
    with it. *)
Module Event.

Inductive t :=
  | token (content : string)
  | sources (refs : list DocumentReference.t)
  | done (message_id : string)
  | error (reason : string).

Definition payload (e : t) : StreamingChatResponse.t :=
  {| StreamingChatResponse.type :=
       match e with
       | token _ => "token" | sources _ => "sources"
       | done _ => "done" | error _ => "error"
       end;
     StreamingChatResponse.content :=
       match e with token c => Some c | _ => None end;
     StreamingChatResponse.sources :=
       match e with sources l => Some l | _ => None end;
     StreamingChatResponse.error :=
       match e with error r => Some r | _ => None end;
     StreamingChatResponse.message_id :=
       match e with done i => Some i | _ => None end |}.

Definition effect (line : string) (e : t) (s : Loop) : Loop :=
  match e with
  | token c => on_world (setStreamingMessage (fun prev => prev ++ c)) s
  | sources l => on_world (setStreamingSources l) s
  | done i => if JS.truthy i then set_currentMessageId i s else s
  | error _ =>
      on_world (console_warn ["Failed to parse streaming data:"; line]) s
  end.

Definition known (type : string) : bool :=
  String.eqb type "token" || String.eqb type "sources"
  || String.eqb type "done" || String.eqb type "error".

End Event.

(** What a sequence of events amounts to: the contents of its tokens in
    order, the list of its last sources event, the identifier of its last
    done event that has one. *)
Module Events.

Fixpoint text (es : list Event.t) : string :=
  match es with
  | [] => EmptyString
  | Event.token c :: es' => c ++ text es'
  | _ :: es' => text es'
  end.

Fixpoint sources (old : list DocumentReference.t) (es : list Event.t)
    : list DocumentReference.t :=
  match es with
  | [] => old
  | Event.sources l :: es' => sources l es'
  | _ :: es' => sources old es'
  end.

Fixpoint message_id (old : string) (es : list Event.t) : string :=
  match es with
  | [] => old
  | Event.done i :: es' => message_id (if JS.truthy i then i else old) es'
  | _ :: es' => message_id old es'
  end.

(** A line carries an event: it is [data: ] and a payload that parses to
    the event's object. *)
Definition framed (JSON_parse : string -> option StreamingChatResponse.t)
    (line : string) (e : Event.t) : Prop :=
  exists payload,
    line = "data: " ++ payload /\ JSON_parse payload = Some (Event.payload e).

End Events.

(** Modelled from the spec: the producer side of the query interface, the
    server behind [/api/chat/stream], whose code is not among the
    repository's sources. Section 6: the events of [ask] are
    "materialized externally as server-sent events with a data: <json>
    line-delimited framing; each event JSON carries a type discriminator
    as in 4.5"; section 4.5 gives the four kinds of event and what each
    carries. The JSON object of an event has the properties that the
    interface [StreamingChatResponse] of types/chat.ts declares
    ([Event.payload]); [JSON_stringify] writes it. *)
Module Producer.

Section Frames.

Variable JSON_stringify : StreamingChatResponse.t -> string.

(** Modelled from the spec: an event as a line. *)
Definition frame (e : Event.t) : string :=
  "data: " ++ JSON_stringify (Event.payload e).

(** Modelled from the spec: the events of an answer on the wire, a line
    each. *)
Fixpoint stream (es : list Event.t) : string :=
  match es with
  | [] => EmptyString
  | e :: es' => (frame e ++ String JS.LF EmptyString) ++ stream es'
  end.

End Frames.

End Producer.

(** The request that a call hands to [fetch]. *)
Definition request_of (cl : Closure.t) (message : string)
    (options : Options.t) : ChatRequest.t :=
  {| ChatRequest.message := message;
     ChatRequest.session_id :=
       JS.or_else (Options.sessionId options) (Closure.sessionId cl);
     ChatRequest.include_sources :=
       Some (default true (Options.includeSource options));
     ChatRequest.max_sources :=
       Some (default 5%Z (Options.maxSources options)) |}.

(** The toast of the outer [catch]. *)
Definition is_failure_toast (t : Toast.t) : Prop :=
  Toast.title t = "Streaming failed" /\ Toast.variant t = Some "destructive".

(** A call leaves the parts of the world alone that only its start and its
    end write. *)
Definition quiet (w w' : World) : Prop :=
  cache w' = cache w /\ toasts w' = toasts w /\ fetches w' = fetches w
  /\ Hook.isStreaming (hook w') = Hook.isStreaming (hook w)
  /\ Hook.abortControllerRef (hook w') = Hook.abortControllerRef (hook w).

(** The caller is told of a conflict: the promise of the call rejects, or a
    toast is shown. *)
Definition surfaces_conflict (before after : World) (p : Progress) : Prop :=
  (exists e, p = settled (rejected e)) \/ toasts after <> toasts before.

(** ** Further inputs *)

(** [trim] on texts of code units below 256: the white space and line
    terminators among them are 9 to 13, 32 and 160. *)
Module Text.

Definition is_space (c : ascii) : bool :=
  let n := nat_of_ascii c in
  (Nat.leb 9 n && Nat.leb n 13) || Nat.eqb n 32 || Nat.eqb n 160.

Fixpoint trim_start (s : string) : string :=
  match s with
  | EmptyString => EmptyString
  | String c s' => if is_space c then trim_start s' else s
  end.

Fixpoint trim_end (s : string) : string :=
  match s with
  | EmptyString => EmptyString
  | String c s' =>
      match trim_end s' with
      | EmptyString => if is_space c then EmptyString else String c EmptyString
      | String c' t => String c (String c' t)
      end
  end.

Definition trim (s : string) : string := trim_end (trim_start s).

End Text.

Module Cases.

Import Sample.

Definition session_s2 : ChatSession.t :=
  {| ChatSession.id := "s2"; ChatSession.title := "Chat 12:00:00";
     ChatSession.messages := [];
     ChatSession.created_at := "2024-01-01T12:00:00.000Z";
     ChatSession.updated_at := "2024-01-01T12:00:00.000Z";
     ChatSession.user_id := "u1" |}.

Definition list0 : ChatSessionsResponse.t :=
  {| ChatSessionsResponse.sessions := [session_s1];
     ChatSessionsResponse.total := 1 |}.

(** Session s1 after a rename. *)
Definition renamed_s1 : ChatSession.t :=
  {| ChatSession.id := "s1"; ChatSession.title := "GDPR questions";
     ChatSession.messages := [];
     ChatSession.created_at := "2024-01-01T00:00:00.000Z";
     ChatSession.updated_at := "2024-01-01T12:00:00.000Z";
     ChatSession.user_id := "u1" |}.

(** An answer for a session that the cache does not hold. *)
Definition response_s9 : ChatResponse.t :=
  {| ChatResponse.message := ChatResponse.message response0;
     ChatResponse.session_id := "s9";
     ChatResponse.sources := None |}.

(** Session s9 as the session list shows it, and a cache that holds the
    list but no entry for s9: the list has been fetched, the session
    itself has not. *)
Definition session_s9 : ChatSession.t :=
  {| ChatSession.id := "s9"; ChatSession.title := "Chat";
     ChatSession.messages := [];
     ChatSession.created_at := "2024-01-01T00:00:00.000Z";
     ChatSession.updated_at := "2024-01-01T00:00:00.000Z";
     ChatSession.user_id := "u1" |}.

Definition cache_listed : QueryCache :=
  {| CHAT_SESSION := ∅;
     CHAT_SESSIONS :=
       Some {| ChatSessionsResponse.sessions := [session_s9];
               ChatSessionsResponse.total := 1 |} |}.

(** The lines of the scenario and the events they carry. *)
Definition scenario_lines : list string :=
  [line (token "The"); line (token " GDPR"); line (sources [docA_json]);
   line (done "msg_1")].

Definition scenario_events : list Event.t :=
  [Event.token "The"; Event.token " GDPR"; Event.sources [docA];
   Event.done "msg_1"].

(** A stream whose done event is not followed by a line feed. *)
Definition unterminated : list string :=
  [data (token "The"); line (done "msg_1")].

Definition error_response : Response.t :=
  {| Response.ok := false; Response.status := 500;
     Response.has_body := true |}.

(** A server with 45 documents in pages of 20, counting pages from one and
    from zero. *)
Definition page_of (first : Z) (offset : Z) : DocumentSearchResponse.t :=
  {| DocumentSearchResponse.documents := [];
     DocumentSearchResponse.total := 45;
     DocumentSearchResponse.page := offset / 20 + first;
     DocumentSearchResponse.page_size := 20;
     DocumentSearchResponse.total_pages := 3 |}.

(** Three files without tags and metadata; the second upload fails. *)
Definition upload_of (name : string) : DocumentUploadRequest.t :=
  {| DocumentUploadRequest.file := {| File.name := name |};
     DocumentUploadRequest.tags := None;
     DocumentUploadRequest.metadata := None |}.

Definition no_metadata : DocumentMetadata.t :=
  {| DocumentMetadata.title := None; DocumentMetadata.author := None;
     DocumentMetadata.subject := None; DocumentMetadata.creator := None;
     DocumentMetadata.producer := None;
     DocumentMetadata.creation_date := None;
     DocumentMetadata.modification_date := None;
     DocumentMetadata.pages := None; DocumentMetadata.word_count := None;
     DocumentMetadata.char_count := None; DocumentMetadata.language := None;
     DocumentMetadata.document_type := None |}.

Definition document_of (name : string) (status : ProcessingStatus) (size : Z)
    : Document.t :=
  {| Document.id := name; Document.filename := name;
     Document.content_type := "application/pdf";
     Document.file_size := size;
     Document.upload_date := "2024-01-01T12:00:00.000Z";
     Document.processed := ProcessingStatus_eqb status completed;
     Document.processing_status := status;
     Document.error_message := None;
     Document.metadata := no_metadata; Document.tags := [];
     Document.owner_id := "u1";
     Document.created_at := "2024-01-01T12:00:00.000Z";
     Document.updated_at := "2024-01-01T12:00:00.000Z" |}.

(** A page of three documents. *)
Definition page3 : DocumentSearchResponse.t :=
  {| DocumentSearchResponse.documents :=
       [document_of "a.pdf" completed 1024;
        document_of "b.pdf" processing 2048;
        document_of "c.pdf" failed 512];
     DocumentSearchResponse.total := 45;
     DocumentSearchResponse.page := 1;
     DocumentSearchResponse.page_size := 100;
     DocumentSearchResponse.total_pages := 1 |}.

Definition stringify_tags (tags : list string) : string :=
  Json.array (map Json.quoted tags).

(** Metadata with at most a title. *)
Definition stringify_metadata (m : DocumentMetadata.t) : string :=
  match DocumentMetadata.title m with
  | Some title => Json.object [Json.member "title" (Json.quoted title)]
  | None => Json.object []
  end.

Definition second_fails (n : nat) (file : File.t) (data : AdditionalData.t)
    : DocumentUploadResponse.t + option string :=
  if Nat.eqb n 1 then inr (Some "File too large")
  else inl {| DocumentUploadResponse.document :=
                document_of (File.name file) pending 1024;
              DocumentUploadResponse.message := "uploaded" |}.

Definition no_uploads : Uploads.t :=
  {| Uploads.calls := []; Uploads.invalidated := []; Uploads.toasts := [];
     Uploads.console := [] |}.

(** An input with a text of 4001 characters under the limit of 4000. *)
Definition long_input : MessageInput.Props :=
  {| MessageInput.value := filler 4001; MessageInput.isStreaming := false;
     MessageInput.disabled := false; MessageInput.maxLength := 4000 |}.

Definition short_input : MessageInput.Props :=
  {| MessageInput.value := "  What does the GDPR require?  ";
     MessageInput.isStreaming := false; MessageInput.disabled := false;
     MessageInput.maxLength := 4000 |}.

(** [JSON.stringify] on numbers with a short decimal expansion, and on
    the objects of the events, for texts without a character to escape. *)
Fixpoint fraction (fuel : nat) (r d : Z) : string :=
  match fuel with
  | O => EmptyString
  | S fuel' =>
      if (r =? 0)%Z then EmptyString
      else pretty (r * 10 / d)%Z ++ fraction fuel' (r * 10 mod d)%Z d
  end.

Definition decimal (q : Q) : string :=
  let n := Z.abs (Qnum q) in
  let d := Z.pos (Qden q) in
  (if (Qnum q <? 0)%Z then "-" else EmptyString)
  ++ pretty (n / d)%Z
  ++ (if (n mod d =? 0)%Z then EmptyString
      else "." ++ fraction 20 (n mod d)%Z d).

Definition optional {A} (key : string) (write : A -> string) (o : option A)
    : list string :=
  match o with
  | Some a => [Json.member key (write a)]
  | None => []
  end.

Definition reference (r : DocumentReference.t) : string :=
  Json.object
    ([Json.member "document_id"
        (Json.quoted (DocumentReference.document_id r));
      Json.member "filename" (Json.quoted (DocumentReference.filename r))]
     ++ optional "page_number" (fun n : Z => pretty n)
          (DocumentReference.page_number r)
     ++ optional "chunk_id" Json.quoted (DocumentReference.chunk_id r)
     ++ [Json.member "relevance_score"
           (decimal (DocumentReference.relevance_score r))]
     ++ optional "snippet" Json.quoted (DocumentReference.snippet r))%list.

Definition JSON_stringify (data : StreamingChatResponse.t) : string :=
  Json.object
    ([Json.member "type" (Json.quoted (StreamingChatResponse.type data))]
     ++ optional "content" Json.quoted (StreamingChatResponse.content data)
     ++ optional "sources" (fun l => Json.array (map reference l))
          (StreamingChatResponse.sources data)
     ++ optional "error" Json.quoted (StreamingChatResponse.error data)
     ++ optional "message_id" Json.quoted
          (StreamingChatResponse.message_id data))%list.

(** The events of the scenario and an error event. *)
Definition five_events : list Event.t :=
  (scenario_events ++ [Event.error "model overloaded"])%list.

(** A way of finding boundaries: a paragraph ends after a line feed. *)
Definition line_end (text : string) (p : nat) : bool :=
  match p with
  | O => false
  | S q =>
      match String.get q text with
      | Some c => Ascii.eqb c JS.LF
      | None => false
      end
  end.

(** A document of 2500 characters in two paragraphs, the first of 900
    characters with its line feed. *)
Definition two_paragraphs : string :=
  filler 899 ++ String JS.LF (filler 1600).

(** The chat page with the question typed. *)
Definition page0 : ChatInterface.t :=
  {| ChatInterface.app := world0; ChatInterface.message := question;
     ChatInterface.pushed := [] |}.

End Cases.

(** * Properties *)

(** ** Lines of a text *)

Module LinesFacts.

Import Lines.

Lemma or_default_empty (s : string) :
  JS.or_default (Some s) EmptyString = s.
Proof. destruct s; reflexivity. Qed.

Lemma split_not_nil (s : string) : JS.split s <> [].
Proof.
  induction s as [|c s IH]; simpl; [discriminate|].
  destruct (Ascii.eqb c JS.LF); [discriminate|].
  destruct (JS.split s); discriminate.
Qed.

Lemma pop_snoc (l : list string) (x : string) :
  JS.pop (l ++ [x]) = (l, Some x).
Proof.
  induction l as [|y l IH]; [reflexivity|].
  simpl. rewrite IH. destruct (l ++ [x])%list eqn:E; [|reflexivity].
  destruct l; discriminate.
Qed.

Lemma split_snoc (s : string) : exists init r, JS.split s = (init ++ [r])%list.
Proof.
  destruct (JS.split s) as [|x l] eqn:E using rev_ind.
  - exfalso. eapply split_not_nil, E.
  - eauto.
Qed.

(** Splitting an appended text: the last piece of the first part goes on
    into the second. *)
Lemma split_app (a b : string) (init : list string) (r : string) :
  JS.split a = (init ++ [r])%list ->
  JS.split (a ++ b) = (init ++ JS.split (r ++ b))%list.
Proof.
  revert init r. induction a as [|c a IH]; intros init r H.
  - simpl in H. destruct init as [|x init].
    + injection H as <-. reflexivity.
    + destruct init; discriminate.
  - simpl in H |- *. destruct (Ascii.eqb c JS.LF) eqn:Ec.
    + destruct init as [|x init].
      * exfalso. injection H as _ H. eapply split_not_nil, H.
      * injection H as <- H. simpl. f_equal. apply IH, H.
    + destruct (JS.split a) as [|h t] eqn:Ea.
      * exfalso. eapply split_not_nil, Ea.
      * destruct init as [|x init].
        -- simpl in H. injection H as <- ->.
           rewrite (IH [] h eq_refl). simpl. rewrite Ec. reflexivity.
        -- simpl in H. injection H as <- ->.
           rewrite (IH (h :: init) r eq_refl). reflexivity.
Qed.

Lemma complete_app (a b : string) :
  complete (a ++ b) = (complete a ++ complete (kept a ++ b))%list.
Proof.
  unfold complete, kept.
  destruct (split_snoc a) as (init & r & Ha).
  destruct (split_snoc (r ++ b)) as (init' & r' & Hb).
  rewrite (split_app a b init r Ha), Ha, Hb, app_assoc.
  rewrite !pop_snoc. cbn [fst snd].
  rewrite !or_default_empty, Hb, pop_snoc. cbn [fst snd].
  rewrite ?or_default_empty. reflexivity.
Qed.

Lemma kept_app (a b : string) : kept (a ++ b) = kept (kept a ++ b).
Proof.
  unfold kept.
  destruct (split_snoc a) as (init & r & Ha).
  destruct (split_snoc (r ++ b)) as (init' & r' & Hb).
  rewrite (split_app a b init r Ha), Ha, Hb, app_assoc.
  rewrite !pop_snoc. cbn [fst snd].
  rewrite !or_default_empty, Hb, pop_snoc. cbn [fst snd].
  rewrite ?or_default_empty. reflexivity.
Qed.

(** The last piece holds no line feed: splitting it gives it back whole. *)
Lemma split_last (a : string) (init : list string) (r : string) :
  JS.split a = (init ++ [r])%list -> JS.split r = [r].
Proof.
  revert init r. induction a as [|c a IH]; intros init r H.
  - simpl in H. destruct init as [|x init].
    + injection H as <-. reflexivity.
    + destruct init; discriminate.
  - simpl in H. destruct (Ascii.eqb c JS.LF) eqn:Ec.
    + destruct init as [|x init].
      * exfalso. injection H as _ H. eapply split_not_nil, H.
      * injection H as _ H. eapply IH, H.
    + destruct (JS.split a) as [|h t] eqn:Ea.
      * exfalso. eapply split_not_nil, Ea.
      * destruct init as [|x init].
        -- simpl in H. injection H as <- ->.
           simpl. rewrite Ec, (IH [] h eq_refl). reflexivity.
        -- simpl in H. injection H as _ ->.
           apply (IH (h :: init) r eq_refl).
Qed.

Lemma split_kept (a : string) : JS.split (kept a) = [kept a].
Proof.
  unfold kept. destruct (split_snoc a) as (init & r & Ha).
  rewrite Ha, pop_snoc. cbn [fst snd]. rewrite or_default_empty.
  eapply split_last, Ha.
Qed.

Lemma complete_kept (a : string) : complete (kept a) = [].
Proof. unfold complete. rewrite split_kept. reflexivity. Qed.

Lemma kept_kept (a : string) : kept (kept a) = kept a.
Proof.
  unfold kept at 1. rewrite split_kept. simpl. apply or_default_empty.
Qed.

(** A text that ends with a line feed: every line is complete. *)
Lemma split_LF (t : string) :
  JS.split (t ++ String JS.LF EmptyString)
  = (JS.split t ++ [EmptyString])%list.
Proof.
  induction t as [|c t IH]; [reflexivity|].
  simpl. destruct (Ascii.eqb c JS.LF).
  - rewrite IH. reflexivity.
  - rewrite IH. destruct (JS.split t) as [|h tl] eqn:E; [|reflexivity].
    exfalso. eapply split_not_nil, E.
Qed.

Lemma complete_LF (t : string) :
  complete (t ++ String JS.LF EmptyString) = JS.split t.
Proof. unfold complete. rewrite split_LF, pop_snoc. reflexivity. Qed.

Lemma kept_LF (t : string) :
  kept (t ++ String JS.LF EmptyString) = EmptyString.
Proof. unfold kept. rewrite split_LF, pop_snoc. reflexivity. Qed.

Lemma append_assoc (a b c : string) : (a ++ b) ++ c = a ++ (b ++ c).
Proof.
  induction a as [|x a IH]; [reflexivity|].
  change (String x ((a ++ b) ++ c) = String x (a ++ (b ++ c))).
  now rewrite IH.
Qed.

Lemma append_empty_r (a : string) : a ++ EmptyString = a.
Proof.
  induction a as [|x a IH]; [reflexivity|].
  change (String x (a ++ EmptyString) = String x a). now rewrite IH.
Qed.

End LinesFacts.

(** ** The stream consumer *)

Section StreamProperties.

Variable JSON_parse : string -> option StreamingChatResponse.t.


(** Case analysis of one line, down to the branch of the switch. *)
Ltac line_cases :=
  unfold handle_line, parse_and_dispatch, dispatch;
  repeat match goal with
    | |- context [if ?b then _ else _] => destruct b eqn:?
    | |- context [match JSON_parse ?x with _ => _ end] =>
        destruct (JSON_parse x) eqn:?
    | |- context [match StreamingChatResponse.sources ?x with _ => _ end] =>
        destruct (StreamingChatResponse.sources x) eqn:?
    | |- context [match StreamingChatResponse.message_id ?x with _ => _ end] =>
        destruct (StreamingChatResponse.message_id x) eqn:?
    end.

Lemma handle_line_set_buffer (b : string) (s : Loop) (line : string) :
  handle_line JSON_parse (set_buffer b s) line = set_buffer b (handle_line JSON_parse s line).
Proof. line_cases; reflexivity. Qed.

Lemma handle_lines_set_buffer (b : string) (lines : list string) (s : Loop) :
  fold_left (handle_line JSON_parse) lines (set_buffer b s)
  = set_buffer b (fold_left (handle_line JSON_parse) lines s).
Proof.
  revert s. induction lines as [|l lines IH]; intros s; [reflexivity|].
  simpl. rewrite handle_line_set_buffer. apply IH.
Qed.

Lemma handle_line_buffer (s : Loop) (line : string) :
  buffer (handle_line JSON_parse s line) = buffer s.
Proof. line_cases; reflexivity. Qed.

Lemma handle_lines_buffer (lines : list string) (s : Loop) :
  buffer (fold_left (handle_line JSON_parse) lines s) = buffer s.
Proof.
  revert s. induction lines as [|l lines IH]; intros s; [reflexivity|].
  simpl. rewrite IH. apply handle_line_buffer.
Qed.

Lemma handle_line_quiet (s : Loop) (line : string) :
  quiet (world s) (world (handle_line JSON_parse s line)).
Proof. line_cases; repeat split; reflexivity. Qed.

Lemma quiet_refl (w : World) : quiet w w.
Proof. repeat split; reflexivity. Qed.

Lemma quiet_trans (w1 w2 w3 : World) :
  quiet w1 w2 -> quiet w2 w3 -> quiet w1 w3.
Proof.
  intros (a1 & a2 & a3 & a4 & a5) (b1 & b2 & b3 & b4 & b5).
  repeat split; congruence.
Qed.

Lemma handle_lines_quiet (lines : list string) (s : Loop) :
  quiet (world s) (world (fold_left (handle_line JSON_parse) lines s)).
Proof.
  revert s. induction lines as [|l lines IH]; intros s; [apply quiet_refl|].
  simpl. eapply quiet_trans; [apply handle_line_quiet | apply IH].
Qed.

(** The assembled triple after a line depends on the line and on the
    triple before it, on nothing else. *)
Lemma handle_line_assembled (s1 s2 : Loop) (line : string) :
  assembled s1 = assembled s2 ->
  assembled (handle_line JSON_parse s1 line) = assembled (handle_line JSON_parse s2 line).
Proof.
  unfold assembled. intros H. injection H as H1 H2 H3.
  line_cases; simpl; congruence.
Qed.

Lemma handle_lines_assembled (lines : list string) (s1 s2 : Loop) :
  assembled s1 = assembled s2 ->
  assembled (fold_left (handle_line JSON_parse) lines s1)
  = assembled (fold_left (handle_line JSON_parse) lines s2).
Proof.
  revert s1 s2. induction lines as [|l lines IH]; intros s1 s2 H; [exact H|].
  simpl. apply IH, handle_line_assembled, H.
Qed.

(** One pass of the loop, by the lines it handles and what it keeps. *)
Lemma on_value_lines (value : string) (s : Loop) :
  on_value JSON_parse value s
  = set_buffer (Lines.kept (buffer s ++ value))
      (fold_left (handle_line JSON_parse) (Lines.complete (buffer s ++ value)) s).
Proof.
  unfold on_value, Lines.kept, Lines.complete.
  destruct (JS.pop (JS.split (buffer s ++ value))) as [lines last].
  cbn [fst snd]. apply handle_lines_set_buffer.
Qed.

(** Reading a value in two parts is reading it whole. *)
Lemma on_value_app (v1 v2 : string) (s : Loop) :
  on_value JSON_parse v2 (on_value JSON_parse v1 s) = on_value JSON_parse (v1 ++ v2) s.
Proof.
  rewrite (on_value_lines (v1 ++ v2)), <- LinesFacts.append_assoc.
  rewrite (LinesFacts.complete_app (buffer s ++ v1) v2).
  rewrite (LinesFacts.kept_app (buffer s ++ v1) v2), fold_left_app.
  rewrite (on_value_lines v1 s), (on_value_lines v2).
  cbn [buffer set_buffer]. rewrite handle_lines_set_buffer. reflexivity.
Qed.

Lemma on_value_empty (s : Loop) :
  JS.split (buffer s) = [buffer s] -> on_value JSON_parse EmptyString s = s.
Proof.
  intros H. rewrite on_value_lines, LinesFacts.append_empty_r.
  unfold Lines.complete, Lines.kept. rewrite H. cbn [JS.pop fst snd].
  rewrite LinesFacts.or_default_empty. destruct s; reflexivity.
Qed.

Lemma on_value_buffer (v : string) (s : Loop) :
  JS.split (buffer (on_value JSON_parse v s)) = [buffer (on_value JSON_parse v s)].
Proof. rewrite on_value_lines. cbn. apply LinesFacts.split_kept. Qed.

(** The loop over any chunks is one pass over their concatenation. *)
Lemma consume_concat (values : list string) (s : Loop) :
  JS.split (buffer s) = [buffer s] ->
  consume JSON_parse values s = on_value JSON_parse (JS.concat values) s.
Proof.
  revert s. induction values as [|v values IH]; intros s H.
  - symmetry. apply on_value_empty, H.
  - cbn [consume fold_left JS.concat].
    change (consume JSON_parse values (on_value JSON_parse v s) = on_value JSON_parse (v ++ JS.concat values) s).
    rewrite IH by apply on_value_buffer. apply on_value_app.
Qed.

(** *** The call as a whole *)

Lemma run_settled (script : list Awaited) (d : Date) (w : World)
    (r : Settled) :
  run JSON_parse script d w (settled r) = (w, settled r).
Proof. destruct script; reflexivity. Qed.

Lemma run_app (s1 s2 : list Awaited) (d : Date) (w : World) (p : Progress) :
  run JSON_parse (s1 ++ s2) d w p
  = let '(w', p') := run JSON_parse s1 d w p in run JSON_parse s2 d w' p'.
Proof.
  revert w p. induction s1 as [|a s1 IH]; intros w p; [reflexivity|].
  destruct p as [c|r].
  - cbn [app run]. destruct (resume JSON_parse c a d w) as [w' p']. apply IH.
  - cbn [app run]. now rewrite run_settled.
Qed.

Lemma move_point (c : Call) : move (point c) c = c.
Proof. destruct c; reflexivity. Qed.

Lemma resume_read_value (c : Call) (b i value : string) (d : Date)
    (w : World) :
  point c = at_read b i ->
  resume JSON_parse c (read_value value) d w
  = let s := on_value JSON_parse value
               {| world := w; buffer := b; currentMessageId := i |} in
    (world s, awaiting (move (at_read (buffer s) (currentMessageId s)) c)).
Proof. intros H. unfold resume. rewrite H. reflexivity. Qed.

(** The reads of a stream, one value after the other, are the loop. *)
Lemma run_values (values : list string) (d : Date) (w : World) (c : Call)
    (b i : string) :
  point c = at_read b i ->
  run JSON_parse (map read_value values) d w (awaiting c)
  = let s := consume JSON_parse values
               {| world := w; buffer := b; currentMessageId := i |} in
    (world s, awaiting (move (at_read (buffer s) (currentMessageId s)) c)).
Proof.
  revert w c b i. induction values as [|v values IH]; intros w c b i H.
  - cbn. rewrite <- H, move_point. reflexivity.
  - cbn [map run consume fold_left].
    rewrite (resume_read_value c b i v d w H). cbn zeta.
    destruct (on_value JSON_parse v _) as [w1 b1 i1].
    cbn [world buffer currentMessageId].
    rewrite (IH w1 (move (at_read b1 i1) c) b1 i1 eq_refl). reflexivity.
Qed.

Lemma start_point (cl : Closure.t) (message : string) (options : Options.t)
    (w w' : World) (c : Call) :
  start cl message options w = (w', awaiting c) -> point c = at_fetch.
Proof.
  unfold start. destruct (Closure.isStreaming cl); [discriminate|].
  intros [= _ <-]. reflexivity.
Qed.

Lemma resume_fetch_point (c c' : Call) (r : Response.t) (d : Date)
    (w w' : World) :
  point c = at_fetch ->
  resume JSON_parse c (fetch_fulfilled r) d w = (w', awaiting c') ->
  point c' = at_read EmptyString EmptyString.
Proof.
  intros H. unfold resume, thrown. rewrite H.
  destruct (negb (Response.ok r)); [discriminate|].
  destruct (negb (Response.has_body r)); [discriminate|].
  intros [= _ <-]. reflexivity.
Qed.

(** While a call is in flight it has written neither cache nor toasts,
    and the hook still says that it streams, with its controller in the
    ref. *)
Lemma on_value_quiet (value : string) (s : Loop) :
  quiet (world s) (world (on_value JSON_parse value s)).
Proof.
  rewrite on_value_lines. apply (handle_lines_quiet _ s).
Qed.

Lemma resume_awaiting_quiet (c c' : Call) (a : Awaited) (d : Date)
    (w w' : World) :
  resume JSON_parse c a d w = (w', awaiting c') -> quiet w w'.
Proof.
  unfold resume, thrown. destruct a as [r|value| |e], (point c) as [|b i];
    try (intros [= <- _]; apply quiet_refl); try discriminate.
  - destruct (negb (Response.ok r)); [discriminate|].
    destruct (negb (Response.has_body r)); [discriminate|].
    intros [= <- _]. apply quiet_refl.
  - intros [= <- _].
    apply (on_value_quiet value
             {| world := w; buffer := b; currentMessageId := i |}).
Qed.

Lemma run_awaiting_quiet (script : list Awaited) (d : Date) (w w' : World)
    (c c' : Call) :
  run JSON_parse script d w (awaiting c) = (w', awaiting c') -> quiet w w'.
Proof.
  revert w c. induction script as [|a script IH]; intros w c.
  - intros [= <- _]. apply quiet_refl.
  - cbn [run]. destruct (resume JSON_parse c a d w) as [w1 [c1|r]] eqn:E.
    + intros H. eapply quiet_trans;
        [eapply resume_awaiting_quiet, E | eapply IH, H].
    + rewrite run_settled. discriminate.
Qed.

Lemma send_in_flight (cl : Closure.t) (message : string)
    (options : Options.t) (script : list Awaited) (d : Date)
    (w0 w : World) (c : Call) :
  sendStreamingMessage JSON_parse cl message options script d w0
  = (w, awaiting c) ->
  Closure.isStreaming cl = false /\ cache w = cache w0
  /\ toasts w = toasts w0 /\ Hook.isStreaming (hook w) = true
  /\ Hook.abortControllerRef (hook w) = Some {| aborted := false |}.
Proof.
  unfold sendStreamingMessage, start.
  destruct (Closure.isStreaming cl).
  - rewrite run_settled. discriminate.
  - intros H. apply run_awaiting_quiet in H.
    destruct H as (H1 & H2 & H3 & H4 & H5). cbn in *. tauto.
Qed.

(** *** Framing *)

(** A frame is one line when the object is written without a line
    feed. *)
Lemma frame_is_one_line (JSON_stringify : StreamingChatResponse.t -> string)
    (e : Event.t) :
  JS.split (JSON_stringify (Event.payload e))
  = [JSON_stringify (Event.payload e)] ->
  JS.split (Producer.frame JSON_stringify e)
  = [Producer.frame JSON_stringify e].
Proof.
  intros H. unfold Producer.frame.
  change ("data: " ++ JSON_stringify (Event.payload e))
    with (String "d" (String "a" (String "t" (String "a" (String ":"
            (String " " (JSON_stringify (Event.payload e)))))))).
  cbn [JS.split]. rewrite H. reflexivity.
Qed.

Lemma stream_lines (JSON_stringify : StreamingChatResponse.t -> string)
    (es : list Event.t) :
  Forall (fun e => JS.split (JSON_stringify (Event.payload e))
                   = [JSON_stringify (Event.payload e)]) es ->
  Lines.complete (Producer.stream JSON_stringify es)
  = map (Producer.frame JSON_stringify) es
  /\ Lines.kept (Producer.stream JSON_stringify es) = EmptyString.
Proof.
  induction 1 as [|e es He _ [IH1 IH2]]; [split; reflexivity|].
  cbn [Producer.stream map]. split.
  - rewrite LinesFacts.complete_app, LinesFacts.complete_LF,
      LinesFacts.kept_LF, (frame_is_one_line _ _ He).
    change (EmptyString ++ Producer.stream JSON_stringify es)
      with (Producer.stream JSON_stringify es).
    rewrite IH1. reflexivity.
  - rewrite LinesFacts.kept_app, LinesFacts.kept_LF.
    change (EmptyString ++ Producer.stream JSON_stringify es)
      with (Producer.stream JSON_stringify es).
    exact IH2.
Qed.

(** C5: an event goes over the wire as a line that begins with [data: ]
    and carries a JSON object with a [type] among token, sources, done and
    error: such are the frames of the producer, and the lines of its
    stream are its frames, one for each event. The consumer takes a line
    for an event only in this framing: a framed token appends its content
    to the answer text, framed sources replace the source list, a framed
    done records its message identifier, a framed error has its line,
    failure reason included, written to the console, and each leaves
    everything else as it was; a line without the prefix and a framed
    object with any other [type] change nothing. *)
Theorem events_are_framed_data_lines
    (JSON_stringify : StreamingChatResponse.t -> string) (s : Loop) :
  (forall e,
      JSON_parse (JSON_stringify (Event.payload e)) = Some (Event.payload e) ->
      JS.startsWith "data: " (Producer.frame JSON_stringify e) = true
      /\ JSON_parse (JS.slice 6 (Producer.frame JSON_stringify e))
         = Some (Event.payload e)
      /\ Event.known (StreamingChatResponse.type (Event.payload e)) = true
      /\ Events.framed JSON_parse (Producer.frame JSON_stringify e) e)
  /\ (forall es,
        Forall (fun e => JS.split (JSON_stringify (Event.payload e))
                         = [JSON_stringify (Event.payload e)]) es ->
        Lines.complete (Producer.stream JSON_stringify es)
        = map (Producer.frame JSON_stringify) es
        /\ Lines.kept (Producer.stream JSON_stringify es) = EmptyString)
  /\ (forall line e,
        Events.framed JSON_parse line e ->
        let s' := handle_line JSON_parse s line in
        let text := Hook.streamingMessage (hook (world s)) in
        let refs := Hook.streamingSources (hook (world s)) in
        let id := currentMessageId s in
        assembled s'
        = match e with
          | Event.token content => (text ++ content, refs, id)
          | Event.sources l => (text, l, id)
          | Event.done message_id =>
              (text, refs, if JS.truthy message_id then message_id else id)
          | Event.error _ => (text, refs, id)
          end
        /\ console (world s')
           = match e with
             | Event.error _ =>
                 (console (world s)
                  ++ [["Failed to parse streaming data:"; line]])%list
             | _ => console (world s)
             end
        /\ buffer s' = buffer s
        /\ quiet (world s) (world s'))
  /\ (forall line,
        JS.startsWith "data: " line = false ->
        handle_line JSON_parse s line = s)
  /\ (forall payload data,
        JSON_parse payload = Some data ->
        Event.known (StreamingChatResponse.type data) = false ->
        handle_line JSON_parse s ("data: " ++ payload) = s).
Proof.
  split; [|split; [|split; [|split]]].
  - intros e H. unfold Producer.frame.
    change (JS.startsWith "data: "
              ("data: " ++ JSON_stringify (Event.payload e))) with true.
    change (JS.slice 6 ("data: " ++ JSON_stringify (Event.payload e)))
      with (JSON_stringify (Event.payload e)).
    split; [reflexivity|]. split; [exact H|].
    split; [destruct e; reflexivity|].
    eexists. split; [reflexivity | exact H].
  - apply stream_lines.
  - intros line e (payload & -> & H) s' text refs id. subst s' text refs id.
    unfold handle_line, parse_and_dispatch.
    change (JS.startsWith "data: " ("data: " ++ payload)) with true.
    change (JS.slice 6 ("data: " ++ payload)) with payload.
    rewrite H. unfold assembled, quiet.
    destruct e as [c|l|i|r]; cbn.
    + destruct c; cbn; repeat split; reflexivity.
    + repeat split; reflexivity.
    + destruct (JS.truthy i); cbn; repeat split; reflexivity.
    + repeat split; reflexivity.
  - intros line H. unfold handle_line. rewrite H. reflexivity.
  - intros payload data H K. unfold handle_line, parse_and_dispatch.
    change (JS.startsWith "data: " ("data: " ++ payload)) with true.
    change (JS.slice 6 ("data: " ++ payload)) with payload.
    rewrite H. unfold Event.known in K. unfold dispatch.
    destruct (String.eqb _ "token"); [discriminate|].
    destruct (String.eqb _ "sources"); [discriminate|].
    destruct (String.eqb _ "done"); [discriminate|].
    destruct (String.eqb _ "error"); [discriminate|]. reflexivity.
Qed.

(** *** Chunk boundaries *)

(** C9: the way the stream is cut into read chunks does not matter. For a
    stream text that ends with a line feed and any chunks that append to
    it, the call does the same whether it reads the chunks one by one or
    the whole text in one read, whatever comes before and after; and the
    loop handles exactly the lines of the text, in order, keeping
    nothing in its buffer. *)
Theorem chunk_boundaries_do_not_matter (chunks : list string)
    (text : string) :
  JS.concat chunks = text ++ String JS.LF EmptyString ->
  (forall cl message options r rest d w,
      sendStreamingMessage JSON_parse cl message options
        (fetch_fulfilled r :: map read_value chunks ++ rest) d w
      = sendStreamingMessage JSON_parse cl message options
          (fetch_fulfilled r :: read_value (JS.concat chunks) :: rest) d w)
  /\ (forall s,
        buffer s = EmptyString ->
        consume JSON_parse chunks s
        = fold_left (handle_line JSON_parse) (JS.split text) s).
Proof.
  intros Htext. split.
  - intros cl message options r rest d w.
    unfold sendStreamingMessage.
    destruct (start cl message options w) as [w1 [c1|r1]] eqn:Es;
      [|now rewrite !run_settled].
    cbn [run].
    destruct (resume JSON_parse c1 (fetch_fulfilled r) d w1)
      as [w2 [c2|r2]] eqn:Er; [|now rewrite !run_settled].
    assert (Hc : point c2 = at_read EmptyString EmptyString)
      by (eapply resume_fetch_point; [eapply start_point, Es | exact Er]).
    rewrite run_app, (run_values chunks _ _ _ _ _ Hc).
    rewrite (resume_read_value c2 _ _ _ d w2 Hc).
    rewrite consume_concat by reflexivity. reflexivity.
  - intros s Hs. rewrite consume_concat by (rewrite Hs; reflexivity).
    rewrite on_value_lines, Htext, Hs.
    change (EmptyString ++ (text ++ String JS.LF EmptyString))
      with (text ++ String JS.LF EmptyString).
    rewrite LinesFacts.complete_LF, LinesFacts.kept_LF.
    rewrite <- (handle_lines_buffer (JS.split text) s) in Hs.
    destruct (fold_left _ _ s) as [w b i]. cbn in Hs. now subst.
Qed.

(** *** Malformed payloads *)


(** *** Cancellation *)

(** C2: cancelling a stream that is in flight adds no message. Whatever
    callback started the call and however far the stream got, after
    [cancelStreaming] the cache is what it was before the send, so the
    session has neither a user nor an assistant message for the turn;
    the partial text and sources are dropped from the hook, no toast is
    shown, and the call has ended. *)
Theorem cancel_adds_no_message (cl : Closure.t) (message : string)
    (options : Options.t) (script : list Awaited) (d d' : Date)
    (w0 w : World) (c : Call) :
  sendStreamingMessage JSON_parse cl message options script d w0
  = (w, awaiting c) ->
  exists w',
    cancel JSON_parse c d' w = (w', settled resolved)
    /\ cache w' = cache w0
    /\ toasts w' = toasts w0
    /\ Hook.streamingMessage (hook w') = EmptyString
    /\ Hook.streamingSources (hook w') = []
    /\ Hook.isStreaming (hook w') = false
    /\ Hook.abortControllerRef (hook w') = None.
Proof.
  intros H. apply send_in_flight in H.
  destruct H as (_ & Hc & Ht & _ & Hr).
  unfold cancel, cancelStreaming. rewrite Hr. cbn.
  eexists. split; [reflexivity|]. cbn. repeat split; assumption.
Qed.

(** *** A second send *)

(** C3, as the code has it: while a stream is in flight, a send through
    the callback of the current render returns at once. It issues no
    request and reads no token, it leaves the hook, the cache, the toasts
    and the console as they are, nothing is queued for later, and its
    promise resolves: the call is dropped without a word. *)
Theorem second_send_is_dropped (cl : Closure.t) (message : string)
    (options : Options.t) (script : list Awaited) (d : Date)
    (w0 w : World) (c : Call) :
  sendStreamingMessage JSON_parse cl message options script d w0
  = (w, awaiting c) ->
  forall sessionId message' options' script' d',
    sendStreamingMessage JSON_parse (render sessionId (hook w)) message'
      options' script' d' w
    = (w, settled resolved).
Proof.
  intros H sessionId message' options' script' d'.
  apply send_in_flight in H. destruct H as (_ & _ & _ & Hs & _).
  unfold sendStreamingMessage, start, render. cbn. rewrite Hs.
  apply run_settled.
Qed.

(** *** What a call stores *)

(** The text that the update after the loop tests and stores is the one
    the callback captured. With none captured, nothing is written. *)
Lemma persist_without_captured_text (c : Call) (i : string) (d : Date)
    (w : World) :
  Closure.streamingMessage (closure c) = EmptyString -> persist c i d w = w.
Proof.
  intros H. unfold persist. rewrite H. destruct (finalSessionId c) as [sid|];
    [|reflexivity].
  destruct (JS.truthy sid), (JS.truthy i); reflexivity.
Qed.

Lemma resume_without_captured_text (c : Call) (a : Awaited) (d : Date)
    (w : World) :
  Closure.streamingMessage (closure c) = EmptyString ->
  cache (fst (resume JSON_parse c a d w)) = cache w
  /\ match snd (resume JSON_parse c a d w) with
     | awaiting c' => closure c' = closure c
     | settled _ => True
     end.
Proof.
  intros H. unfold resume, thrown, catch_block.
  destruct a as [r|value| |e], (point c) as [|b i]; cbn;
    try (split; reflexivity).
  - destruct (negb (Response.ok r)); cbn; [split; reflexivity|].
    destruct (negb (Response.has_body r)); cbn; split; reflexivity.
  - split; [|reflexivity].
    apply (on_value_quiet value
             {| world := w; buffer := b; currentMessageId := i |}).
  - rewrite persist_without_captured_text by exact H. split; reflexivity.
  - destruct (String.eqb _ _); split; reflexivity.
  - destruct (String.eqb _ _); split; reflexivity.
Qed.

Lemma run_without_captured_text (script : list Awaited) (d : Date)
    (w : World) (c : Call) :
  Closure.streamingMessage (closure c) = EmptyString ->
  cache (fst (run JSON_parse script d w (awaiting c))) = cache w.
Proof.
  revert w c. induction script as [|a script IH]; intros w c H;
    [reflexivity|].
  cbn [run]. destruct (resume_without_captured_text c a d w H) as [H1 H2].
  destruct (resume JSON_parse c a d w) as [w' [c'|r]]; cbn in H1, H2.
  - rewrite IH by congruence. exact H1.
  - rewrite run_settled. exact H1.
Qed.

(** A call that has ended leaves the hook as a fresh one: not streaming,
    without text, sources and controller. So between calls the text that a
    new callback captures is empty. *)
Lemma resume_settled_hook (c : Call) (a : Awaited) (d : Date)
    (w w' : World) (r : Settled) :
  resume JSON_parse c a d w = (w', settled r) -> hook w' = Hook.initial.
Proof.
  unfold resume, thrown.
  destruct a as [x|value| |e], (point c) as [|b i]; try discriminate;
    try (intros [= <- _]; reflexivity).
  destruct (negb (Response.ok x)); [intros [= <- _]; reflexivity|].
  destruct (negb (Response.has_body x)); [intros [= <- _]; reflexivity|].
  discriminate.
Qed.

Lemma run_settled_hook (script : list Awaited) (d : Date) (w w' : World)
    (c : Call) (r : Settled) :
  run JSON_parse script d w (awaiting c) = (w', settled r) ->
  hook w' = Hook.initial.
Proof.
  revert w c. induction script as [|a script IH]; intros w c; [discriminate|].
  cbn [run]. destruct (resume JSON_parse c a d w) as [w1 [c1|r1]] eqn:E.
  - apply IH.
  - rewrite run_settled. intros [= <- _]. eapply resume_settled_hook, E.
Qed.

Lemma ended_call_resets_hook (cl : Closure.t) (message : string)
    (options : Options.t) (script : list Awaited) (d : Date)
    (w w' : World) (r : Settled) :
  Closure.isStreaming cl = false ->
  sendStreamingMessage JSON_parse cl message options script d w
  = (w', settled r) ->
  hook w' = Hook.initial.
Proof.
  intros H. unfold sendStreamingMessage, start. rewrite H.
  apply run_settled_hook.
Qed.

(** Through the callback of a render in which no answer text is shown, as
    it is whenever no stream runs, a send never writes to the cache,
    whatever the stream brings. *)
Lemma callback_without_text_stores_nothing (sessionId : option string)
    (message : string) (options : Options.t) (script : list Awaited)
    (d : Date) (w : World) :
  Hook.streamingMessage (hook w) = EmptyString ->
  cache (fst (sendStreamingMessage JSON_parse (render sessionId (hook w))
                message options script d w))
  = cache w.
Proof.
  intros H. unfold sendStreamingMessage, start.
  destruct (Closure.isStreaming _); [now rewrite run_settled|].
  rewrite run_without_captured_text by exact H. reflexivity.
Qed.

End StreamProperties.

(** ** The non-streaming send *)

Lemma setQueryData_CHAT_SESSIONS_sessions
    (f : option ChatSessionsResponse.t -> option ChatSessionsResponse.t)
    (c : QueryCache) :
  CHAT_SESSION (setQueryData_CHAT_SESSIONS f c) = CHAT_SESSION c.
Proof.
  unfold setQueryData_CHAT_SESSIONS. destruct (f _); reflexivity.
Qed.

Lemma touch_messages (sessionId : string) (d : Date) (session : ChatSession.t) :
  ChatSession.messages (touch sessionId d session)
  = ChatSession.messages session.
Proof. unfold touch. destruct (String.eqb _ _); reflexivity. Qed.

(** C7: a successful non-streaming send appends to the cached session the
    user message and then the message of the response, and nothing else
    happens to messages: the earlier ones keep their places, the session
    keeps its identity, the other cached sessions and the copies in the
    session list keep their messages. *)
Theorem send_appends_user_then_assistant (response : ChatResponse.t)
    (request : ChatRequest.t) (d : Date) (c : QueryCache)
    (old : ChatSession.t) :
  CHAT_SESSION c !! ChatResponse.session_id response = Some old ->
  let c' := useSendMessage_onSuccess response request d c in
  exists new userMessage,
    CHAT_SESSION c' !! ChatResponse.session_id response = Some new
    /\ ChatSession.messages new
       = (ChatSession.messages old
            ++ [userMessage; ChatResponse.message response])%list
    /\ Message.role userMessage = user
    /\ Message.content userMessage = ChatRequest.message request
    /\ (forall i m, ChatSession.messages old !! i = Some m ->
                    ChatSession.messages new !! i = Some m)
    /\ ChatSession.id new = ChatSession.id old
    /\ ChatSession.title new = ChatSession.title old
    /\ ChatSession.user_id new = ChatSession.user_id old
    /\ (forall other, other <> ChatResponse.session_id response ->
                      CHAT_SESSION c' !! other = CHAT_SESSION c !! other)
    /\ (forall l, CHAT_SESSIONS c = Some l ->
          exists l', CHAT_SESSIONS c' = Some l'
            /\ map ChatSession.messages (ChatSessionsResponse.sessions l')
               = map ChatSession.messages (ChatSessionsResponse.sessions l)).
Proof.
  intros H c'. subst c'. unfold useSendMessage_onSuccess.
  rewrite setQueryData_CHAT_SESSIONS_sessions.
  unfold setQueryData_CHAT_SESSION at 1 2. rewrite H. cbn [append_turn].
  eexists _, (userMessage_of (ChatRequest.message request) d).
  cbn [CHAT_SESSION]. split; [apply lookup_insert_eq|].
  split; [reflexivity|]. split; [reflexivity|]. split; [reflexivity|].
  split.
  { intros i m Hi. cbn [ChatSession.messages].
    apply lookup_app_l_Some, Hi. }
  split; [reflexivity|]. split; [reflexivity|]. split; [reflexivity|].
  split.
  { intros other Hne. apply lookup_insert_ne. congruence. }
  intros l Hl. unfold setQueryData_CHAT_SESSIONS, setQueryData_CHAT_SESSION.
  rewrite H. cbn. rewrite Hl. cbn. eexists. split; [reflexivity|].
  cbn. rewrite map_map. apply map_ext. intros s. apply touch_messages.
Qed.

(** ** Status polling *)

Lemma refetchInterval_status (a : DocumentProcessingStatus.t) :
  refetchInterval (the_data (Some a))
  = if in_progress (DocumentProcessingStatus.status a) then Some 2000%Z
    else None.
Proof.
  unfold refetchInterval, status_is.
  destruct (DocumentProcessingStatus.status a); reflexivity.
Qed.

Lemma polls_cons (t : Z) (a : DocumentProcessingStatus.t)
    (answers : list DocumentProcessingStatus.t) :
  polls react_query_4 t (a :: answers)
  = (t, a) :: if in_progress (DocumentProcessingStatus.status a)
              then polls react_query_4 (t + 2000) answers else [].
Proof.
  cbn [polls handed]. rewrite refetchInterval_status.
  destruct (in_progress _); reflexivity.
Qed.

Lemma polls_times (answers : list DocumentProcessingStatus.t) (t : Z)
    (n : nat) (p : Z * DocumentProcessingStatus.t) :
  polls react_query_4 t answers !! n = Some p ->
  fst p = (t + 2000 * Z.of_nat n)%Z /\ answers !! n = Some (snd p).
Proof.
  revert t n. induction answers as [|a answers IH]; intros t n H;
    [discriminate|].
  rewrite polls_cons in H. destruct n as [|n].
  - injection H as <-. cbn. split; [lia|reflexivity].
  - cbn in H. destruct (in_progress (DocumentProcessingStatus.status a));
      [|discriminate].
    apply IH in H. cbn. split; [lia|tauto].
Qed.

Lemma polls_next_only_in_progress
    (answers : list DocumentProcessingStatus.t) (t : Z) (n : nat)
    (p : Z * DocumentProcessingStatus.t) :
  polls react_query_4 t answers !! S n = Some p ->
  exists a, answers !! n = Some a
            /\ in_progress (DocumentProcessingStatus.status a) = true.
Proof.
  revert t n. induction answers as [|a answers IH]; intros t n H;
    [discriminate|].
  rewrite polls_cons in H. cbn in H.
  destruct (in_progress (DocumentProcessingStatus.status a)) eqn:E;
    [|discriminate].
  destruct n as [|n]; [exists a; auto|]. cbn. eapply IH, H.
Qed.

Lemma polls_go_on (answers : list DocumentProcessingStatus.t) (t : Z)
    (n : nat) (p : Z * DocumentProcessingStatus.t) :
  polls react_query_4 t answers !! n = Some p ->
  in_progress (DocumentProcessingStatus.status (snd p)) = true ->
  is_Some (answers !! S n) ->
  is_Some (polls react_query_4 t answers !! S n).
Proof.
  revert t n. induction answers as [|a answers IH]; intros t n H Hp Hn;
    [discriminate|].
  rewrite polls_cons in H |- *. destruct n as [|n].
  - injection H as <-. cbn in Hp. rewrite Hp. cbn in Hn |- *.
    destruct answers as [|a' answers]; [destruct Hn; discriminate|].
    rewrite polls_cons. cbn. eauto.
  - cbn in H. destruct (in_progress (DocumentProcessingStatus.status a));
      [|discriminate].
    cbn in Hn |- *. eapply IH; eauto.
Qed.

Lemma polls_stop (answers : list DocumentProcessingStatus.t) (t : Z)
    (n : nat) (p : Z * DocumentProcessingStatus.t) :
  polls react_query_4 t answers !! n = Some p ->
  in_progress (DocumentProcessingStatus.status (snd p)) = false ->
  length (polls react_query_4 t answers) = S n.
Proof.
  revert t n. induction answers as [|a answers IH]; intros t n H Hp;
    [discriminate|].
  rewrite polls_cons in H |- *. destruct n as [|n].
  - injection H as <-. cbn in Hp. rewrite Hp. reflexivity.
  - cbn in H. destruct (in_progress (DocumentProcessingStatus.status a));
      [|discriminate].
    cbn. f_equal. eapply IH; eauto.
Qed.

(** Handed the query, the function finds no status and never says
    [false]: every answer is followed by another fetch, whatever it
    says. *)
Lemma polls_handed_the_query (answers : list DocumentProcessingStatus.t)
    (t : Z) :
  polls react_query_5 t answers
  = imap (fun n a => ((t + 2000 * Z.of_nat n)%Z, a)) answers.
Proof.
  revert t. induction answers as [|a answers IH]; intros t; [reflexivity|].
  cbn [polls handed refetchInterval status_is orb]. rewrite IH.
  cbn [imap]. f_equal; [f_equal; lia|].
  apply imap_ext. intros n x _. cbn. f_equal. lia.
Qed.


(** ** The chunker *)

Module ChunkerFacts.

Import Chunker.

Section Spans.

Variable boundary : string -> nat -> bool.
Variable cfg : Config.
Variable text : string.
Hypothesis Hvalid : valid cfg = true.

Local Abbreviation chain := (Chunker.chain boundary cfg text).
Local Abbreviation len := (String.length text).

Lemma overlap_lt : overlap cfg < chunk_size cfg.
Proof. apply Nat.ltb_lt, Hvalid. Qed.

Lemma last_boundary_Some (lo n p : nat) :
  last_boundary boundary text lo n = Some p ->
  lo < p <= lo + n /\ boundary text p = true
  /\ forall q, p < q <= lo + n -> boundary text q = false.
Proof.
  induction n as [|n IH]; [discriminate|]. cbn [last_boundary].
  destruct (boundary text (lo + S n)) eqn:E.
  - intros [= <-]. split; [lia|]. split; [exact E|]. intros q Hq. lia.
  - intros H. destruct (IH H) as (H1 & H2 & H3).
    split; [lia|]. split; [exact H2|]. intros q Hq.
    destruct (Nat.eq_dec q (lo + S n)) as [->|Hne]; [exact E|].
    apply H3. lia.
Qed.

Lemma last_boundary_None (lo n : nat) :
  last_boundary boundary text lo n = None ->
  forall q, lo < q <= lo + n -> boundary text q = false.
Proof.
  induction n as [|n IH]; [intros _ q Hq; lia|]. cbn [last_boundary].
  destruct (boundary text (lo + S n)) eqn:E; [discriminate|].
  intros H q Hq.
  destruct (Nat.eq_dec q (lo + S n)) as [->|Hne]; [exact E|].
  apply (IH H). lia.
Qed.

(** Where a chunk is cut. *)
Lemma cut_spec (from : nat) :
  from + overlap cfg < cut boundary cfg text from <= from + chunk_size cfg
  /\ (boundary text (cut boundary cfg text from) = true
      \/ (cut boundary cfg text from = from + chunk_size cfg
          /\ forall p, from + overlap cfg < p <= from + chunk_size cfg ->
                       boundary text p = false))
  /\ forall p, cut boundary cfg text from < p <= from + chunk_size cfg ->
               boundary text p = false.
Proof.
  pose proof overlap_lt as Ho. unfold cut.
  destruct (last_boundary boundary text (from + overlap cfg)
              (chunk_size cfg - overlap cfg)) as [p|] eqn:E.
  - destruct (last_boundary_Some _ _ _ E) as (H1 & H2 & H3).
    split; [lia|]. split; [left; exact H2|]. intros q Hq. apply H3. lia.
  - split; [lia|]. split; [|intros q Hq; lia].
    right. split; [reflexivity|]. intros q Hq.
    apply (last_boundary_None _ _ E). lia.
Qed.

(** Without a boundary in reach short of the full length, the chunk is
    full. *)
Lemma cut_full (from : nat) :
  (forall p, from + overlap cfg < p < from + chunk_size cfg ->
             boundary text p = false) ->
  cut boundary cfg text from = from + chunk_size cfg.
Proof.
  intros H. destruct (cut_spec from) as (H1 & [H2|[H2 _]] & _); [|exact H2].
  destruct (Nat.eq_dec (cut boundary cfg text from) (from + chunk_size cfg))
    as [E|E]; [exact E|].
  rewrite H in H2 by lia. discriminate.
Qed.

(** With fuel beyond the text that is left, the spans have that shape. *)
Lemma spans_from_chain (fuel from : nat) :
  from <= len -> len < from + fuel ->
  chain from (spans_from boundary fuel cfg text from).
Proof.
  revert from. induction fuel as [|fuel IH]; intros from H1 H2; [lia|].
  cbn [spans_from]. destruct (Nat.leb_spec len (from + chunk_size cfg)).
  - now apply chain_last.
  - destruct (cut_spec from) as (Hc & Hb & Hg).
    apply chain_step; try assumption. apply IH; lia.
Qed.

Lemma chain_head (from : nat) (l : list Span) :
  chain from l -> exists sp, l !! 0 = Some sp /\ start sp = from.
Proof. intros [f H|f t l' H1 H2 H3 H4 H5]; eexists; split; reflexivity. Qed.

Lemma chain_end (from : nat) (l : list Span) :
  chain from l -> exists sp, last l = Some sp /\ stop sp = len.
Proof.
  induction 1 as [f H|f t l' H1 H2 H3 H4 H5 (sp & IH1 & IH2)].
  - eexists; split; reflexivity.
  - exists sp. split; [|exact IH2].
    destruct l' as [|x l']; [discriminate|exact IH1].
Qed.

Lemma chain_bounds (from : nat) (l : list Span) :
  chain from l -> from <= len ->
  forall sp, sp ∈ l -> from <= start sp /\ start sp <= stop sp <= len.
Proof.
  induction 1 as [f H|f t l' H1 H2 H3 H4 H5 IH]; intros Hf sp Hin.
  - apply list_elem_of_singleton in Hin as ->. cbn. lia.
  - apply elem_of_cons in Hin as [->|Hin]; [cbn; lia|].
    assert (Hf' : t - overlap cfg <= len) by lia.
    specialize (IH Hf' sp Hin). lia.
Qed.

Lemma chain_consecutive (from : nat) (l : list Span) (i : nat)
    (a b : Span) :
  chain from l -> l !! i = Some a -> l !! S i = Some b ->
  start a + overlap cfg < stop a <= start a + chunk_size cfg
  /\ (boundary text (stop a) = true
      \/ (stop a = start a + chunk_size cfg
          /\ forall p, start a + overlap cfg < p
                       <= start a + chunk_size cfg ->
                       boundary text p = false))
  /\ (forall p, stop a < p <= start a + chunk_size cfg ->
                boundary text p = false)
  /\ start a < start b
  /\ start b <= stop a
  /\ shared a b = overlap cfg
  /\ stop a < stop b.
Proof.
  intros H. revert i a b.
  induction H as [f H|f t l' H1 H2 H3 H4 H5 IH]; intros i a b Ha Hb.
  - destruct i; discriminate.
  - destruct i as [|i]; [|eapply IH; eassumption].
    injection Ha as <-. cbn in Hb. unfold shared. cbn.
    split; [exact H2|]. split; [exact H3|]. split; [exact H4|].
    inversion H5; subst; injection Hb as <-; cbn; lia.
Qed.

Lemma chain_covers (from : nat) (l : list Span) (p : nat) :
  chain from l -> from <= p < len ->
  exists sp, sp ∈ l /\ covers sp p.
Proof.
  induction 1 as [f H|f t l' H1 H2 H3 H4 H5 IH]; intros Hp.
  - eexists. split; [apply list_elem_of_here|]. unfold covers. cbn. lia.
  - destruct (Nat.lt_ge_cases p t) as [Hlt|Hge].
    + eexists. split; [apply list_elem_of_here|]. unfold covers. cbn. lia.
    + destruct IH as (sp & Hin & Hc); [lia|].
      exists sp. split; [apply list_elem_of_further, Hin | exact Hc].
Qed.

Lemma spans_chain : chain 0 (spans boundary cfg text).
Proof. apply spans_from_chain; lia. Qed.

End Spans.

Lemma chunk_spans (boundary : string -> nat -> bool) (cfg : Config)
    (text : string) :
  map span (chunk boundary cfg text) = spans boundary cfg text.
Proof.
  unfold chunk. apply list_eq. intros i.
  rewrite list_lookup_fmap, list_lookup_imap.
  destruct (spans boundary cfg text !! i); reflexivity.
Qed.

Lemma chunk_lookup (boundary : string -> nat -> bool) (cfg : Config)
    (text : string) (i : nat) (c : Chunk) :
  chunk boundary cfg text !! i = Some c ->
  spans boundary cfg text !! i = Some (span c)
  /\ index c = i
  /\ Chunker.text c
     = substring (start (span c)) (stop (span c) - start (span c)) text.
Proof.
  unfold chunk. rewrite list_lookup_imap.
  destruct (spans boundary cfg text !! i); [|discriminate].
  intros [= <-]. auto.
Qed.

Lemma spans_from_S (boundary : string -> nat -> bool) (fuel : nat)
    (cfg : Config) (text : string) (from : nat) :
  spans_from boundary (S fuel) cfg text from
  = if Nat.leb (String.length text) (from + chunk_size cfg) then
      [{| start := from; stop := String.length text |}]
    else
      {| start := from; stop := cut boundary cfg text from |}
      :: spans_from boundary fuel cfg text
           (cut boundary cfg text from - overlap cfg).
Proof. reflexivity. Qed.

(** The spans of the scenario of section 8, for a text of 2500 characters
    whose first two chunks are full. *)
Lemma spans_2500 (boundary : string -> nat -> bool) (text : string) :
  let cfg := {| chunk_size := 1000; overlap := 200 |} in
  String.length text = 2500 ->
  cut boundary cfg text 0 = 1000 ->
  cut boundary cfg text 800 = 1800 ->
  spans boundary cfg text
  = [ {| start := 0; stop := 1000 |}; {| start := 800; stop := 1800 |};
      {| start := 1600; stop := 2500 |} ].
Proof.
  intros cfg Hlen H0 H800. unfold spans.
  rewrite spans_from_S, Hlen, H0.
  replace (Nat.leb 2500 (0 + chunk_size cfg)) with false
    by (symmetry; apply Nat.leb_gt; cbn; lia).
  replace (1000 - overlap cfg) with 800 by (cbn; lia).
  rewrite spans_from_S, Hlen, H800.
  replace (Nat.leb 2500 (800 + chunk_size cfg)) with false
    by (symmetry; apply Nat.leb_gt; cbn; lia).
  replace (1800 - overlap cfg) with 1600 by (cbn; lia).
  rewrite spans_from_S, Hlen.
  replace (Nat.leb 2500 (1600 + chunk_size cfg)) with true
    by (symmetry; apply Nat.leb_le; cbn; lia).
  reflexivity.
Qed.

End ChunkerFacts.


(** ** The scenarios, run *)

Module Scenarios.

Import Sample.

(** C1: the scenario's events are assembled, and the session does not get
    the message. After token("The"), token(" GDPR"), sources([doc A]) and
    done(msg_1) the hook holds the text "The GDPR" and one source, and the
    loop holds msg_1. At the end of the stream the update of the session
    tests the text of the callback's own render, which is empty: the call
    ends with the cache as it was, session s1 still without messages. *)
Theorem scenario_is_assembled_but_not_stored :
  let reads := [fetch_fulfilled ok_response; read_value scenario] in
  let w1 := fst (send reads noon world0) in
  let w2 := fst (send (reads ++ [read_done]) noon world0) in
  Hook.streamingMessage (hook w1) = "The GDPR"
  /\ Hook.streamingSources (hook w1) = [docA]
  /\ snd (send reads noon world0)
     = awaiting (move (at_read EmptyString "msg_1") call1)
  /\ snd (send (reads ++ [read_done]) noon world0) = settled resolved
  /\ cache w2 = cache0
  /\ CHAT_SESSION (cache w2) !! "s1" = Some session_s1
  /\ ChatSession.messages session_s1 = [].
Proof. vm_compute. repeat split; reflexivity. Qed.

(** C4: an error event does not end the answer. In a stream with
    token("The"), error, token(" GDPR"), done(msg_2) the error line only
    goes to the console: no toast is shown, the token after it is
    appended to the text, the later done is recorded, and the call stays
    in flight until the stream ends. *)
Theorem error_event_does_not_end_the_stream :
  let reads := [fetch_fulfilled ok_response; read_value with_error] in
  let w1 := fst (send reads noon world0) in
  let w2 := fst (send (reads ++ [read_done]) noon world0) in
  Hook.streamingMessage (hook w1) = "The GDPR"
  /\ snd (send reads noon world0)
     = awaiting (move (at_read EmptyString "msg_2") call1)
  /\ toasts w1 = []
  /\ console w1
     = [["Failed to parse streaming data:"; line (error "model overloaded")]]
  /\ toasts w2 = []
  /\ snd (send (reads ++ [read_done]) noon world0) = settled resolved.
Proof. vm_compute. repeat split; reflexivity. Qed.

(** C3 as stated fails: with a stream in flight, a second send through
    the current callback tells its caller nothing. Its promise resolves
    and no toast is shown. *)
Lemma second_send_conflict_not_surfaced :
  let second :=
    sendStreamingMessage Json.JSON_parse (render (Some "s1") (hook world1))
      "And the AI Act?" options_s1 [] noon world1 in
  send script1 noon world0 = (world1, awaiting call1)
  /\ ~ surfaces_conflict world1 (fst second) (snd second).
Proof.
  split; [vm_compute; reflexivity|].
  intros [[e H]|H]; [vm_compute in H; discriminate|].
  apply H. vm_compute. reflexivity.
Qed.

(** C7: a successful send in a session that the cache holds in the
    session list only. The question is answered for session s9, and
    nothing is appended anywhere: s9 gets no cache entry, and its copy in
    the list has the messages it had, none, not these and the two of the
    turn. *)
Theorem listed_session_gets_no_message :
  let c' :=
    useSendMessage_onSuccess Cases.response_s9 request0 noon
      Cases.cache_listed in
  CHAT_SESSION Cases.cache_listed !! "s9" = None
  /\ CHAT_SESSION c' !! "s9" = None
  /\ (exists after,
        option_map ChatSessionsResponse.sessions (CHAT_SESSIONS c')
        = Some [after]
        /\ ChatSession.id after = "s9"
        /\ ChatSession.messages after = ChatSession.messages Cases.session_s9
        /\ ChatSession.messages after
           <> (ChatSession.messages Cases.session_s9
               ++ [userMessage_of (ChatRequest.message request0) noon;
                   ChatResponse.message Cases.response_s9])%list).
Proof.
  cbn zeta. split; [reflexivity|]. split; [vm_compute; reflexivity|].
  eexists. split; [vm_compute; reflexivity|].
  split; [reflexivity|]. split; [reflexivity|]. discriminate.
Qed.



End Scenarios.

(** ** The theorems at concrete inputs *)

(** Cancelling after the first token of the scenario. *)
Lemma cancel_adds_no_message_witness :
  sendStreamingMessage Json.JSON_parse Sample.callback0 Sample.question
    Sample.options_s1 Sample.script1 Sample.noon Sample.world0
  = (Sample.world1, awaiting Sample.call1)
  /\ exists w',
       cancel Json.JSON_parse Sample.call1 Sample.noon Sample.world1
       = (w', settled resolved)
       /\ cache w' = cache Sample.world0
       /\ Hook.streamingMessage (hook w') = EmptyString.
Proof.
  assert (H : sendStreamingMessage Json.JSON_parse Sample.callback0
                Sample.question Sample.options_s1 Sample.script1 Sample.noon
                Sample.world0
              = (Sample.world1, awaiting Sample.call1))
    by (vm_compute; reflexivity).
  split; [exact H|].
  destruct (cancel_adds_no_message Json.JSON_parse _ _ _ _ _ Sample.noon _ _ _ H)
    as (w' & H1 & H2 & _ & H3 & _).
  exists w'. auto.
Defined.

(** A second question while the first one streams. *)
Lemma second_send_is_dropped_witness :
  sendStreamingMessage Json.JSON_parse Sample.callback0 Sample.question
    Sample.options_s1 Sample.script1 Sample.noon Sample.world0
  = (Sample.world1, awaiting Sample.call1)
  /\ sendStreamingMessage Json.JSON_parse
       (render (Some "s1") (hook Sample.world1)) "And the AI Act?"
       Sample.options_s1 [fetch_fulfilled Sample.ok_response] Sample.noon
       Sample.world1
     = (Sample.world1, settled resolved).
Proof.
  assert (H : sendStreamingMessage Json.JSON_parse Sample.callback0
                Sample.question Sample.options_s1 Sample.script1 Sample.noon
                Sample.world0
              = (Sample.world1, awaiting Sample.call1))
    by (vm_compute; reflexivity).
  split; [exact H|].
  apply (second_send_is_dropped Json.JSON_parse _ _ _ _ _ _ _ _ H).
Defined.

(** The sources event of the scenario as the producer frames it, the
    lines of a stream of five events, what the consumer does with the
    frame, and a line that is no event. *)
Lemma events_are_framed_data_lines_witness :
  Json.JSON_parse
    (Cases.JSON_stringify (Event.payload (Event.sources [Sample.docA])))
  = Some (Event.payload (Event.sources [Sample.docA]))
  /\ Producer.frame Cases.JSON_stringify (Event.sources [Sample.docA])
     = Sample.line (Sample.sources [Sample.docA_json])
  /\ Lines.complete (Producer.stream Cases.JSON_stringify Cases.five_events)
     = map (Producer.frame Cases.JSON_stringify) Cases.five_events
  /\ assembled
       (handle_line Json.JSON_parse Sample.loop0
          (Producer.frame Cases.JSON_stringify
             (Event.sources [Sample.docA])))
     = (EmptyString, [Sample.docA], EmptyString)
  /\ handle_line Json.JSON_parse Sample.loop0 "event: ping" = Sample.loop0.
Proof.
  destruct (events_are_framed_data_lines Json.JSON_parse
              Cases.JSON_stringify Sample.loop0)
    as (Hframe & Hstream & Hevent & Hother & _).
  assert (H1 : Json.JSON_parse
                 (Cases.JSON_stringify
                    (Event.payload (Event.sources [Sample.docA])))
               = Some (Event.payload (Event.sources [Sample.docA])))
    by (vm_compute; reflexivity).
  destruct (Hframe _ H1) as (_ & _ & _ & Hf).
  split; [exact H1|]. split; [vm_compute; reflexivity|].
  assert (H2 : Forall
                 (fun e => JS.split (Cases.JSON_stringify (Event.payload e))
                           = [Cases.JSON_stringify (Event.payload e)])
                 Cases.five_events).
  { unfold Cases.five_events, Cases.scenario_events. cbn [app].
    repeat (constructor; [vm_compute; reflexivity|]). constructor. }
  split; [apply (proj1 (Hstream _ H2))|].
  split; [apply (proj1 (Hevent _ _ Hf)) | apply Hother; reflexivity].
Defined.

(** The scenario's stream, cut in the middle of its lines. *)
Lemma chunk_boundaries_do_not_matter_witness :
  JS.concat Sample.scenario_chunks
  = Sample.scenario_text ++ String JS.LF EmptyString
  /\ consume Json.JSON_parse Sample.scenario_chunks Sample.loop0
     = fold_left (handle_line Json.JSON_parse)
         (JS.split Sample.scenario_text) Sample.loop0
  /\ sendStreamingMessage Json.JSON_parse Sample.callback0 Sample.question
       Sample.options_s1
       (fetch_fulfilled Sample.ok_response
        :: map read_value Sample.scenario_chunks ++ [read_done])
       Sample.noon Sample.world0
     = sendStreamingMessage Json.JSON_parse Sample.callback0 Sample.question
         Sample.options_s1
         [fetch_fulfilled Sample.ok_response;
          read_value (JS.concat Sample.scenario_chunks); read_done]
         Sample.noon Sample.world0.
Proof.
  assert (H : JS.concat Sample.scenario_chunks
              = Sample.scenario_text ++ String JS.LF EmptyString)
    by (vm_compute; reflexivity).
  split; [exact H|].
  destruct (chunk_boundaries_do_not_matter Json.JSON_parse _ _ H) as [H1 H2].
  split; [apply H2; reflexivity | apply H1].
Defined.


(** The first turn of session s1 through the non-streaming send. *)
Lemma send_appends_user_then_assistant_witness :
  CHAT_SESSION Sample.cache0 !! ChatResponse.session_id Sample.response0
  = Some Sample.session_s1
  /\ exists new userMessage,
       CHAT_SESSION
         (useSendMessage_onSuccess Sample.response0 Sample.request0
            Sample.noon Sample.cache0)
       !! "s1" = Some new
       /\ ChatSession.messages new
          = [userMessage; ChatResponse.message Sample.response0]
       /\ Message.content userMessage = Sample.question.
Proof.
  assert (H : CHAT_SESSION Sample.cache0
              !! ChatResponse.session_id Sample.response0
              = Some Sample.session_s1) by (vm_compute; reflexivity).
  split; [exact H|].
  destruct (send_appends_user_then_assistant Sample.response0 Sample.request0
              Sample.noon Sample.cache0 Sample.session_s1 H)
    as (new & um & H1 & H2 & _ & H3 & _).
  exists new, um. auto.
Defined.


Lemma filler_has_no_line_end (n p : nat) :
  Cases.line_end (Sample.filler n) p = false.
Proof.
  destruct p as [|q]; [reflexivity|]. cbn [Cases.line_end].
  revert q. induction n as [|n IH]; intros q; [reflexivity|].
  destruct q as [|q]; [reflexivity|]. apply IH.
Qed.


(** * Further properties *)

(** ** The cached session list *)

Lemma filter_out_absent (id : string) (l : list ChatSession.t) :
  length (List.filter (fun s => String.eqb (ChatSession.id s) id) l) = 0 ->
  List.filter (fun s => negb (String.eqb (ChatSession.id s) id)) l = l.
Proof.
  induction l as [|x l IH]; [reflexivity|]. cbn.
  destruct (String.eqb (ChatSession.id x) id); cbn; [discriminate|].
  intros H. f_equal. apply IH, H.
Qed.

Lemma filter_lengths (id : string) (l : list ChatSession.t) :
  length (List.filter (fun s => negb (String.eqb (ChatSession.id s) id)) l)
  + length (List.filter (fun s => String.eqb (ChatSession.id s) id) l)
  = length l.
Proof.
  induction l as [|x l IH]; [reflexivity|]. cbn.
  destruct (String.eqb (ChatSession.id x) id); cbn; lia.
Qed.

Lemma ChatSessionsResponse_eta (l : ChatSessionsResponse.t) (n : Z) :
  n = ChatSessionsResponse.total l ->
  {| ChatSessionsResponse.sessions := ChatSessionsResponse.sessions l;
     ChatSessionsResponse.total := n |} = l.
Proof. intros ->. destruct l; reflexivity. Qed.

(** X1: a chat that is created and then deleted leaves the cached list as it
    was, sessions and count, when no listed session had its identifier
    and the count is a safe integer, so that one more and one less is
    exact; what stays is the two toasts, "New chat created" and then
    "Chat deleted". *)
Theorem create_then_delete_restores_the_list (newSession : ChatSession.t)
    (w : World) (l : ChatSessionsResponse.t) :
  CHAT_SESSIONS (cache w) = Some l ->
  occurrences (ChatSession.id newSession) l = 0 ->
  JS.isSafeInteger (ChatSessionsResponse.total l) = true ->
  let w' :=
    useDeleteChatSession_onSuccess (ChatSession.id newSession)
      (useCreateChatSession_onSuccess newSession w) in
  CHAT_SESSIONS (cache w') = Some l
  /\ CHAT_SESSION (cache w')
     = delete (ChatSession.id newSession) (CHAT_SESSION (cache w))
  /\ hook w' = hook w
  /\ toasts w'
     = (toasts w
        ++ [{| Toast.title := "New chat created";
               Toast.description := "Your new chat session is ready.";
               Toast.variant := None |};
            {| Toast.title := "Chat deleted";
               Toast.description := "Chat session has been deleted.";
               Toast.variant := None |}])%list
  /\ console w' = console w
  /\ fetches w' = fetches w.
Proof.
  intros Hl Ho _ w'. subst w'.
  unfold useDeleteChatSession_onSuccess, useCreateChatSession_onSuccess,
    setQueryData_CHAT_SESSIONS, removeQueries_CHAT_SESSION.
  cbn. rewrite Hl. cbn. rewrite String.eqb_refl. cbn.
  unfold occurrences in Ho. rewrite (filter_out_absent _ _ Ho).
  split; [|split; [reflexivity|split; [reflexivity|]]].
  - f_equal. apply ChatSessionsResponse_eta. lia.
  - rewrite <- app_assoc. repeat split; reflexivity.
Qed.

(** X2: after a rename the session's own cache entry is the updated session, and
    so is every entry of the list that carries its identifier: the two
    views agree. The list keeps its identifiers, their order and its count,
    no list is made where none was cached, and no toast is shown. *)
Theorem rename_reaches_both_views (updatedSession : ChatSession.t)
    (w : World) :
  let w' := useUpdateChatSession_onSuccess updatedSession w in
  CHAT_SESSION (cache w') !! ChatSession.id updatedSession
  = Some updatedSession
  /\ (forall other, other <> ChatSession.id updatedSession ->
        CHAT_SESSION (cache w') !! other = CHAT_SESSION (cache w) !! other)
  /\ (forall l, CHAT_SESSIONS (cache w) = Some l ->
        exists l',
          CHAT_SESSIONS (cache w') = Some l'
          /\ map ChatSession.id (ChatSessionsResponse.sessions l')
             = map ChatSession.id (ChatSessionsResponse.sessions l)
          /\ ChatSessionsResponse.total l' = ChatSessionsResponse.total l
          /\ (forall s, s ∈ ChatSessionsResponse.sessions l' ->
                ChatSession.id s = ChatSession.id updatedSession ->
                s = updatedSession)
          /\ (forall s, s ∈ ChatSessionsResponse.sessions l ->
                ChatSession.id s <> ChatSession.id updatedSession ->
                s ∈ ChatSessionsResponse.sessions l'))
  /\ (CHAT_SESSIONS (cache w) = None -> CHAT_SESSIONS (cache w') = None)
  /\ toasts w' = toasts w.
Proof.
  intros w'. subst w'.
  unfold useUpdateChatSession_onSuccess, setQueryData_CHAT_SESSIONS,
    setQueryData_CHAT_SESSION.
  cbn. split; [|split; [|split; [|split]]].
  - destruct (replace_session _ _); cbn; apply lookup_insert_eq.
  - intros other Hne.
    destruct (replace_session _ _); cbn; apply lookup_insert_ne; congruence.
  - intros l Hl. rewrite Hl. cbn. eexists. split; [reflexivity|]. cbn.
    split; [|split; [reflexivity|split]].
    + rewrite map_map. apply map_ext_in. intros s _.
      destruct (String.eqb_spec (ChatSession.id s)
                  (ChatSession.id updatedSession)); congruence.
    + intros s Hin Hid. apply list_elem_of_fmap in Hin as (s0 & -> & _).
      destruct (String.eqb_spec (ChatSession.id s0)
                  (ChatSession.id updatedSession)); [reflexivity|contradiction].
    + intros s Hin Hid. apply list_elem_of_fmap. exists s.
      split; [|exact Hin].
      destruct (String.eqb_spec (ChatSession.id s)
                  (ChatSession.id updatedSession)); [contradiction|reflexivity].
  - intros Hn. rewrite Hn. reflexivity.
  - destruct (CHAT_SESSIONS (cache w)); reflexivity.
Qed.

(** X3: after a delete the session has no cache entry and no entry in the list;
    every other session keeps its cache entry and its place in the list
    relative to the others. *)
Theorem deleted_session_is_gone (deletedId : string) (w : World) :
  let w' := useDeleteChatSession_onSuccess deletedId w in
  CHAT_SESSION (cache w') !! deletedId = None
  /\ (forall other, other <> deletedId ->
        CHAT_SESSION (cache w') !! other = CHAT_SESSION (cache w) !! other)
  /\ (forall l, CHAT_SESSIONS (cache w) = Some l ->
        exists l',
          CHAT_SESSIONS (cache w') = Some l'
          /\ occurrences deletedId l' = 0
          /\ (forall s, s ∈ ChatSessionsResponse.sessions l' <->
                s ∈ ChatSessionsResponse.sessions l
                /\ ChatSession.id s <> deletedId)
          /\ ChatSessionsResponse.sessions l'
             `sublist_of` ChatSessionsResponse.sessions l).
Proof.
  intros w'. subst w'.
  unfold useDeleteChatSession_onSuccess, setQueryData_CHAT_SESSIONS,
    removeQueries_CHAT_SESSION.
  cbn. split; [|split].
  - destruct (remove_session _ _); cbn; apply lookup_delete_eq.
  - intros other Hne.
    destruct (remove_session _ _); cbn; apply lookup_delete_ne; congruence.
  - intros l Hl. rewrite Hl. cbn. eexists. split; [reflexivity|].
    unfold occurrences. cbn. split; [|split].
    + induction (ChatSessionsResponse.sessions l) as [|x xs IH];
        [reflexivity|].
      cbn. destruct (String.eqb (ChatSession.id x) deletedId) eqn:E; cbn;
        [exact IH|]. rewrite E. exact IH.
    + intros s. rewrite list_elem_of_In, filter_In, <- list_elem_of_In.
      rewrite negb_true_iff, String.eqb_neq. reflexivity.
    + induction (ChatSessionsResponse.sessions l) as [|x xs IH];
        [constructor|].
      cbn. destruct (negb _); [apply sublist_skip|apply sublist_cons]; exact IH.
Qed.

(** X4: the count of the list stays right under create and rename. Under
    delete it stays right exactly when one listed session has the deleted
    identifier: for an identifier that is not listed the sessions stay
    and the count still drops by one. *)
Theorem list_count_under_mutations (l : ChatSessionsResponse.t) :
  counted l ->
  (forall newSession l',
      add_session newSession (Some l) = Some l' -> counted l')
  /\ (forall updatedSession l',
        replace_session updatedSession (Some l) = Some l' -> counted l')
  /\ (forall deletedId l',
        remove_session deletedId (Some l) = Some l' ->
        (counted l' <-> occurrences deletedId l = 1)
        /\ (occurrences deletedId l = 0 ->
            ChatSessionsResponse.sessions l' = ChatSessionsResponse.sessions l
            /\ ChatSessionsResponse.total l'
               = (ChatSessionsResponse.total l - 1)%Z)).
Proof.
  unfold counted. intros H. split; [|split].
  - intros n l' [= <-]. cbn. lia.
  - intros u l' [= <-]. cbn. rewrite length_map. exact H.
  - intros i l' [= <-]. cbn. unfold occurrences.
    pose proof (filter_lengths i (ChatSessionsResponse.sessions l)) as Hf.
    split; [split; lia|].
    intros H0. split; [apply filter_out_absent, H0 | reflexivity].
Qed.

(** X5: a non-streaming answer for a session that is not in the cache is stored
    nowhere: no session entry is made or changed and no copy in the list
    gets the messages, while the list entries of that session are stamped
    as updated. *)
Theorem send_to_uncached_session_stores_no_message
    (response : ChatResponse.t) (request : ChatRequest.t) (d : Date)
    (c : QueryCache) :
  CHAT_SESSION c !! ChatResponse.session_id response = None ->
  let c' := useSendMessage_onSuccess response request d c in
  CHAT_SESSION c' = CHAT_SESSION c
  /\ (forall l, CHAT_SESSIONS c = Some l ->
        exists l',
          CHAT_SESSIONS c' = Some l'
          /\ map ChatSession.messages (ChatSessionsResponse.sessions l')
             = map ChatSession.messages (ChatSessionsResponse.sessions l)
          /\ (forall s, s ∈ ChatSessionsResponse.sessions l' ->
                ChatSession.id s = ChatResponse.session_id response ->
                ChatSession.updated_at s = toISOString d)).
Proof.
  intros H c'. subst c'. unfold useSendMessage_onSuccess.
  rewrite setQueryData_CHAT_SESSIONS_sessions.
  unfold setQueryData_CHAT_SESSION at 1 2. rewrite H. cbn [append_turn].
  split; [reflexivity|]. intros l Hl.
  unfold setQueryData_CHAT_SESSIONS. rewrite Hl. cbn.
  eexists. split; [reflexivity|]. cbn. split.
  - rewrite map_map. apply map_ext. intros s. apply touch_messages.
  - intros s Hin Hid. apply list_elem_of_fmap in Hin as (s0 & -> & _).
    unfold touch in *.
    destruct (String.eqb_spec (ChatSession.id s0)
                (ChatResponse.session_id response)); [reflexivity|].
    contradiction.
Qed.

(** ** More on the streaming call *)

Section StreamingCall.

Variable JSON_parse : string -> option StreamingChatResponse.t.

Lemma handle_framed_event (s : Loop) (line : string) (e : Event.t) :
  Events.framed JSON_parse line e ->
  handle_line JSON_parse s line = Event.effect line e s.
Proof.
  intros (payload & -> & H). unfold handle_line, parse_and_dispatch.
  change (JS.startsWith "data: " ("data: " ++ payload)) with true.
  change (JS.slice 6 ("data: " ++ payload)) with payload.
  rewrite H. destruct e as [c|l|i|r]; cbn; try reflexivity.
  - destruct c; reflexivity.
  - destruct (JS.truthy i); reflexivity.
Qed.

(** X6: the answer text is the text before with the contents of the token
    events appended in the order of arrival; the sources are those of the
    last sources event, the earlier ones being replaced; the message
    identifier is that of the last done event that carries one. Error
    events add nothing to any of the three. *)
Theorem stream_of_events_assembles (lines : list string)
    (es : list Event.t) (s : Loop) :
  Forall2 (Events.framed JSON_parse) lines es ->
  assembled (fold_left (handle_line JSON_parse) lines s)
  = (Hook.streamingMessage (hook (world s)) ++ Events.text es,
     Events.sources (Hook.streamingSources (hook (world s))) es,
     Events.message_id (currentMessageId s) es).
Proof.
  intros H. revert s. induction H as [|line e lines es Hf _ IH]; intros s.
  - unfold assembled. cbn. now rewrite LinesFacts.append_empty_r.
  - cbn [fold_left]. rewrite IH, (handle_framed_event s line e Hf).
    destruct e as [c|l|i|r]; cbn; try reflexivity.
    + now rewrite LinesFacts.append_assoc.
    + destruct (JS.truthy i); reflexivity.
Qed.

(** X7: what follows the last line feed of the stream is never handled: a
    stream that goes on after its last line feed with a piece that has no
    line feed does what the stream cut at that line feed does, however it
    is chunked. An event on an unterminated last line is lost. *)
Theorem text_after_the_last_line_feed_is_dropped (values : list string)
    (text tail : string) (cl : Closure.t) (message : string)
    (options : Options.t) (r : Response.t) (d : Date) (w : World) :
  JS.split tail = [tail] ->
  JS.concat values = (text ++ String JS.LF EmptyString) ++ tail ->
  sendStreamingMessage JSON_parse cl message options
    (fetch_fulfilled r :: map read_value values ++ [read_done]) d w
  = sendStreamingMessage JSON_parse cl message options
      [fetch_fulfilled r; read_value (text ++ String JS.LF EmptyString);
       read_done] d w.
Proof.
  intros Htail Hcat. unfold sendStreamingMessage.
  destruct (start cl message options w) as [w1 [c1|r1]] eqn:Es;
    [|now rewrite !run_settled].
  cbn [run].
  destruct (resume JSON_parse c1 (fetch_fulfilled r) d w1)
    as [w2 [c2|r2]] eqn:Er; [|now rewrite !run_settled].
  assert (Hc : point c2 = at_read EmptyString EmptyString)
    by (eapply resume_fetch_point; [eapply start_point, Es | exact Er]).
  rewrite run_app, (run_values JSON_parse values d w2 c2 _ _ Hc).
  rewrite (resume_read_value JSON_parse c2 _ _ _ d w2 Hc).
  rewrite consume_concat by reflexivity. rewrite Hcat.
  rewrite <- on_value_app. rewrite !on_value_lines.
  cbn [buffer set_buffer].
  change (EmptyString ++ (text ++ String JS.LF EmptyString))
    with (text ++ String JS.LF EmptyString).
  rewrite LinesFacts.kept_LF.
  change (EmptyString ++ tail) with tail.
  assert (Hct : Lines.complete tail = [])
    by (unfold Lines.complete; rewrite Htail; reflexivity).
  rewrite Hct. cbn [fold_left set_buffer currentMessageId world run].
  unfold resume. cbn [point move]. reflexivity.
Qed.

Lemma consume_quiet (values : list string) (s : Loop) :
  quiet (world s) (world (consume JSON_parse values s)).
Proof.
  revert s. induction values as [|v values IH]; intros s; [apply quiet_refl|].
  cbn [consume fold_left]. eapply quiet_trans;
    [apply on_value_quiet | apply IH].
Qed.

Lemma catch_block_effects (e : Error.t) (w : World) :
  fetches (catch_block e w) = fetches w
  /\ cache (catch_block e w) = cache w
  /\ (toasts (catch_block e w) = toasts w
      \/ exists t, toasts (catch_block e w) = (toasts w ++ [t])%list
                   /\ is_failure_toast t).
Proof.
  unfold catch_block. destruct (String.eqb _ _); cbn; [auto|].
  split; [reflexivity|]. split; [reflexivity|]. right. eexists.
  split; [reflexivity|]. split; reflexivity.
Qed.

Lemma resume_effects (c : Call) (a : Awaited) (d : Date) (w : World) :
  fetches (fst (resume JSON_parse c a d w)) = fetches w
  /\ (toasts (fst (resume JSON_parse c a d w)) = toasts w
      \/ exists t,
           toasts (fst (resume JSON_parse c a d w)) = (toasts w ++ [t])%list
           /\ is_failure_toast t
           /\ snd (resume JSON_parse c a d w) = settled resolved).
Proof.
  unfold resume, thrown.
  destruct a as [r|value| |e], (point c) as [|b i]; cbn [fst snd];
    try (split; [reflexivity | left; reflexivity]).
  - destruct (negb (Response.ok r)); cbn [fst snd];
      [|destruct (negb (Response.has_body r)); cbn [fst snd]].
    + split; [reflexivity|]. right. eexists.
      split; [reflexivity|]. split; [split; reflexivity|reflexivity].
    + split; [reflexivity|]. right. eexists.
      split; [reflexivity|]. split; [split; reflexivity|reflexivity].
    + split; [reflexivity | left; reflexivity].
  - destruct (on_value_quiet JSON_parse value
                {| world := w; buffer := b; currentMessageId := i |})
      as (_ & Ht & Hf & _).
    split; [exact Hf | left; exact Ht].
  - unfold persist. destruct (finalSessionId c) as [sid|];
      [|split; [reflexivity | left; reflexivity]].
    destruct (_ && _); split; try reflexivity; left; reflexivity.
  - destruct (catch_block_effects e w) as (Hf & _ & [Ht|(t & Ht & Hi)]).
    + split; [exact Hf | left; exact Ht].
    + split; [exact Hf|]. right. exists t. auto.
  - destruct (catch_block_effects e w) as (Hf & _ & [Ht|(t & Ht & Hi)]).
    + split; [exact Hf | left; exact Ht].
    + split; [exact Hf|]. right. exists t. auto.
Qed.

Lemma run_effects (script : list Awaited) (d : Date) (w : World)
    (p : Progress) :
  fetches (fst (run JSON_parse script d w p)) = fetches w
  /\ (toasts (fst (run JSON_parse script d w p)) = toasts w
      \/ exists t,
           toasts (fst (run JSON_parse script d w p)) = (toasts w ++ [t])%list
           /\ is_failure_toast t).
Proof.
  revert w p. induction script as [|a script IH]; intros w p;
    [split; [reflexivity | left; reflexivity]|].
  destruct p as [c|r]; [|split; [reflexivity | left; reflexivity]].
  cbn [run]. destruct (resume_effects c a d w) as (Hf & Ht).
  destruct (resume JSON_parse c a d w) as [w1 p1]. cbn [fst snd] in Hf, Ht.
  destruct Ht as [Ht|(t & Ht & Hi & ->)].
  - destruct (IH w1 p1) as (Hf1 & Ht1). rewrite Hf1, Hf, <- Ht.
    split; [reflexivity | exact Ht1].
  - rewrite run_settled. cbn [fst]. split; [exact Hf|]. right. eauto.
Qed.

Lemma resume_settled_resolved (c : Call) (a : Awaited) (d : Date)
    (w w' : World) (r : Settled) :
  resume JSON_parse c a d w = (w', settled r) -> r = resolved.
Proof.
  unfold resume, thrown.
  destruct a as [x|value| |e], (point c) as [|b i]; try discriminate;
    try (intros [= _ <-]; reflexivity).
  destruct (negb (Response.ok x)); [intros [= _ <-]; reflexivity|].
  destruct (negb (Response.has_body x)); [intros [= _ <-]; reflexivity|].
  discriminate.
Qed.

Lemma run_settled_resolved (script : list Awaited) (d : Date)
    (w w' : World) (c : Call) (r : Settled) :
  run JSON_parse script d w (awaiting c) = (w', settled r) -> r = resolved.
Proof.
  revert w c. induction script as [|a script IH]; intros w c; [discriminate|].
  cbn [run]. destruct (resume JSON_parse c a d w) as [w1 [c1|r1]] eqn:E.
  - apply IH.
  - rewrite run_settled. intros [= _ <-]. eapply resume_settled_resolved, E.
Qed.

(** X8: a call hands exactly one request to [fetch] if it starts, however it
    goes on, and none if it is dropped. The request carries the message,
    the session of the options or else of the hook, and, where the options
    say nothing, sources included and at most 5 of them. *)
Theorem one_request_per_started_call (cl : Closure.t) (message : string)
    (options : Options.t) (script : list Awaited) (d : Date) (w : World) :
  fetches (fst (sendStreamingMessage JSON_parse cl message options script d w))
  = if Closure.isStreaming cl then fetches w
    else (fetches w ++ [request_of cl message options])%list.
Proof.
  unfold sendStreamingMessage, start.
  destruct (Closure.isStreaming cl).
  - rewrite run_settled. reflexivity.
  - match goal with
    | |- context [run JSON_parse script d ?w1 ?p] =>
        rewrite (proj1 (run_effects script d w1 p))
    end.
    reflexivity.
Qed.

(** X9: a call shows at most one toast, the destructive "Streaming failed"; a
    stream that is read to its end after a good response shows none, and
    its call ends. *)
Theorem a_call_shows_at_most_one_toast (cl : Closure.t) (message : string)
    (options : Options.t) (d : Date) (w : World) :
  (forall script,
      let w' :=
        fst (sendStreamingMessage JSON_parse cl message options script d w) in
      toasts w' = toasts w
      \/ exists t, toasts w' = (toasts w ++ [t])%list /\ is_failure_toast t)
  /\ (forall r values,
        Closure.isStreaming cl = false ->
        Response.ok r = true -> Response.has_body r = true ->
        exists w',
          sendStreamingMessage JSON_parse cl message options
            (fetch_fulfilled r :: map read_value values ++ [read_done]) d w
          = (w', settled resolved)
          /\ toasts w' = toasts w).
Proof.
  split.
  - intros script w'. subst w'. unfold sendStreamingMessage, start.
    destruct (Closure.isStreaming cl); [rewrite run_settled; left; reflexivity|].
    match goal with
    | |- context [run JSON_parse script d ?w1 ?p] =>
        destruct (proj2 (run_effects script d w1 p)) as [H|(t & H & Hi)]
    end.
    + left. rewrite H. reflexivity.
    + right. exists t. split; [rewrite H; reflexivity | exact Hi].
  - intros r values Hs Hok Hb. unfold sendStreamingMessage, start.
    rewrite Hs. cbn [run]. unfold resume at 1. cbn [point].
    rewrite Hok, Hb. cbn [negb]. rewrite run_app.
    erewrite run_values by reflexivity. cbn zeta. cbn [run].
    unfold resume. cbn [point move]. eexists. split; [reflexivity|].
    match goal with
    | |- context [consume JSON_parse values ?s0] =>
        destruct (consume_quiet values s0) as (_ & Ht & _)
    end.
    unfold persist, finally_block.
    destruct (finalSessionId _) as [sid|]; [destruct (_ && _)|]; cbn;
      rewrite Ht; reflexivity.
Qed.

(** X10: a response that is not ok, or that has no body, ends the call before
    anything is read: one "Streaming failed" toast names the HTTP status or
    the missing body, the hook is as after mounting, cache and console are
    untouched, and whatever the connection would still deliver is not
    awaited. *)
Theorem bad_response_ends_the_call (cl : Closure.t) (message : string)
    (options : Options.t) (r : Response.t) (script : list Awaited)
    (d : Date) (w : World) :
  Closure.isStreaming cl = false ->
  Response.ok r = false \/ Response.has_body r = false ->
  exists w' t,
    sendStreamingMessage JSON_parse cl message options
      (fetch_fulfilled r :: script) d w
    = (w', settled resolved)
    /\ toasts w' = (toasts w ++ [t])%list
    /\ is_failure_toast t
    /\ Toast.description t
       = (if Response.ok r then "No response body"
          else "HTTP error! status: " ++ pretty (Response.status r))
    /\ cache w' = cache w
    /\ console w' = console w
    /\ hook w' = Hook.initial.
Proof.
  intros Hs Hr. unfold sendStreamingMessage, start. rewrite Hs.
  cbn [run]. unfold resume at 1. cbn [point].
  destruct (Response.ok r) eqn:Hok; cbn [negb].
  - destruct Hr as [Hr|Hr]; [discriminate|]. rewrite Hr. cbn [negb].
    unfold thrown. rewrite run_settled.
    eexists _, _. split; [reflexivity|]. cbn.
    repeat split; reflexivity.
  - unfold thrown. rewrite run_settled.
    eexists _, _. split; [reflexivity|]. cbn.
    repeat split; reflexivity.
Qed.

(** X11: a call that has ended has resolved, never rejected, and has left the
    hook as after mounting; a send through the callback of the next render
    is therefore not dropped: it starts, with one more request, and its
    callback has captured an empty answer text. *)
Theorem after_a_call_has_ended_the_next_one_starts (cl : Closure.t)
    (message : string) (options : Options.t) (script : list Awaited)
    (d : Date) (w w' : World) (r : Settled) :
  Closure.isStreaming cl = false ->
  sendStreamingMessage JSON_parse cl message options script d w
  = (w', settled r) ->
  r = resolved
  /\ hook w' = Hook.initial
  /\ forall sessionId message' options',
       exists w'' c,
         start (render sessionId (hook w')) message' options' w'
         = (w'', awaiting c)
         /\ point c = at_fetch
         /\ Closure.streamingMessage (closure c) = EmptyString
         /\ fetches w''
            = (fetches w'
               ++ [request_of (render sessionId (hook w')) message' options'])%list.
Proof.
  intros Hs H.
  assert (Hh : hook w' = Hook.initial)
    by (eapply ended_call_resets_hook; eassumption).
  split; [|split; [exact Hh|]].
  - unfold sendStreamingMessage, start in H. rewrite Hs in H.
    eapply run_settled_resolved, H.
  - intros sessionId message' options'. unfold start, render. rewrite Hh.
    cbn. eexists _, _. split; [reflexivity|]. repeat split; reflexivity.
Qed.

(** X12: the guard tests the flag that the callback captured: while a call
    streams, a send through the same callback as that call is not dropped.
    It starts a second request, and its start wipes the answer text and the
    sources that the running call has shown so far. *)
Theorem old_callback_restarts_over_a_running_stream (cl : Closure.t)
    (message : string) (options : Options.t) (script : list Awaited)
    (d : Date) (w0 w : World) (c : Call) (message' : string)
    (options' : Options.t) :
  sendStreamingMessage JSON_parse cl message options script d w0
  = (w, awaiting c) ->
  exists w' c',
    start cl message' options' w = (w', awaiting c')
    /\ fetches w' = (fetches w ++ [request_of cl message' options'])%list
    /\ Hook.streamingMessage (hook w') = EmptyString
    /\ Hook.streamingSources (hook w') = []
    /\ cache w' = cache w.
Proof.
  intros H. apply send_in_flight in H. destruct H as (Hs & _).
  unfold start. rewrite Hs. eexists _, _. split; [reflexivity|].
  repeat split; reflexivity.
Qed.

End StreamingCall.

(** ** The dashboard's counters *)

Lemma count_documents_from (docs : list Document.t) (acc : Stats.t) :
  let st := fold_left count_document docs acc in
  Stats.totalDocuments st
  = (Stats.totalDocuments acc + Z.of_nat (length docs))%Z
  /\ Stats.processedDocuments st
     = (Stats.processedDocuments acc + in_status completed docs)%Z
  /\ Stats.processingDocuments st
     = (Stats.processingDocuments acc + in_status pending docs
        + in_status processing docs)%Z
  /\ Stats.failedDocuments st
     = (Stats.failedDocuments acc + in_status failed docs)%Z
  /\ Stats.totalSize st
     = (Stats.totalSize acc
        + foldr (fun doc sum => Document.file_size doc + sum) 0 docs)%Z.
Proof.
  revert acc. induction docs as [|doc docs IH]; intros acc.
  - cbn. unfold in_status. cbn. repeat split; lia.
  - cbn [fold_left]. destruct (IH (count_document acc doc))
      as (H1 & H2 & H3 & H4 & H5).
    cbn zeta. rewrite H1, H2, H3, H4, H5. clear.
    unfold in_status, count_document. cbn [List.filter foldr length].
    destruct (Document.processing_status doc); cbn; repeat split; lia.
Qed.

(** X13: the counters of the dashboard add up: every document of the page that
    was fetched is counted once, as processed if completed, as processing
    if pending or processing, as failed if failed, so that the three make
    the total. The total is the number of documents fetched, not the
    [total] that the server reports. The size is the sum of the file
    sizes, for sizes that are not negative and whose sum is a safe
    integer: every sum on the way is then one too, and exact. *)
Theorem dashboard_counters_add_up (data : DocumentSearchResponse.t) :
  let docs := DocumentSearchResponse.documents data in
  let st := stats (Some data) in
  let sizes :=
    foldr (fun doc sum => (Document.file_size doc + sum)%Z) 0%Z docs in
  Stats.totalDocuments st = Z.of_nat (length docs)
  /\ Stats.processedDocuments st = in_status completed docs
  /\ Stats.processingDocuments st
     = (in_status pending docs + in_status processing docs)%Z
  /\ Stats.failedDocuments st = in_status failed docs
  /\ Stats.totalDocuments st
     = (Stats.processedDocuments st + Stats.processingDocuments st
        + Stats.failedDocuments st)%Z
  /\ (Forall (fun doc => (0 <= Document.file_size doc)%Z) docs ->
      JS.isSafeInteger sizes = true ->
      Stats.totalSize st = sizes).
Proof.
  intros docs st sizes. subst st sizes. unfold stats. fold docs.
  destruct (count_documents_from docs Stats.zero) as (H1 & H2 & H3 & H4 & H5).
  cbn zeta in *. cbn [Stats.zero Stats.totalDocuments Stats.processedDocuments
    Stats.processingDocuments Stats.failedDocuments Stats.totalSize] in *.
  rewrite H1, H2, H3, H4, H5.
  assert (Hsum : (Z.of_nat (length docs)
                  = in_status completed docs + in_status pending docs
                    + in_status processing docs + in_status failed docs)%Z).
  { clear. unfold in_status. induction docs as [|doc docs IH]; [reflexivity|].
    cbn [List.filter length].
    destruct (Document.processing_status doc); cbn; lia. }
  repeat split; lia.
Qed.

(** ** Paging through the documents *)

Lemma offsets_from_one_based (api_get : Z -> DocumentSearchResponse.t)
    (pages : nat) :
  (forall offset,
      DocumentSearchResponse.page (api_get offset) = (offset / 20 + 1)%Z
      /\ DocumentSearchResponse.total_pages (api_get offset)
         = Z.of_nat pages) ->
  forall loads n,
    n < pages ->
    offsets_asked api_get loads (20 * Z.of_nat n)
    = map (fun i => (20 * Z.of_nat i)%Z) (seq n (min loads (pages - n))).
Proof.
  intros Hsrv. induction loads as [|loads IH]; intros n Hn; [reflexivity|].
  cbn [offsets_asked]. unfold getNextPageParam.
  destruct (Hsrv (20 * Z.of_nat n)%Z) as [Hp Ht]. rewrite Hp, Ht.
  replace (20 * Z.of_nat n / 20 + 1)%Z with (Z.of_nat (S n))
    by (rewrite Z.mul_comm, Z.div_mul by lia; lia).
  destruct (Z.ltb_spec (Z.of_nat (S n)) (Z.of_nat pages)) as [Hlt|Hge].
  - replace (Z.of_nat (S n) * 20)%Z with (20 * Z.of_nat (S n))%Z by lia.
    rewrite IH by lia.
    replace (min (S loads) (pages - n)) with (S (min loads (pages - S n)))
      by lia.
    reflexivity.
  - replace (min (S loads) (pages - n)) with 1 by lia. reflexivity.
Qed.

Lemma offsets_from_zero_based (api_get : Z -> DocumentSearchResponse.t)
    (pages : nat) :
  0 < pages ->
  DocumentSearchResponse.page (api_get 0%Z) = 0%Z ->
  DocumentSearchResponse.total_pages (api_get 0%Z) = Z.of_nat pages ->
  forall loads, offsets_asked api_get loads 0 = repeat 0%Z loads.
Proof.
  intros Hp H0 Ht. induction loads as [|loads IH]; [reflexivity|].
  cbn [offsets_asked repeat]. unfold getNextPageParam. rewrite H0, Ht.
  destruct (Z.ltb_spec 0 (Z.of_nat pages)); [|lia].
  change (0 * 20)%Z with 0%Z. rewrite IH. reflexivity.
Qed.

(** X14: scrolling walks the pages only if the server counts pages from one.
    With a server that answers offset [o] as page [o / 20 + 1] of [pages],
    the offsets asked are 0, 20, 40 and so on, each once, and after the
    last page nothing more is asked however often the list is scrolled.
    With a server that answers the first page as page 0, every scroll asks
    for offset 0 again. *)
Theorem scrolling_walks_pages_counted_from_one
    (api_get : Z -> DocumentSearchResponse.t) (pages loads : nat) :
  0 < pages ->
  ((forall offset,
       DocumentSearchResponse.page (api_get offset) = (offset / 20 + 1)%Z
       /\ DocumentSearchResponse.total_pages (api_get offset)
          = Z.of_nat pages) ->
   useInfiniteDocuments api_get loads
   = map (fun i => (20 * Z.of_nat i)%Z) (seq 0 (min loads pages)))
  /\ (DocumentSearchResponse.page (api_get 0%Z) = 0%Z ->
      DocumentSearchResponse.total_pages (api_get 0%Z) = Z.of_nat pages ->
      useInfiniteDocuments api_get loads = repeat 0%Z loads).
Proof.
  intros Hp. split.
  - intros Hsrv. unfold useInfiniteDocuments.
    change 0%Z with (20 * Z.of_nat 0)%Z at 1.
    rewrite (offsets_from_one_based api_get pages Hsrv loads 0 Hp).
    rewrite Nat.sub_0_r. reflexivity.
  - intros H0 Ht. apply (offsets_from_zero_based api_get pages Hp H0 Ht).
Qed.

(** ** Uploading several documents *)

Section UploadProperties.

Variable stringify_tags : list string -> string.
Variable stringify_metadata : DocumentMetadata.t -> string.
Variable api_upload :
  nat -> File.t -> AdditionalData.t ->
  DocumentUploadResponse.t + option string.

Local Abbreviation call_of := (call_of stringify_tags stringify_metadata).
Local Abbreviation succeed_from :=
  (succeed_from stringify_tags stringify_metadata api_upload).

Lemma upload_each_successes (us rest : list DocumentUploadRequest.t)
    (results : list DocumentUploadResponse.t) (st : Uploads.t) :
  succeed_from (length (Uploads.calls st)) us ->
  exists responses st',
    upload_each stringify_tags stringify_metadata api_upload (us ++ rest)
      results st
    = upload_each stringify_tags stringify_metadata api_upload rest
        (results ++ responses) st'
    /\ length responses = length us
    /\ Uploads.calls st' = (Uploads.calls st ++ map call_of us)%list
    /\ Uploads.invalidated st' = Uploads.invalidated st
    /\ Uploads.toasts st' = Uploads.toasts st
    /\ Uploads.console st' = Uploads.console st.
Proof.
  revert results st. induction us as [|u us IH]; intros results st H.
  - exists [], st. cbn. rewrite !app_nil_r. repeat split; reflexivity.
  - destruct H as [[result Hu] H]. cbn [app upload_each].
    unfold call_of in Hu. cbn [fst snd] in Hu. rewrite Hu.
    match goal with
    | |- context [upload_each _ _ _ (us ++ rest) ?res ?st1] =>
        destruct (IH res st1) as (responses & st' & E & Hl & Hc & Hi & Ht & Ho)
    end.
    { cbn. rewrite length_app. cbn.
      replace (length (Uploads.calls st) + 1) with (S (length (Uploads.calls st)))
        by lia.
      exact H. }
    exists (result :: responses), st'. cbn in Hc, Hi, Ht, Ho.
    split; [rewrite E, <- app_assoc; reflexivity|].
    split; [cbn; rewrite Hl; reflexivity|].
    split; [rewrite Hc, <- app_assoc; reflexivity|].
    repeat split; assumption.
Qed.

(** X15: several documents are uploaded one after the other, and the first
    failure ends it: the files after the one that failed are never tried,
    the mutation rejects with that failure, one console line names the
    file and an "Upload failed" toast is shown, and the document list is
    not invalidated although the files before had been uploaded. When
    every upload succeeds there is a response for each file in order, the
    list is invalidated once, and the toast gives their number. *)
Theorem uploads_stop_at_the_first_failure (st : Uploads.t) :
  (forall before u after detail,
      succeed_from (length (Uploads.calls st)) before ->
      api_upload (length (Uploads.calls st) + length before)
        (fst (call_of u)) (snd (call_of u)) = inr detail ->
      exists st',
        useUploadMultipleDocuments stringify_tags stringify_metadata
          api_upload (before ++ u :: after) st
        = (st', inr detail)
        /\ Uploads.calls st'
           = (Uploads.calls st ++ map call_of (before ++ [u]))%list
        /\ Uploads.invalidated st' = Uploads.invalidated st
        /\ Uploads.console st'
           = (Uploads.console st
              ++ [["Failed to upload "
                   +:+ File.name (DocumentUploadRequest.file u) +:+ ":"]])%list
        /\ exists t,
             Uploads.toasts st' = (Uploads.toasts st ++ [t])%list
             /\ Toast.title t = "Upload failed"
             /\ Toast.variant t = Some "destructive")
  /\ (forall uploads,
        succeed_from (length (Uploads.calls st)) uploads ->
        exists st' responses,
          useUploadMultipleDocuments stringify_tags stringify_metadata
            api_upload uploads st
          = (st', inl responses)
          /\ length responses = length uploads
          /\ Uploads.calls st' = (Uploads.calls st ++ map call_of uploads)%list
          /\ Uploads.invalidated st'
             = (Uploads.invalidated st ++ [["documents"]])%list
          /\ Uploads.console st' = Uploads.console st
          /\ exists t,
               Uploads.toasts st' = (Uploads.toasts st ++ [t])%list
               /\ Toast.title t = "Documents uploaded"
               /\ Toast.description t
                  = pretty (length uploads)
                    ++ " document(s) uploaded successfully and are being processed.").
Proof.
  split.
  - intros before u after detail Hb Hu.
    destruct (upload_each_successes before (u :: after) [] st Hb)
      as (responses & st1 & E & Hl & Hc & Hi & Ht & Ho).
    unfold useUploadMultipleDocuments. rewrite E. cbn [upload_each].
    unfold call_of in Hu. cbn [fst snd] in Hu.
    rewrite Hc, length_app, length_map, Hu.
    eexists. split; [reflexivity|]. cbn.
    rewrite map_app, app_assoc, Hi, Ho, Ht. cbn.
    repeat split; try reflexivity. eexists. repeat split; reflexivity.
  - intros uploads Hs.
    destruct (upload_each_successes uploads [] [] st Hs)
      as (responses & st1 & E & Hl & Hc & Hi & Ht & Ho).
    unfold useUploadMultipleDocuments.
    rewrite app_nil_r in E. rewrite E. cbn.
    eexists _, _. split; [reflexivity|]. cbn.
    rewrite Hl, Hc, Hi, Ht, Ho. repeat split; try reflexivity.
    eexists. repeat split; reflexivity.
Qed.

End UploadProperties.

(** ** The input and the page around the stream *)

Section CallerProperties.

Variable JSON_parse : string -> option StreamingChatResponse.t.
Variable trim : string -> string.

(** X16: the Enter key sends whatever the send button would send, and more: the
    button is disabled for a text over the length limit, the key handler
    does not look at the limit and sends it. What the key handler sends is
    always the trimmed text, not empty, and never while streaming or
    disabled. *)
Theorem enter_key_ignores_the_length_limit (p : MessageInput.Props) :
  (MessageInput.send_button_disabled trim p = false ->
   MessageInput.isStreaming p = false ->
   MessageInput.handleKeyDown trim p "Enter" false
   = Some (trim (MessageInput.value p))
   /\ MessageInput.handleSubmit trim p = Some (trim (MessageInput.value p)))
  /\ (MessageInput.isOverLimit p = true ->
      JS.truthy (trim (MessageInput.value p)) = true ->
      MessageInput.isStreaming p = false ->
      MessageInput.disabled p = false ->
      MessageInput.send_button_disabled trim p = true
      /\ MessageInput.handleKeyDown trim p "Enter" false
         = Some (trim (MessageInput.value p)))
  /\ (forall key shiftKey m,
        MessageInput.handleKeyDown trim p key shiftKey = Some m ->
        key = "Enter" /\ shiftKey = false
        /\ m = trim (MessageInput.value p) /\ m <> EmptyString
        /\ MessageInput.isStreaming p = false
        /\ MessageInput.disabled p = false).
Proof.
  unfold MessageInput.send_button_disabled, MessageInput.handleKeyDown,
    MessageInput.handleSubmit.
  split; [|split].
  - intros H Hs. rewrite Hs in *. cbn in *.
    destruct (MessageInput.disabled p); [discriminate|].
    destruct (JS.truthy (trim (MessageInput.value p))); [|discriminate].
    cbn. split; reflexivity.
  - intros Ho Ht Hs Hd. rewrite Ho, Ht, Hs, Hd. cbn. split; reflexivity.
  - intros key shiftKey m.
    destruct (String.eqb_spec key "Enter") as [->|]; [|discriminate].
    destruct shiftKey; [discriminate|]. cbn [negb andb].
    destruct (JS.truthy (trim (MessageInput.value p))) eqn:Ht;
      [|discriminate].
    destruct (MessageInput.isStreaming p); [discriminate|].
    destruct (MessageInput.disabled p); [discriminate|].
    cbn. intros [= <-]. repeat split.
    intros E. rewrite E in Ht. discriminate.
Qed.

Lemma send_request (cl : Closure.t) (message : string) (options : Options.t)
    (script : list Awaited) (d : Date) (w : World) :
  Closure.isStreaming cl = false ->
  fetches (fst (sendStreamingMessage JSON_parse cl message options script d w))
  = (fetches w ++ [request_of cl message options])%list.
Proof.
  intros H. unfold sendStreamingMessage, start. rewrite H.
  match goal with
  | |- context [run JSON_parse script d ?w1 ?p] =>
      rewrite (proj1 (run_effects JSON_parse script d w1 p))
  end.
  reflexivity.
Qed.

Lemma send_settled_resolved (cl : Closure.t) (message : string)
    (options : Options.t) (script : list Awaited) (d : Date) (w w' : World)
    (r : Settled) :
  sendStreamingMessage JSON_parse cl message options script d w
  = (w', settled r) ->
  r = resolved.
Proof.
  unfold sendStreamingMessage, start. destruct (Closure.isStreaming cl).
  - rewrite run_settled. intros [= _ <-]. reflexivity.
  - apply run_settled_resolved.
Qed.

(** X17: in a chat that exists, a text that is not blank is sent as it is, with
    the page's session, sources included and at most 5 of them, and no
    route is pushed. The input is cleared as soon as the call has ended,
    whatever its end, also after a failed request or a cancelled stream;
    until then it keeps its text. *)
Theorem input_is_cleared_once_the_call_has_ended (sessionId : option string)
    (messageText : string) (creation : ChatInterface.Creation)
    (script : list Awaited) (d : Date) (p : ChatInterface.t) :
  JS.truthy_opt sessionId = true ->
  JS.truthy (trim messageText) = true ->
  Hook.isStreaming (hook (ChatInterface.app p)) = false ->
  let r :=
    ChatInterface.handleSendMessage JSON_parse trim sessionId messageText
      creation script d p in
  let sent :=
    sendStreamingMessage JSON_parse
      (render sessionId (hook (ChatInterface.app p))) messageText
      {| Options.sessionId := sessionId; Options.includeSource := Some true;
         Options.maxSources := Some 5%Z |} script d (ChatInterface.app p) in
  ChatInterface.app (fst r) = fst sent
  /\ fetches (ChatInterface.app (fst r))
     = (fetches (ChatInterface.app p)
        ++ [{| ChatRequest.message := messageText;
               ChatRequest.session_id := sessionId;
               ChatRequest.include_sources := Some true;
               ChatRequest.max_sources := Some 5%Z |}])%list
  /\ ChatInterface.pushed (fst r) = ChatInterface.pushed p
  /\ (forall c, snd sent = awaiting c ->
        snd r = false
        /\ ChatInterface.message (fst r) = ChatInterface.message p)
  /\ (forall s, snd sent = settled s ->
        snd r = true /\ ChatInterface.message (fst r) = EmptyString).
Proof.
  intros Hs Ht Hi r sent. subst r sent.
  unfold ChatInterface.handleSendMessage, ChatInterface.send_and_clear.
  rewrite Hs, Ht, Hi. cbn [negb orb].
  pose proof (send_request (render sessionId (hook (ChatInterface.app p)))
                messageText
                {| Options.sessionId := sessionId;
                   Options.includeSource := Some true;
                   Options.maxSources := Some 5%Z |} script d
                (ChatInterface.app p) Hi) as Hf.
  destruct (sendStreamingMessage _ _ _ _ _ _ _) as [w' pr] eqn:E.
  cbn [fst snd] in *.
  assert (Hreq : fetches w'
                 = (fetches (ChatInterface.app p)
                    ++ [{| ChatRequest.message := messageText;
                           ChatRequest.session_id := sessionId;
                           ChatRequest.include_sources := Some true;
                           ChatRequest.max_sources := Some 5%Z |}])%list).
  { rewrite Hf. unfold request_of, JS.or_else. cbn. rewrite Hs. reflexivity. }
  destruct pr as [c|[|e]]; cbn [fst snd ChatInterface.app
    ChatInterface.message ChatInterface.pushed].
  - repeat split; try assumption; try reflexivity; intros; discriminate.
  - repeat split; try assumption; try reflexivity; intros; discriminate.
  - apply send_settled_resolved in E. discriminate.
Qed.

(** X18: on the page without a session the session is created first. If that
    fails, nothing is sent: no request, no route, the input keeps its
    text, a "Failed to create chat" toast is shown and one line goes to
    the console. If it succeeds, the route of the new session is pushed
    and the request carries the new session's identifier. *)
Theorem new_chat_is_created_before_the_message_is_sent
    (sessionId : option string) (messageText : string)
    (script : list Awaited) (d : Date) (p : ChatInterface.t) :
  JS.truthy_opt sessionId = false ->
  JS.truthy (trim messageText) = true ->
  Hook.isStreaming (hook (ChatInterface.app p)) = false ->
  (forall detail,
      let r :=
        ChatInterface.handleSendMessage JSON_parse trim sessionId messageText
          (ChatInterface.creation_failed detail) script d p in
      snd r = true
      /\ ChatInterface.message (fst r) = ChatInterface.message p
      /\ ChatInterface.pushed (fst r) = ChatInterface.pushed p
      /\ fetches (ChatInterface.app (fst r)) = fetches (ChatInterface.app p)
      /\ cache (ChatInterface.app (fst r)) = cache (ChatInterface.app p)
      /\ hook (ChatInterface.app (fst r)) = hook (ChatInterface.app p)
      /\ console (ChatInterface.app (fst r))
         = (console (ChatInterface.app p)
            ++ [["Failed to create session:"]])%list
      /\ exists t,
           toasts (ChatInterface.app (fst r))
           = (toasts (ChatInterface.app p) ++ [t])%list
           /\ Toast.title t = "Failed to create chat"
           /\ Toast.variant t = Some "destructive")
  /\ (forall newSession,
        JS.truthy (ChatSession.id newSession) = true ->
        let r :=
          ChatInterface.handleSendMessage JSON_parse trim sessionId
            messageText (ChatInterface.created newSession) script d p in
        ChatInterface.pushed (fst r)
        = (ChatInterface.pushed p
           ++ ["/chat/" +:+ ChatSession.id newSession])%list
        /\ fetches (ChatInterface.app (fst r))
           = (fetches (ChatInterface.app p)
              ++ [{| ChatRequest.message := messageText;
                     ChatRequest.session_id :=
                       Some (ChatSession.id newSession);
                     ChatRequest.include_sources := Some true;
                     ChatRequest.max_sources := Some 5%Z |}])%list).
Proof.
  intros Hs Ht Hi. split.
  - intros detail r. subst r. unfold ChatInterface.handleSendMessage.
    rewrite Hs, Ht, Hi. cbn.
    repeat split; try reflexivity. eexists. repeat split; reflexivity.
  - intros newSession Hid r. subst r.
    unfold ChatInterface.handleSendMessage, ChatInterface.send_and_clear.
    rewrite Hs, Ht, Hi. cbn [negb orb].
    match goal with
    | |- context [sendStreamingMessage JSON_parse ?cl ?m ?o script d ?w] =>
        pose proof (send_request cl m o script d w Hi) as Hf;
        destruct (sendStreamingMessage JSON_parse cl m o script d w)
          as [w' pr] eqn:E
    end.
    cbn [fst snd] in Hf.
    assert (Hreq : fetches w'
                   = (fetches (ChatInterface.app p)
                      ++ [{| ChatRequest.message := messageText;
                             ChatRequest.session_id :=
                               Some (ChatSession.id newSession);
                             ChatRequest.include_sources := Some true;
                             ChatRequest.max_sources := Some 5%Z |}])%list).
    { rewrite Hf. unfold request_of, JS.or_else. cbn. rewrite Hid.
      reflexivity. }
    destruct pr as [c|[|e]]; cbn; split; (reflexivity || exact Hreq).
Qed.

End CallerProperties.

(** ** The further properties at concrete inputs *)

(** A second chat is created beside s1 and deleted again. *)
Lemma create_then_delete_restores_the_list_witness :
  CHAT_SESSIONS (cache Sample.world0) = Some Cases.list0
  /\ occurrences "s2" Cases.list0 = 0
  /\ JS.isSafeInteger (ChatSessionsResponse.total Cases.list0) = true
  /\ CHAT_SESSIONS
       (cache (useDeleteChatSession_onSuccess "s2"
                 (useCreateChatSession_onSuccess Cases.session_s2
                    Sample.world0)))
     = Some Cases.list0.
Proof.
  assert (H1 : CHAT_SESSIONS (cache Sample.world0) = Some Cases.list0)
    by reflexivity.
  assert (H2 : occurrences (ChatSession.id Cases.session_s2) Cases.list0 = 0)
    by reflexivity.
  assert (H3 : JS.isSafeInteger (ChatSessionsResponse.total Cases.list0)
               = true) by reflexivity.
  split; [exact H1|]. split; [exact H2|]. split; [exact H3|].
  apply (create_then_delete_restores_the_list Cases.session_s2 Sample.world0
           Cases.list0 H1 H2 H3).
Defined.

(** Session s1 is renamed. *)
Lemma rename_reaches_both_views_witness :
  CHAT_SESSIONS (cache Sample.world0) = Some Cases.list0
  /\ exists l',
       CHAT_SESSIONS
         (cache (useUpdateChatSession_onSuccess Cases.renamed_s1
                   Sample.world0))
       = Some l'
       /\ map ChatSession.id (ChatSessionsResponse.sessions l')
          = map ChatSession.id (ChatSessionsResponse.sessions Cases.list0).
Proof.
  assert (H1 : CHAT_SESSIONS (cache Sample.world0) = Some Cases.list0)
    by reflexivity.
  split; [exact H1|].
  destruct (proj1 (proj2 (proj2
              (rename_reaches_both_views Cases.renamed_s1 Sample.world0)))
              Cases.list0 H1) as (l' & Hl & Hm & _).
  exists l'. split; assumption.
Defined.

(** Session s1 is deleted. *)
Lemma deleted_session_is_gone_witness :
  CHAT_SESSIONS (cache Sample.world0) = Some Cases.list0
  /\ "s2" <> "s1"
  /\ CHAT_SESSION (cache (useDeleteChatSession_onSuccess "s1" Sample.world0))
     !! "s2"
     = CHAT_SESSION (cache Sample.world0) !! "s2"
  /\ exists l',
       CHAT_SESSIONS (cache (useDeleteChatSession_onSuccess "s1" Sample.world0))
       = Some l'
       /\ occurrences "s1" l' = 0.
Proof.
  assert (H1 : CHAT_SESSIONS (cache Sample.world0) = Some Cases.list0)
    by reflexivity.
  assert (H2 : "s2" <> "s1") by discriminate.
  split; [exact H1|]. split; [exact H2|].
  destruct (deleted_session_is_gone "s1" Sample.world0) as (_ & Ho & Hl).
  split; [apply Ho, H2|].
  destruct (Hl Cases.list0 H1) as (l' & E & H0 & _).
  exists l'. split; assumption.
Defined.

(** A list of one session with count 1: deleting a session that is not in
    it leaves a list of one with count 0. *)
Lemma list_count_under_mutations_witness :
  counted Cases.list0
  /\ occurrences "s2" Cases.list0 = 0
  /\ exists l',
       remove_session "s2" (Some Cases.list0) = Some l'
       /\ ~ counted l'
       /\ ChatSessionsResponse.sessions l'
          = ChatSessionsResponse.sessions Cases.list0.
Proof.
  assert (H1 : counted Cases.list0) by reflexivity.
  assert (H2 : occurrences "s2" Cases.list0 = 0) by reflexivity.
  split; [exact H1|]. split; [exact H2|].
  eexists. split; [reflexivity|].
  destruct (proj2 (proj2 (list_count_under_mutations Cases.list0 H1))
              "s2" _ eq_refl) as [Hiff Hdrift].
  split; [|apply (Hdrift H2)].
  intros Hc. apply Hiff in Hc. rewrite H2 in Hc. discriminate.
Defined.

(** An answer for session s9, which is not cached. *)
Lemma send_to_uncached_session_stores_no_message_witness :
  CHAT_SESSION Sample.cache0 !! ChatResponse.session_id Cases.response_s9
  = None
  /\ CHAT_SESSION
       (useSendMessage_onSuccess Cases.response_s9 Sample.request0
          Sample.noon Sample.cache0)
     = CHAT_SESSION Sample.cache0.
Proof.
  assert (H : CHAT_SESSION Sample.cache0
              !! ChatResponse.session_id Cases.response_s9 = None)
    by (vm_compute; reflexivity).
  split; [exact H|].
  apply (send_to_uncached_session_stores_no_message Cases.response_s9
           Sample.request0 Sample.noon Sample.cache0 H).
Defined.

Lemma scenario_lines_framed :
  Forall2 (Events.framed Json.JSON_parse) Cases.scenario_lines
    Cases.scenario_events.
Proof.
  repeat constructor.
  - exists (Sample.token "The"). split; [reflexivity|vm_compute; reflexivity].
  - exists (Sample.token " GDPR"). split; [reflexivity|vm_compute; reflexivity].
  - exists (Sample.sources [Sample.docA_json]).
    split; [reflexivity|vm_compute; reflexivity].
  - exists (Sample.done "msg_1"). split; [reflexivity|vm_compute; reflexivity].
Defined.

(** The four lines of the scenario. *)
Lemma stream_of_events_assembles_witness :
  Forall2 (Events.framed Json.JSON_parse) Cases.scenario_lines
    Cases.scenario_events
  /\ assembled
       (fold_left (handle_line Json.JSON_parse) Cases.scenario_lines
          Sample.loop0)
     = ("The GDPR", [Sample.docA], "msg_1").
Proof.
  split; [exact scenario_lines_framed|].
  apply (stream_of_events_assembles Json.JSON_parse Cases.scenario_lines
           Cases.scenario_events Sample.loop0 scenario_lines_framed).
Defined.

(** A done event without its line feed is lost: the stream does what the
    stream without it does. *)
Lemma text_after_the_last_line_feed_is_dropped_witness :
  JS.split (Sample.line (Sample.done "msg_1"))
  = [Sample.line (Sample.done "msg_1")]
  /\ JS.concat Cases.unterminated
     = (Sample.line (Sample.token "The") ++ String JS.LF EmptyString)
       ++ Sample.line (Sample.done "msg_1")
  /\ Sample.send
       (fetch_fulfilled Sample.ok_response
        :: map read_value Cases.unterminated ++ [read_done])
       Sample.noon Sample.world0
     = Sample.send
         [fetch_fulfilled Sample.ok_response;
          read_value (Sample.data (Sample.token "The")); read_done]
         Sample.noon Sample.world0.
Proof.
  assert (H1 : JS.split (Sample.line (Sample.done "msg_1"))
               = [Sample.line (Sample.done "msg_1")])
    by (vm_compute; reflexivity).
  assert (H2 : JS.concat Cases.unterminated
               = (Sample.line (Sample.token "The") ++ String JS.LF EmptyString)
                 ++ Sample.line (Sample.done "msg_1"))
    by (vm_compute; reflexivity).
  split; [exact H1|]. split; [exact H2|].
  apply (text_after_the_last_line_feed_is_dropped Json.JSON_parse
           Cases.unterminated (Sample.line (Sample.token "The"))
           (Sample.line (Sample.done "msg_1")) Sample.callback0
           Sample.question Sample.options_s1 Sample.ok_response Sample.noon
           Sample.world0 H1 H2).
Defined.

(** The scenario's stream read to its end. *)
Lemma a_call_shows_at_most_one_toast_witness :
  Closure.isStreaming Sample.callback0 = false
  /\ Response.ok Sample.ok_response = true
  /\ Response.has_body Sample.ok_response = true
  /\ exists w',
       Sample.send
         (fetch_fulfilled Sample.ok_response
          :: map read_value [Sample.scenario] ++ [read_done])
         Sample.noon Sample.world0
       = (w', settled resolved)
       /\ toasts w' = toasts Sample.world0.
Proof.
  split; [reflexivity|]. split; [reflexivity|]. split; [reflexivity|].
  apply (proj2 (a_call_shows_at_most_one_toast Json.JSON_parse
                  Sample.callback0 Sample.question Sample.options_s1
                  Sample.noon Sample.world0)
           Sample.ok_response [Sample.scenario]); reflexivity.
Defined.

(** The server answers 500. *)
Lemma bad_response_ends_the_call_witness :
  Closure.isStreaming Sample.callback0 = false
  /\ Response.ok Cases.error_response = false
  /\ exists w' t,
       Sample.send
         [fetch_fulfilled Cases.error_response; read_value Sample.scenario]
         Sample.noon Sample.world0
       = (w', settled resolved)
       /\ toasts w' = (toasts Sample.world0 ++ [t])%list
       /\ Toast.description t = "HTTP error! status: 500".
Proof.
  assert (H1 : Closure.isStreaming Sample.callback0 = false) by reflexivity.
  assert (H2 : Response.ok Cases.error_response = false) by reflexivity.
  split; [exact H1|]. split; [exact H2|].
  destruct (bad_response_ends_the_call Json.JSON_parse Sample.callback0
              Sample.question Sample.options_s1 Cases.error_response
              [read_value Sample.scenario] Sample.noon Sample.world0 H1
              (or_introl H2)) as (w' & t & E & Ht & _ & Hd & _).
  exists w', t. split; [exact E|]. split; [exact Ht|]. exact Hd.
Defined.

(** After the failed call the next send starts. *)
Lemma after_a_call_has_ended_the_next_one_starts_witness :
  Closure.isStreaming Sample.callback0 = false
  /\ Sample.send [fetch_fulfilled Cases.error_response] Sample.noon
       Sample.world0
     = (fst (Sample.send [fetch_fulfilled Cases.error_response] Sample.noon
               Sample.world0), settled resolved)
  /\ hook (fst (Sample.send [fetch_fulfilled Cases.error_response]
                  Sample.noon Sample.world0))
     = Hook.initial.
Proof.
  assert (H1 : Closure.isStreaming Sample.callback0 = false) by reflexivity.
  assert (H2 : Sample.send [fetch_fulfilled Cases.error_response] Sample.noon
                 Sample.world0
               = (fst (Sample.send [fetch_fulfilled Cases.error_response]
                         Sample.noon Sample.world0), settled resolved))
    by (vm_compute; reflexivity).
  split; [exact H1|]. split; [exact H2|].
  apply (after_a_call_has_ended_the_next_one_starts Json.JSON_parse
           Sample.callback0 Sample.question Sample.options_s1
           [fetch_fulfilled Cases.error_response] Sample.noon Sample.world0 _
           resolved H1 H2).
Defined.

(** While the first answer streams, the callback of before the stream is
    called again. *)
Lemma old_callback_restarts_over_a_running_stream_witness :
  Sample.send Sample.script1 Sample.noon Sample.world0
  = (Sample.world1, awaiting Sample.call1)
  /\ Hook.streamingMessage (hook Sample.world1) = "The"
  /\ exists w' c',
       start Sample.callback0 "And the AI Act?" Sample.options_s1
         Sample.world1
       = (w', awaiting c')
       /\ Hook.streamingMessage (hook w') = EmptyString
       /\ length (fetches w') = 2.
Proof.
  assert (H : Sample.send Sample.script1 Sample.noon Sample.world0
              = (Sample.world1, awaiting Sample.call1))
    by (vm_compute; reflexivity).
  split; [exact H|]. split; [vm_compute; reflexivity|].
  destruct (old_callback_restarts_over_a_running_stream Json.JSON_parse
              Sample.callback0 Sample.question Sample.options_s1
              Sample.script1 Sample.noon Sample.world0 Sample.world1
              Sample.call1 "And the AI Act?" Sample.options_s1 H)
    as (w' & c' & E & Hf & Hm & _).
  exists w', c'. split; [exact E|]. split; [exact Hm|].
  rewrite Hf, length_app. vm_compute. reflexivity.
Defined.

(** Three documents of 1024, 2048 and 512 bytes. *)
Lemma dashboard_counters_add_up_witness :
  Forall (fun doc => (0 <= Document.file_size doc)%Z)
    (DocumentSearchResponse.documents Cases.page3)
  /\ Stats.totalSize (stats (Some Cases.page3)) = 3584%Z
  /\ Stats.totalDocuments (stats (Some Cases.page3)) = 3%Z.
Proof.
  assert (H : Forall (fun doc => (0 <= Document.file_size doc)%Z)
                (DocumentSearchResponse.documents Cases.page3))
    by (repeat constructor; discriminate).
  split; [exact H|].
  destruct (dashboard_counters_add_up Cases.page3)
    as (Ht & _ & _ & _ & _ & Hs).
  split; [apply (Hs H); reflexivity | exact Ht].
Defined.

(** Three pages of 20: five loads ask for three offsets when pages count
    from one, and for offset 0 five times when they count from zero. *)
Lemma scrolling_walks_pages_counted_from_one_witness :
  0 < 3
  /\ useInfiniteDocuments (Cases.page_of 1) 5 = [0; 20; 40]%Z
  /\ useInfiniteDocuments (Cases.page_of 0) 5 = [0; 0; 0; 0; 0]%Z.
Proof.
  assert (H : 0 < 3) by lia.
  split; [exact H|]. split.
  - apply (proj1 (scrolling_walks_pages_counted_from_one (Cases.page_of 1)
                    3 5 H)).
    intros offset. split; reflexivity.
  - apply (proj2 (scrolling_walks_pages_counted_from_one (Cases.page_of 0)
                    3 5 H)); reflexivity.
Defined.

(** Of three files the second fails: two calls are made, the third file is
    not tried. *)
Lemma uploads_stop_at_the_first_failure_witness :
  succeed_from Cases.stringify_tags Cases.stringify_metadata
    Cases.second_fails 0 [Cases.upload_of "a.pdf"]
  /\ exists st',
       useUploadMultipleDocuments Cases.stringify_tags
         Cases.stringify_metadata Cases.second_fails
         [Cases.upload_of "a.pdf"; Cases.upload_of "b.pdf";
          Cases.upload_of "c.pdf"] Cases.no_uploads
       = (st', inr (Some "File too large"))
       /\ length (Uploads.calls st') = 2
       /\ Uploads.invalidated st' = [].
Proof.
  assert (H1 : succeed_from Cases.stringify_tags Cases.stringify_metadata
                 Cases.second_fails (length (Uploads.calls Cases.no_uploads))
                 [Cases.upload_of "a.pdf"]).
  { split; [|exact I]. eexists. reflexivity. }
  split; [exact H1|].
  destruct (proj1 (uploads_stop_at_the_first_failure Cases.stringify_tags
                     Cases.stringify_metadata Cases.second_fails
                     Cases.no_uploads)
              [Cases.upload_of "a.pdf"] (Cases.upload_of "b.pdf")
              [Cases.upload_of "c.pdf"] (Some "File too large") H1 eq_refl)
    as (st' & E & Hc & Hi & _).
  exists st'. split; [exact E|]. split; [rewrite Hc; reflexivity | exact Hi].
Defined.

(** A text of 4001 characters: the button is disabled, Enter sends it. *)
Lemma enter_key_ignores_the_length_limit_witness :
  MessageInput.isOverLimit Cases.long_input = true
  /\ MessageInput.send_button_disabled Text.trim Cases.long_input = true
  /\ MessageInput.handleKeyDown Text.trim Cases.long_input "Enter" false
     = Some (Text.trim (MessageInput.value Cases.long_input))
  /\ MessageInput.handleKeyDown Text.trim Cases.short_input "Enter" false
     = Some "What does the GDPR require?".
Proof.
  assert (H1 : MessageInput.isOverLimit Cases.long_input = true)
    by (vm_compute; reflexivity).
  assert (H2 : JS.truthy (Text.trim (MessageInput.value Cases.long_input))
               = true) by (vm_compute; reflexivity).
  split; [exact H1|].
  destruct (proj1 (proj2 (enter_key_ignores_the_length_limit Text.trim
                            Cases.long_input)) H1 H2 eq_refl eq_refl)
    as [Hb Hk].
  split; [exact Hb|]. split; [exact Hk|].
  apply (proj1 (proj1 (enter_key_ignores_the_length_limit Text.trim
                         Cases.short_input) eq_refl eq_refl)).
Defined.

(** The question is sent in chat s1 and the server answers 500: the input
    is empty afterwards. *)
Lemma input_is_cleared_once_the_call_has_ended_witness :
  JS.truthy_opt (Some "s1") = true
  /\ JS.truthy (Text.trim Sample.question) = true
  /\ Hook.isStreaming (hook (ChatInterface.app Cases.page0)) = false
  /\ ChatInterface.message
       (fst (ChatInterface.handleSendMessage Json.JSON_parse Text.trim
               (Some "s1") Sample.question
               (ChatInterface.creation_failed None)
               [fetch_fulfilled Cases.error_response] Sample.noon
               Cases.page0))
     = EmptyString.
Proof.
  assert (H1 : JS.truthy_opt (Some "s1") = true) by reflexivity.
  assert (H2 : JS.truthy (Text.trim Sample.question) = true)
    by (vm_compute; reflexivity).
  assert (H3 : Hook.isStreaming (hook (ChatInterface.app Cases.page0)) = false)
    by reflexivity.
  split; [exact H1|]. split; [exact H2|]. split; [exact H3|].
  apply (proj2 (proj2 (proj2 (proj2
           (input_is_cleared_once_the_call_has_ended Json.JSON_parse
              Text.trim (Some "s1") Sample.question
              (ChatInterface.creation_failed None)
              [fetch_fulfilled Cases.error_response] Sample.noon Cases.page0
              H1 H2 H3)))) resolved).
  vm_compute. reflexivity.
Defined.

(** The first question on the page without a session, with the creation
    failing and with the creation giving session s2. *)
Lemma new_chat_is_created_before_the_message_is_sent_witness :
  JS.truthy_opt None = false
  /\ JS.truthy (Text.trim Sample.question) = true
  /\ fetches
       (ChatInterface.app
          (fst (ChatInterface.handleSendMessage Json.JSON_parse Text.trim
                  None Sample.question
                  (ChatInterface.creation_failed (Some "Quota exceeded"))
                  Sample.script1 Sample.noon Cases.page0)))
     = []
  /\ ChatInterface.pushed
       (fst (ChatInterface.handleSendMessage Json.JSON_parse Text.trim
               None Sample.question (ChatInterface.created Cases.session_s2)
               Sample.script1 Sample.noon Cases.page0))
     = ["/chat/s2"].
Proof.
  assert (H1 : JS.truthy_opt None = false) by reflexivity.
  assert (H2 : JS.truthy (Text.trim Sample.question) = true)
    by (vm_compute; reflexivity).
  split; [exact H1|]. split; [exact H2|].
  destruct (new_chat_is_created_before_the_message_is_sent Json.JSON_parse
              Text.trim None Sample.question Sample.script1 Sample.noon
              Cases.page0 H1 H2 eq_refl) as [Hfail Hok].
  split.
  - destruct (Hfail (Some "Quota exceeded")) as (_ & _ & _ & Hf & _).
    exact Hf.
  - destruct (Hok Cases.session_s2 eq_refl) as [Hp _]. exact Hp.
Defined.
